(** * Language-model tutorial notebook: embedding and properties

    Shallow embedding of the Python code cells of
    [docs/examples/language_model/language_model.ipynb]:
    [detach], [evaluate], [train], [get_batch], [evaluate_cache] and the
    top-level assignments of the notebook's code cells.

    The deep-learning framework (mxnet, gluonnlp) is not part of the
    notebook.  It enters as an interface ([Framework], [Model],
    [CacheModel]) whose operations the notebook calls, and the state it keeps
    between two calls (parameter values, gradients, the learning rate of the
    trainer, whether autograd is recording, the files written) is the
    [World] that the statements of the notebook pass along, together with a
    log of the calls made.  Python floats enter as an interface too
    ([PyFloat]): no property below depends on rounding.

    What is left out: exceptions raised inside the framework (its calls are
    total functions here); wall-clock reads ([time.time()]) and the
    throughput figures computed from them; the formatting done by [print],
    with the perplexity [math.exp(...)] it shows.  What a [print] shows of
    the loop variables is kept, as an event of the log. *)

From Stdlib Require Import ZArith QArith Lia List.
From stdpp Require Import base list strings gmap pretty.
Import ListNotations.
Open Scope Z_scope.
Set Warnings "-register-all".

(** ** Python values shared by all cells *)

Inductive PyExn : Type :=
| ZeroDivisionError
| ValueError
| NameError
| IndexError
| AttributeError
| TypeError.

Inductive Result (A : Type) : Type :=
| Ok (a : A)
| Raise (e : PyExn).
Arguments Ok {A} a.
Arguments Raise {A} e.

(** Python floats, as far as the notebook uses them: the literals [0.0] and
    [float("Inf")], other literals, conversion of an int, [+], [*], [/] and
    [<]. *)
Class PyFloat (F : Type) : Type := {
  f_zero : F;
  f_inf : F;
  f_of_int : Z -> F;
  f_lit : Q -> F;
  f_add : F -> F -> F;
  f_mul : F -> F -> F;
  f_div : F -> F -> F;
  f_ltb : F -> F -> bool
}.

(** [x / n] for a float [x] and an int [n]: Python raises when [n] is 0. *)
Definition py_truediv {F} `{PyFloat F} (x : F) (n : Z) : Result F :=
  if n =? 0 then Raise ZeroDivisionError else Ok (f_div x (f_of_int n)).

(** [a // b] on ints, for the positive divisors the notebook has. *)
Definition py_floordiv (a b : Z) : Result Z :=
  if b =? 0 then Raise ZeroDivisionError else Ok (a / b).

(** [sum(l)] of a list of floats: Python starts from the int 0. *)
Definition py_sum {F} `{PyFloat F} (l : list F) : F :=
  fold_left f_add l (f_of_int 0).

(** [len(l)] *)
Definition len {A} (l : list A) : Z := Z.of_nat (length l).

(** [l[0]] *)
Definition py_getitem0 {A} (l : list A) : Result A :=
  match l with
  | [] => Raise IndexError
  | x :: _ => Ok x
  end.

(** A slice bound [k] of a sequence of length [n], as Python normalises it:
    a negative bound counts from the end, and the result is clamped to
    [0..n]. *)
Definition py_bound (n k : Z) : Z :=
  if k <? 0 then Z.max 0 (k + n) else Z.min k n.

(** [l[start:stop]] *)
Definition py_slice {A} (l : list A) (start stop : Z) : list A :=
  let a := py_bound (len l) start in
  let b := py_bound (len l) stop in
  take (Z.to_nat (b - a)) (drop (Z.to_nat a) l).

(** What [get_batch] asks of its [data_source]: [len] and slicing. *)
Class Sliceable (S : Type) : Type := {
  sl_len : S -> Z;
  sl_slice : S -> Z -> Z -> S
}.

#[export] Instance list_Sliceable (A : Type) : Sliceable (list A) := {
  sl_len := len;
  sl_slice := py_slice
}.

(** The elements of [range(start, stop, step)], at most [fuel] of them. *)
Fixpoint range_from (fuel : nat) (start stop step : Z) : list Z :=
  match fuel with
  | O => []
  | S fuel' =>
      if (if 0 <? step then start <? stop else stop <? start)
      then start :: range_from fuel' (start + step) stop step
      else []
  end.

(** [range(start, stop, step)]; Python raises [ValueError] for a zero step. *)
Definition py_range (start stop step : Z) : Result (list Z) :=
  if step =? 0 then Raise ValueError
  else Ok (range_from (Z.to_nat (Z.abs (stop - start))) start stop step).

(** [range(n)] *)
Definition py_range1 (n : Z) : list Z :=
  range_from (Z.to_nat n) 0 n 1.

(** [enumerate(l)], counting from [k] *)
Fixpoint enumerate_from {A} (k : Z) (l : list A) : list (Z * A) :=
  match l with
  | [] => []
  | x :: l' => (k, x) :: enumerate_from (k + 1) l'
  end.

Definition enumerate {A} (l : list A) : list (Z * A) := enumerate_from 0 l.

(** [zip(l1, l2, l3)]: stops with the shortest. *)
Fixpoint zip3 {A B C} (l1 : list A) (l2 : list B) (l3 : list C)
    : list (A * B * C) :=
  match l1, l2, l3 with
  | a :: l1', b :: l2', c :: l3' => (a, b, c) :: zip3 l1' l2' l3'
  | _, _, _ => []
  end.

(** ** The framework *)

(** [mx.cpu()], [mx.gpu(i)] *)
Inductive Context : Type :=
| cpu
| gpu (i : Z).

(** The [func] argument of [begin_state]. *)
Inductive InitFunc : Type :=
| mx_nd_zeros
| mx_nd_ones.

(** The recurrent state handed around by the framework: a tensor, or a tuple
    or list of states. *)
Inductive Hidden (T : Type) : Type :=
| HLeaf (t : T)
| HTuple (l : list (Hidden T))
| HList (l : list (Hidden T)).
Arguments HLeaf {T} t.
Arguments HTuple {T} l.
Arguments HList {T} l.

(** Nesting shape of a state. *)
Inductive Shape : Type :=
| SLeaf
| STuple (l : list Shape)
| SList (l : list Shape).

(** The shape in which every tuple has become a list. *)
Fixpoint as_lists (s : Shape) : Shape :=
  match s with
  | SLeaf => SLeaf
  | STuple l => SList (map as_lists l)
  | SList l => SList (map as_lists l)
  end.

(** [for x in hidden] *)
Definition hidden_items {T} (h : Hidden T) : list (Hidden T) :=
  match h with
  | HLeaf _ => []
  | HTuple l => l
  | HList l => l
  end.

(** [hidden[j] = x], on a list *)
Definition hidden_setitem {T} (h : Hidden T) (j : Z) (x : Hidden T) : Hidden T :=
  match h with
  | HList l => HList (<[Z.to_nat j := x]> l)
  | _ => h
  end.

(** Operations on tensors ([NDArray]), gradients and the trainer that the
    notebook calls.  [F] is the type of Python floats. *)
Class Framework (F NDArray Params Grads : Type) : Type := {
  nd_detach : NDArray -> NDArray;                (* t.detach() *)
  as_in_context : NDArray -> Context -> NDArray; (* t.as_in_context(ctx) *)
  nd_context : NDArray -> Context;               (* t.context *)
  reshape_m3_m1 : NDArray -> NDArray;            (* t.reshape(-3, -1) *)
  reshape_m1 : NDArray -> NDArray;               (* t.reshape(-1) *)
  nd_size : NDArray -> Z;                        (* t.size *)
  nd_shape1 : NDArray -> Z;                      (* t.shape[1] *)
  nd_len : NDArray -> Z;                         (* len(t) *)
  nd_slice : NDArray -> Z -> Z -> NDArray;       (* t[a:b] *)
  nd_iter : NDArray -> list NDArray;             (* for x in t *)
  nd_sum : NDArray -> NDArray;                   (* mx.nd.sum(t) *)
  nd_log : NDArray -> NDArray;                   (* mx.nd.log(t) *)
  nd_neg : NDArray -> NDArray;                   (* -t *)
  asscalar : NDArray -> F;                       (* t.asscalar() *)
  nd_add : NDArray -> NDArray -> NDArray;        (* t + u *)
  nd_radd_int : Z -> NDArray -> NDArray;         (* n + t *)
  nd_div_int : NDArray -> Z -> NDArray;          (* t / n *)
  loss : NDArray -> NDArray -> NDArray;          (* SoftmaxCrossEntropyLoss *)
  split_and_load : NDArray -> list Context -> list NDArray;
  backward : Params -> NDArray -> Grads -> Grads;        (* L.backward() *)
  clip_global_norm : list Context -> F -> Grads -> Grads;
  trainer_step : F -> Z -> Params -> Grads -> Params     (* trainer.step(n) *)
}.

(** A loop body that may [return]. *)
Inductive Flow (R S : Type) : Type :=
| Return (r : R)
| Continue (s : S).
Arguments Return {R S} r.
Arguments Continue {R S} s.

Section Notebook.
Context {F NDArray Params Grads : Type}.
Context `{PyFloat F} `{Framework F NDArray Params Grads}.

#[export] Instance NDArray_Sliceable : Sliceable NDArray := {
  sl_len := nd_len;
  sl_slice := nd_slice
}.

(** A recurrent language model: [model(x, hidden)], which depends on the
    parameter values and on whether autograd is recording, and
    [model.begin_state(batch_size, func, ctx)]. *)
Record Model : Type := {
  m_call : Params -> bool -> NDArray -> Hidden NDArray ->
           NDArray * Hidden NDArray;
  m_begin_state : Z -> InitFunc -> Context -> Hidden NDArray
}.

(** The cache model:
    [model(data, target, next_word_history, cache_history, hidden)]
    returns [(outs, next_word_history, cache_history, hidden)]. *)
Record CacheModel : Type := {
  c_call : Params -> NDArray -> NDArray -> option NDArray ->
           option NDArray -> Hidden NDArray ->
           NDArray * NDArray * NDArray * Hidden NDArray;
  c_begin_state : Z -> InitFunc -> Context -> Hidden NDArray
}.

(** What the [print] calls show of the program's variables. *)
Inductive Msg : Type :=
| MsgBatch (epoch i n : Z) (cur_L : F)
| MsgEpoch (epoch : Z)
| MsgValid (epoch : Z) (val_L : F)
| MsgTest (test_L : F)
| MsgLearningRate (lr : F)
| MsgTotal
| MsgCacheBatch (i : Z) (mean_L : F).

(** Calls into the framework that act on its state, and [print]. *)
Inductive Event : Type :=
| ECall (x : NDArray) (h_in h_out : Hidden NDArray)
| ECacheCall (data target : NDArray) (h_in h_out : Hidden NDArray)
| ELoss (pred label : NDArray)
| ERecordEnter
| ERecordExit
| EBackward (L : NDArray)
| EClipGlobalNorm (ctxs : list Context) (max_norm : F)
| EStep (n : Z)
| EWaitAll
| ESaveParams (fname : string)
| ESetLearningRate (lr : F)
| EPrint (m : Msg).

(** A log entry: the event and [autograd.is_recording()] when it
    happened. *)
Definition Entry : Type := bool * Event.

(** State of the framework between two statements of the notebook. *)
Record World : Type := mkWorld {
  w_params : Params;                  (* parameter values of the model *)
  w_grads : Grads;                    (* their gradient buffers *)
  w_lr : F;                           (* trainer.learning_rate *)
  w_recording : bool;                 (* autograd.is_recording() *)
  w_files : list (string * Params);   (* files written by save_params *)
  w_log : list Entry                  (* calls so far, oldest first *)
}.

Definition set_params (w : World) (p : Params) : World :=
  mkWorld p (w_grads w) (w_lr w) (w_recording w) (w_files w) (w_log w).
Definition set_grads (w : World) (g : Grads) : World :=
  mkWorld (w_params w) g (w_lr w) (w_recording w) (w_files w) (w_log w).
Definition set_lr (w : World) (x : F) : World :=
  mkWorld (w_params w) (w_grads w) x (w_recording w) (w_files w) (w_log w).
Definition set_recording (w : World) (b : bool) : World :=
  mkWorld (w_params w) (w_grads w) (w_lr w) b (w_files w) (w_log w).
Definition add_file (w : World) (name : string) : World :=
  mkWorld (w_params w) (w_grads w) (w_lr w) (w_recording w)
          ((name, w_params w) :: w_files w) (w_log w).
Definition log_event (w : World) (e : Event) : World :=
  mkWorld (w_params w) (w_grads w) (w_lr w) (w_recording w) (w_files w)
          (w_log w ++ [(w_recording w, e)]).

(** Statements: they change the world and return a value or raise; what
    was done before an exception stays done. *)
Definition M (A : Type) : Type := World -> Result A * World.

#[export] Instance M_ret : MRet M := fun A a w => (Ok a, w).
#[export] Instance M_bind : MBind M := fun A B k m w =>
  match m w with
  | (Ok a, w') => k a w'
  | (Raise e, w') => (Raise e, w')
  end.

Definition raise {A} (e : PyExn) : M A := fun w => (Raise e, w).
Definition lift {A} (r : Result A) : M A := fun w => (r, w).
Definition emit (e : Event) : M unit := fun w => (Ok tt, log_event w e).

(** [for x in l: s = body(s, x)] *)
Fixpoint for_each {A S} (l : list A) (s : S) (body : S -> A -> M S) : M S :=
  match l with
  | [] => mret s
  | x :: l' => s' ← body s x; for_each l' s' body
  end.

Fixpoint for_each_ret {A S R} (l : list A) (s : S)
    (body : S -> A -> M (Flow R S)) : M (Flow R S) :=
  match l with
  | [] => mret (Continue s)
  | x :: l' =>
      r ← body s x;
      match r with
      | Return v => mret (Return v)
      | Continue s' => for_each_ret l' s' body
      end
  end.

(** [model(x, h)] *)
Definition call_model (model : Model) (x : NDArray) (h : Hidden NDArray)
    : M (NDArray * Hidden NDArray) := fun w =>
  let r := m_call model (w_params w) (w_recording w) x h in
  (Ok r, log_event w (ECall x h (snd r))).

(** [model(data, target, next_word_history, cache_history, hidden)] *)
Definition call_cache_model (model : CacheModel) (data target : NDArray)
    (next_word_history cache_history : option NDArray)
    (hidden : Hidden NDArray)
    : M (NDArray * NDArray * NDArray * Hidden NDArray) := fun w =>
  let r := c_call model (w_params w) data target next_word_history
                  cache_history hidden in
  (Ok r, log_event w (ECacheCall data target hidden (snd r))).

(** [loss(pred, label)] *)
Definition call_loss (pred label : NDArray) : M NDArray := fun w =>
  (Ok (loss pred label), log_event w (ELoss pred label)).

(** [with autograd.record(): body]: recording is switched on for the body
    and put back to what it was when the block is left, also by an
    exception. *)
Definition with_record {A} (body : M A) : M A := fun w =>
  let prev := w_recording w in
  let '(r, w') := body (set_recording (log_event w ERecordEnter) true) in
  (r, log_event (set_recording w' prev) ERecordExit).

(** [L.backward()] *)
Definition call_backward (L : NDArray) : M unit := fun w =>
  (Ok tt, log_event (set_grads w (backward (w_params w) L (w_grads w)))
                    (EBackward L)).

(** [gluon.utils.clip_global_norm(grads, max_norm)], on the gradients of
    all parameters on the contexts [ctxs] *)
Definition call_clip_global_norm (ctxs : list Context) (max_norm : F)
    : M unit := fun w =>
  (Ok tt, log_event (set_grads w (clip_global_norm ctxs max_norm (w_grads w)))
                    (EClipGlobalNorm ctxs max_norm)).

(** [trainer.step(n)] *)
Definition call_step (n : Z) : M unit := fun w =>
  (Ok tt, log_event (set_params w (trainer_step (w_lr w) n (w_params w)
                                                (w_grads w)))
                    (EStep n)).

(** [trainer.set_learning_rate(lr)] *)
Definition call_set_learning_rate (x : F) : M unit := fun w =>
  (Ok tt, log_event (set_lr w x) (ESetLearningRate x)).

(** [model.save_params(fname)] *)
Definition call_save_params (fname : string) : M unit := fun w =>
  (Ok tt, log_event (add_file w fname) (ESaveParams fname)).

(** ** Cell 2: environment *)

Definition num_gpus : Z := 1.
Definition context : list Context :=
  if num_gpus =? 0 then [cpu] else map gpu (py_range1 num_gpus).
Definition log_interval : Z := 200.

(** ** Cell 3: hyperparameters ([bptt] is bound again in cell 17 and is an
    argument of the functions that read it) *)

Definition batch_size : Z := 20 * len context.
Definition grad_clip : F := f_lit 0.25.

(** ** Cells 4 and 5: names used in the file name of the parameters *)

Definition dataset_name : string := "wikitext-2".
Definition model_name : string := "standard_lstm_lm_200".

(** ['{}_{}-{}.params'.format(model_name, dataset_name, epoch)] *)
Definition params_file (epoch : Z) : string :=
  model_name +:+ "_" +:+ dataset_name +:+ "-" +:+ pretty epoch +:+ ".params".

(** ** Cell 7: [detach] *)

Section Detach.
Context {T : Type}.
(** [t.detach()] on one tensor *)
Variable leaf_detach : T -> T.

(** [def detach(hidden)], for any type of tensors *)
Fixpoint detach_with (hidden : Hidden T) : Hidden T :=
  match hidden with
  | HTuple l => HList (map detach_with l)
  | HList l => HList (map detach_with l)
  | HLeaf t => HLeaf (leaf_detach t)
  end.

Fixpoint shape_of (h : Hidden T) : Shape :=
  match h with
  | HLeaf _ => SLeaf
  | HTuple l => STuple (map shape_of l)
  | HList l => SList (map shape_of l)
  end.

(** Tensors of a state, left to right. *)
Fixpoint leaves (h : Hidden T) : list T :=
  match h with
  | HLeaf t => [t]
  | HTuple l => concat (map leaves l)
  | HList l => concat (map leaves l)
  end.
End Detach.

Definition detach (hidden : Hidden NDArray) : Hidden NDArray :=
  detach_with nd_detach hidden.

(** ** Cell 8: [evaluate] *)

(** Body of the loop of [evaluate]; the state is
    [(total_L, ntotal, hidden)], and [ib] is the pair [(i, (data, target))]
    that [enumerate] yields. *)
Definition evaluate_step (model : Model) (ctx : Context)
    (st : F * Z * Hidden NDArray) (ib : Z * (NDArray * NDArray))
    : M (F * Z * Hidden NDArray) :=
  let '(total_L, ntotal, hidden) := st in
  let '(i, (data, target)) := ib in
  let data := as_in_context data ctx in
  let target := as_in_context target ctx in
  '(output, hidden) ← call_model model data hidden;
  let hidden := detach hidden in
  L ← call_loss (reshape_m3_m1 output) (reshape_m1 target);
  let total_L := f_add total_L (asscalar (nd_sum L)) in
  let ntotal := ntotal + nd_size L in
  mret (total_L, ntotal, hidden).

Definition evaluate (model : Model) (data_source : list (NDArray * NDArray))
    (batch_size : Z) (ctx : Context) : M F :=
  let total_L := f_zero in
  let ntotal := 0 in
  let hidden := m_begin_state model batch_size mx_nd_zeros ctx in
  '(total_L, ntotal, _) ←
    for_each (enumerate data_source) (total_L, ntotal, hidden)
             (evaluate_step model ctx);
  lift (py_truediv total_L ntotal).

(** ** Cell 9: [train] *)

(** The variable [L] of the training loop: the int 0, then a tensor. *)
Inductive PyAcc : Type :=
| AccInt (n : Z)
| AccNd (t : NDArray).

(** [L + t] *)
Definition acc_add (L : PyAcc) (t : NDArray) : PyAcc :=
  match L with
  | AccInt n => AccNd (nd_radd_int n t)
  | AccNd a => AccNd (nd_add a t)
  end.

(** Body of the loop over the contexts, inside [autograd.record()]; the
    state is [(L, Ls, hiddens)]. *)
Definition train_forward (model : Model)
    (st : PyAcc * list NDArray * Hidden NDArray)
    (jxyh : Z * (NDArray * NDArray * Hidden NDArray))
    : M (PyAcc * list NDArray * Hidden NDArray) :=
  let '(L, Ls, hiddens) := st in
  let '(j, (X, y, h)) := jxyh in
  '(output, h) ← call_model model X h;
  batch_L ← call_loss (reshape_m3_m1 output) (reshape_m1 y);
  ctx0 ← lift (py_getitem0 context);
  let L := acc_add L (nd_div_int (as_in_context batch_L ctx0) (nd_size X)) in
  let Ls := Ls ++ [nd_div_int batch_L (nd_size X)] in
  let hiddens := hidden_setitem hiddens j h in
  mret (L, Ls, hiddens).

(** Body of the loop over the batches of one epoch; the state is
    [(total_L, hiddens)]. *)
Definition train_batch (model : Model) (epoch n_batches : Z)
    (st : F * Hidden NDArray) (ib : Z * (NDArray * NDArray))
    : M (F * Hidden NDArray) :=
  let '(total_L, hiddens) := st in
  let '(i, (data, target)) := ib in
  let data_list := split_and_load data context in
  let target_list := split_and_load target context in
  let hiddens := detach hiddens in
  let L := AccInt 0 in
  let Ls := [] in
  '(L, Ls, hiddens) ←
    with_record
      (for_each (enumerate (zip3 data_list target_list (hidden_items hiddens)))
                (L, Ls, hiddens) (train_forward model));
  L ← match L with
      | AccNd t => mret t
      | AccInt _ => raise AttributeError
      end;
  _ ← call_backward L;
  _ ← call_clip_global_norm (map nd_context data_list) grad_clip;
  _ ← call_step 1;
  let total_L :=
    f_add total_L (py_sum (map (fun l => asscalar (nd_sum l)) Ls)) in
  if (i mod log_interval =? 0) && (0 <? i) then
    cur_L ← lift (py_truediv total_L log_interval);
    _ ← emit (EPrint (MsgBatch epoch i n_batches cur_L));
    mret (f_zero, hiddens)
  else mret (total_L, hiddens).

(** The loop over the batches of one epoch, from fresh states. *)
Definition train_batches (model : Model) (epoch : Z)
    (train_data : list (NDArray * NDArray)) : M (F * Hidden NDArray) :=
  let total_L := f_zero in
  hiddens ←
    for_each context []
      (fun hs ctx =>
         n ← lift (py_floordiv batch_size (len context));
         mret (hs ++ [m_begin_state model n mx_nd_zeros ctx]));
  for_each (enumerate train_data) (total_L, HList hiddens)
           (train_batch model epoch (len train_data)).

(** What follows the batches in an epoch: validation, then either the test
    evaluation and the saving of the parameters, or the decay of the learning
    rate.  The state is [(best_val, lr)]. *)
Definition train_epoch_end (model : Model)
    (val_data test_data : list (NDArray * NDArray))
    (st : F * F) (epoch : Z) : M (F * F) :=
  let '(best_val, lr) := st in
  _ ← emit EWaitAll;
  _ ← emit (EPrint (MsgEpoch epoch));
  ctx0 ← lift (py_getitem0 context);
  val_L ← evaluate model val_data batch_size ctx0;
  _ ← emit (EPrint (MsgValid epoch val_L));
  if f_ltb val_L best_val then
    let best_val := val_L in
    ctx0 ← lift (py_getitem0 context);
    test_L ← evaluate model test_data batch_size ctx0;
    _ ← call_save_params (params_file epoch);
    _ ← emit (EPrint (MsgTest test_L));
    mret (best_val, lr)
  else
    let lr := f_mul lr (f_lit 0.25) in
    _ ← emit (EPrint (MsgLearningRate lr));
    _ ← call_set_learning_rate lr;
    mret (best_val, lr).

(** Body of the loop over the epochs. *)
Definition train_epoch (model : Model)
    (train_data val_data test_data : list (NDArray * NDArray))
    (st : F * F) (epoch : Z) : M (F * F) :=
  _ ← train_batches model epoch train_data;
  train_epoch_end model val_data test_data st epoch.

(** The loop over the epochs [es], from [(best_val, lr)]. *)
Definition train_epochs (model : Model)
    (train_data val_data test_data : list (NDArray * NDArray))
    (es : list Z) (st : F * F) : M (F * F) :=
  for_each es st (train_epoch model train_data val_data test_data).

Definition train (model : Model)
    (train_data val_data test_data : list (NDArray * NDArray))
    (epochs : Z) (lr : F) : M unit :=
  let best_val := f_inf in
  _ ← train_epochs model train_data val_data test_data (py_range1 epochs)
                   (best_val, lr);
  emit (EPrint MsgTotal).

(** ** Cell 19: [get_batch] *)

(** [bptt] is the notebook global read when the function runs; [seq_len] is
    [None] or an int. *)
Definition get_batch {S} `{Sliceable S} (bptt : Z) (data_source : S) (i : Z)
    (seq_len : option Z) : S * S :=
  let seq_len :=
    Z.min (match seq_len with
           | Some s => if s =? 0 then bptt else s
           | None => bptt
           end)
          (sl_len data_source - 1 - i) in
  let data := sl_slice data_source i (i + seq_len) in
  let target := sl_slice data_source (i + 1) (i + 1 + seq_len) in
  (data, target).

(** ** Cell 20: [evaluate_cache] *)

(** Body of the loop of [evaluate_cache]; the state is
    [(total_L, next_word_history, cache_history, hidden)]. *)
Definition evaluate_cache_step (model : CacheModel) (bptt : Z)
    (data_source : NDArray) (ctx : Context)
    (st : F * option NDArray * option NDArray * Hidden NDArray) (i : Z)
    : M (Flow F (F * option NDArray * option NDArray * Hidden NDArray)) :=
  let '(total_L, next_word_history, cache_history, hidden) := st in
  _ ← (if 0 <? i then
         mean_L ← lift (py_truediv total_L i);
         emit (EPrint (MsgCacheBatch i mean_L))
       else mret tt);
  if i =? bptt then
    r ← lift (py_truediv total_L i);
    mret (Return r)
  else
    let '(data, target) := get_batch bptt data_source i None in
    let data := as_in_context data ctx in
    let target := as_in_context target ctx in
    let L := f_of_int 0 in
    '(outs, next_word_history, cache_history, hidden) ←
      call_cache_model model data target next_word_history cache_history
                       hidden;
    let L := fold_left (fun L out => f_add L (asscalar (nd_neg (nd_log out))))
                       (nd_iter outs) L in
    q ← lift (py_truediv L (nd_shape1 data));
    let total_L := f_add total_L q in
    let hidden := detach hidden in
    mret (Continue (total_L, Some next_word_history, Some cache_history,
                    hidden)).

Definition evaluate_cache (model : CacheModel) (bptt : Z)
    (data_source : NDArray) (batch_size : Z) (ctx : Context) : M F :=
  let total_L := f_zero in
  let hidden := c_begin_state model batch_size mx_nd_zeros ctx in
  let next_word_history := None in
  let cache_history := None in
  idx ← lift (py_range 0 (nd_len data_source - 1) bptt);
  r ← for_each_ret idx (total_L, next_word_history, cache_history, hidden)
        (evaluate_cache_step model bptt data_source ctx);
  match r with
  | Return v => mret v
  | Continue (total_L, _, _, _) =>
      lift (py_truediv total_L (nd_len data_source))
  end.

(** ** Notions used to state the properties *)

(** The world [w] after the entries [d] have been logged. *)
Definition extend_log (w : World) (d : list Entry) : World :=
  mkWorld (w_params w) (w_grads w) (w_lr w) (w_recording w) (w_files w)
          (w_log w ++ d).

(** The loss tensors that a model with parameters [p] yields on the batches
    [ds], one per batch, when the first batch is run from the state [h] and
    each later batch from the detached state that the batch before it left;
    [r] tells whether autograd is recording. *)
Fixpoint eval_losses (model : Model) (p : Params) (r : bool) (ctx : Context)
    (h : Hidden NDArray) (ds : list (NDArray * NDArray)) : list NDArray :=
  match ds with
  | [] => []
  | (data, target) :: ds' =>
      let out := m_call model p r (as_in_context data ctx) h in
      loss (reshape_m3_m1 (fst out)) (reshape_m1 (as_in_context target ctx))
      :: eval_losses model p r ctx (detach (snd out)) ds'
  end.

(** The calls behind [eval_losses], as log entries. *)
Fixpoint eval_entries (model : Model) (p : Params) (r : bool) (ctx : Context)
    (h : Hidden NDArray) (ds : list (NDArray * NDArray)) : list Entry :=
  match ds with
  | [] => []
  | (data, target) :: ds' =>
      let out := m_call model p r (as_in_context data ctx) h in
      (r, ECall (as_in_context data ctx) h (snd out))
      :: (r, ELoss (reshape_m3_m1 (fst out))
                   (reshape_m1 (as_in_context target ctx)))
      :: eval_entries model p r ctx (detach (snd out)) ds'
  end.

(** Sum of a list of floats from [0.0], in the order of the list. *)
Definition float_sum (l : list F) : F := fold_left f_add l f_zero.

(** Sum of a list of ints. *)
Definition int_sum (l : list Z) : Z := fold_left Z.add l 0.

(** The states that the calls of the model received and returned, in the
    order of the log. *)
Fixpoint calls_of (d : list Entry) : list (Hidden NDArray * Hidden NDArray) :=
  match d with
  | [] => []
  | (_, ECall _ h_in h_out) :: d' => (h_in, h_out) :: calls_of d'
  | (_, ECacheCall _ _ h_in h_out) :: d' => (h_in, h_out) :: calls_of d'
  | _ :: d' => calls_of d'
  end.

(** The first call receives [h]; every later call receives the detached
    state that the call before it returned. *)
Fixpoint carried_detached (h : Hidden NDArray)
    (calls : list (Hidden NDArray * Hidden NDArray)) : Prop :=
  match calls with
  | [] => True
  | (h_in, h_out) :: calls' =>
      h_in = h /\ carried_detached (detach h_out) calls'
  end.

(** The validation losses that the log shows, oldest first. *)
Fixpoint valid_losses (d : list Entry) : list F :=
  match d with
  | [] => []
  | (_, EPrint (MsgValid _ v)) :: d' => v :: valid_losses d'
  | _ :: d' => valid_losses d'
  end.

(** Where the training loop stands between two calls of the framework. *)
Inductive Phase : Type :=
| Idle             (* between batches, or evaluating *)
| Entered          (* inside autograd.record(), before a forward pass *)
| Called           (* forward pass done, loss to come *)
| Scored           (* loss computed *)
| Exited           (* autograd.record() left *)
| Backpropagated   (* L.backward() done *)
| Clipped.         (* gradients clipped *)

(** The order of the calls of one batch; an entry is stamped [true] inside
    [autograd.record()] and nowhere else. *)
Inductive phase_step : Phase -> Entry -> Phase -> Prop :=
| ps_eval_call x h_in h_out : phase_step Idle (false, ECall x h_in h_out) Idle
| ps_eval_loss pred label : phase_step Idle (false, ELoss pred label) Idle
| ps_print m : phase_step Idle (false, EPrint m) Idle
| ps_wait : phase_step Idle (false, EWaitAll) Idle
| ps_save fname : phase_step Idle (false, ESaveParams fname) Idle
| ps_set_lr x : phase_step Idle (false, ESetLearningRate x) Idle
| ps_enter : phase_step Idle (false, ERecordEnter) Entered
| ps_call x h_in h_out : phase_step Entered (true, ECall x h_in h_out) Called
| ps_loss pred label : phase_step Called (true, ELoss pred label) Scored
| ps_next x h_in h_out : phase_step Scored (true, ECall x h_in h_out) Called
| ps_exit : phase_step Scored (false, ERecordExit) Exited
| ps_backward L : phase_step Exited (false, EBackward L) Backpropagated
| ps_clip ctxs :
    phase_step Backpropagated (false, EClipGlobalNorm ctxs grad_clip) Clipped
| ps_step : phase_step Clipped (false, EStep 1) Idle.

(** The entries [d] lead from phase [s] to phase [s']. *)
Fixpoint phases (s : Phase) (d : list Entry) (s' : Phase) : Prop :=
  match d with
  | [] => s = s'
  | e :: d' => exists s1, phase_step s e s1 /\ phases s1 d' s'
  end.

(** The entries [d] are a run of the training loop between two batches:
    they lead from [Idle] back to [Idle]. *)
Definition run_of (d : list Entry) : Prop := phases Idle d Idle.

(** From [w] to [w']: the log grows by entries that satisfy [P] when
    autograd was not recording at [w], and recording is as it was. *)
Definition advances (P : list Entry -> Prop) (w w' : World) : Prop :=
  exists d, w_log w' = w_log w ++ d /\
            w_recording w' = w_recording w /\
            (w_recording w = false -> P d).

(** The entries [d] show no validation loss. *)
Definition quiet (d : list Entry) : Prop := valid_losses d = [].

(** From [w] to [w'] the log grows by entries that satisfy [P]. *)
Definition grows (P : list Entry -> Prop) (w w' : World) : Prop :=
  exists d, w_log w' = w_log w ++ d /\ P d.

(** The value that [evaluate] returns, or the exception it raises, for
    parameters [p] on the batches [ds] from the state [h]. *)
Definition eval_result (model : Model) (p : Params) (r : bool) (ctx : Context)
    (h : Hidden NDArray) (ds : list (NDArray * NDArray)) : Result F :=
  let Ls := eval_losses model p r ctx h ds in
  py_truediv (float_sum (map (fun L => asscalar (nd_sum L)) Ls))
             (int_sum (map nd_size Ls)).

(** Whether each event lies inside an [autograd.record()] block, read off
    the enter and exit events; [inside] tells it for the first event. *)
Fixpoint record_scope (inside : bool) (evs : list Event) : list bool :=
  match evs with
  | [] => []
  | ERecordEnter :: evs' => inside :: record_scope true evs'
  | ERecordExit :: evs' => false :: record_scope false evs'
  | _ :: evs' => inside :: record_scope inside evs'
  end.

(** A forward pass of the model or a loss computation. *)
Definition is_forward_or_loss (e : Event) : Prop :=
  match e with
  | ECall _ _ _ => True
  | ELoss _ _ => True
  | _ => False
  end.

(** The backward pass, the clipping of the gradients or the optimizer
    step. *)
Definition is_update (e : Event) : Prop :=
  match e with
  | EBackward _ => True
  | EClipGlobalNorm _ _ => True
  | EStep _ => True
  | _ => False
  end.

(** The phases inside [autograd.record()]. *)
Definition in_record (s : Phase) : bool :=
  match s with
  | Entered => true
  | Called => true
  | Scored => true
  | _ => false
  end.

(** Between [w] and [w'] nothing but the log differs. *)
Definition only_logged (w w' : World) : Prop :=
  w_params w' = w_params w /\ w_grads w' = w_grads w /\
  w_lr w' = w_lr w /\ w_recording w' = w_recording w /\
  w_files w' = w_files w.

(** Between [w] and [w'] the learning rate of the trainer, the files and
    the recording flag are the same. *)
Definition same_session (w w' : World) : Prop :=
  w_lr w' = w_lr w /\ w_recording w' = w_recording w /\
  w_files w' = w_files w.

(** The recording flag is the same in [w] and [w']. *)
Definition same_recording (w w' : World) : Prop :=
  w_recording w' = w_recording w.

(** What [g] reads in the entries of a log, oldest first. *)
Definition view {X} (g : Event -> option X) (d : list Entry) : list X :=
  omap (fun e => g (snd e)) d.

(** The entries [d] show nothing that [g] reads. *)
Definition silent {X} (g : Event -> option X) (d : list Entry) : Prop :=
  view g d = [].

(** The argument of an optimizer step. *)
Definition step_size (e : Event) : option Z :=
  match e with EStep n => Some n | _ => None end.

(** The arguments of the optimizer steps that the log shows. *)
Definition steps_of : list Entry -> list Z := view step_size.

(** The test loss that a line of the output shows. *)
Definition test_loss_of (e : Event) : option F :=
  match e with EPrint (MsgTest v) => Some v | _ => None end.

(** The test losses that the log shows. *)
Definition test_losses : list Entry -> list F := view test_loss_of.

(** The epoch, the batch and the number of batches that a progress line of
    the training loop shows. *)
Definition batch_line_of (e : Event) : option (Z * Z * Z) :=
  match e with
  | EPrint (MsgBatch epoch i n _) => Some (epoch, i, n)
  | _ => None
  end.

(** The progress lines of the batches that the log shows. *)
Definition batch_lines : list Entry -> list (Z * Z * Z) := view batch_line_of.

(** The condition under which a batch prints its progress line. *)
Definition logging (i : Z) : bool := (i mod log_interval =? 0) && (0 <? i).

(** The batch and the loss that a progress line of the training loop
    shows. *)
Definition progress_value_of (e : Event) : option (Z * F) :=
  match e with
  | EPrint (MsgBatch _ i _ cur_L) => Some (i, cur_L)
  | _ => None
  end.

(** The batches and losses of the progress lines that the log shows. *)
Definition progress_values : list Entry -> list (Z * F) :=
  view progress_value_of.

(** The numbers [mx.nd.sum(batch_L / X.size).asscalar()] of the losses that
    the log shows, each for the input [X] of the call of the model before
    it; [x] is the input of the last call, if any. *)
Fixpoint slice_losses (x : option NDArray) (d : list Entry) : list F :=
  match d with
  | [] => []
  | (_, ECall X _ _) :: d' => slice_losses (Some X) d'
  | (_, ELoss pred label) :: d' =>
      match x with
      | Some X =>
          asscalar (nd_sum (nd_div_int (loss pred label) (nd_size X)))
          :: slice_losses None d'
      | None => slice_losses None d'
      end
  | _ :: d' => slice_losses x d'
  end.

(** What the progress lines of an epoch show when batch [k] and the batches
    after it add [sum([x])] for the numbers [x] of [xs] to the running loss
    [acc]: a batch that logs shows the running loss divided by
    [log_interval] and starts again from zero. *)
Fixpoint progress (acc : F) (k : Z) (xs : list F) : list (Z * F) :=
  match xs with
  | [] => []
  | x :: xs' =>
      let acc' := f_add acc (py_sum [x]) in
      if logging k
      then (k, f_div acc' (f_of_int log_interval)) :: progress f_zero (k + 1) xs'
      else progress acc' (k + 1) xs'
  end.

(** The running loss after the numbers [xs], from [acc]. *)
Definition window_sum (acc : F) (xs : list F) : F :=
  fold_left (fun a x => f_add a (py_sum [x])) xs acc.

(** [lr * 0.25], the decay of the learning rate in [train]. *)
Definition decay (lr : F) : F := f_mul lr (f_lit 0.25).

(** Following the specification of the cache scoring loop: the body of the
    loop of [evaluate_cache] when every segment of the sequence is scored,
    that is the code without its [return] in the loop. *)
Definition evaluate_cache_whole_step (model : CacheModel) (bptt : Z)
    (data_source : NDArray) (ctx : Context)
    (st : F * option NDArray * option NDArray * Hidden NDArray) (i : Z)
    : M (F * option NDArray * option NDArray * Hidden NDArray) :=
  let '(total_L, next_word_history, cache_history, hidden) := st in
  _ ← (if 0 <? i then
         mean_L ← lift (py_truediv total_L i);
         emit (EPrint (MsgCacheBatch i mean_L))
       else mret tt);
  let '(data, target) := get_batch bptt data_source i None in
  let data := as_in_context data ctx in
  let target := as_in_context target ctx in
  '(outs, next_word_history, cache_history, hidden) ←
    call_cache_model model data target next_word_history cache_history hidden;
  let L := fold_left (fun L out => f_add L (asscalar (nd_neg (nd_log out))))
                     (nd_iter outs) (f_of_int 0) in
  q ← lift (py_truediv L (nd_shape1 data));
  mret (f_add total_L q, Some next_word_history, Some cache_history,
        detach hidden).

(** Following the specification: the mean, over [len(data_source)], of the
    negative log-probabilities accumulated over the whole sequence in
    segments of [bptt] tokens. *)
Definition evaluate_cache_whole (model : CacheModel) (bptt : Z)
    (data_source : NDArray) (batch_size : Z) (ctx : Context) : M F :=
  idx ← lift (py_range 0 (nd_len data_source - 1) bptt);
  '(total_L, _, _, _) ←
    for_each idx (f_zero, None, None,
                  c_begin_state model batch_size mx_nd_zeros ctx)
             (evaluate_cache_whole_step model bptt data_source ctx);
  lift (py_truediv total_L (nd_len data_source)).

(** The loss of the first segment of [data_source], the batch that
    [get_batch] cuts at index 0, divided by the batch width; the model is
    called once, from the state [begin_state] gives. *)
Definition first_segment (model : CacheModel) (bptt : Z)
    (data_source : NDArray) (batch_size : Z) (ctx : Context) : M F :=
  let '(data, target) := get_batch bptt data_source 0 None in
  let data := as_in_context data ctx in
  let target := as_in_context target ctx in
  '(outs, _, _, _) ←
    call_cache_model model data target None None
                     (c_begin_state model batch_size mx_nd_zeros ctx);
  q ← lift (py_truediv
              (fold_left (fun L out => f_add L (asscalar (nd_neg (nd_log out))))
                         (nd_iter outs) (f_of_int 0))
              (nd_shape1 data));
  mret (f_add f_zero q).

End Notebook.

(** ** The code cells as a script over the global names *)

#[export] Instance Result_ret : MRet Result := fun A a => Ok a.
#[export] Instance Result_bind : MBind Result := fun A B k r =>
  match r with
  | Ok a => k a
  | Raise e => Raise e
  end.

(** Values of global names: numbers, strings, the list of contexts, and
    objects of the framework, which the script only passes around. *)
Inductive PyVal : Type :=
| VInt (n : Z)
| VFloat (q : Q)
| VStr (s : string)
| VContexts (l : list Context)
| VObject (what : string).

(** Reading a global name. *)
Definition read_name (g : gmap string PyVal) (x : string) : Result PyVal :=
  match g !! x with
  | Some v => Ok v
  | None => Raise NameError
  end.

(** Binding several names to objects of one kind. *)
Definition bind_objects (names : list string) (what : string)
    (g : gmap string PyVal) : gmap string PyVal :=
  fold_left (fun g x => <[x := VObject what]> g) names g.

(** Reading several names, for a call that takes them as arguments or reads
    them as globals. *)
Fixpoint read_names (g : gmap string PyVal) (names : list string)
    : Result unit :=
  match names with
  | [] => Ok tt
  | x :: names' => _ ← read_name g x; read_names g names'
  end.

Definition cell_1 (g : gmap string PyVal) : Result (gmap string PyVal) :=
  Ok (bind_objects ["warnings"; "time"; "math"; "mx"; "gluon"; "autograd";
                    "download"; "nlp"] "module" g).

Definition cell_2 (g : gmap string PyVal) : Result (gmap string PyVal) :=
  let g := <["num_gpus" := VInt 1]> g in
  n ← read_name g "num_gpus";
  match n with
  | VInt n =>
      let g := <["context" :=
                 VContexts (if n =? 0 then [cpu] else map gpu (py_range1 n))]> g in
      Ok (<["log_interval" := VInt 200]> g)
  | _ => Raise TypeError
  end.

Definition cell_3 (g : gmap string PyVal) : Result (gmap string PyVal) :=
  c ← read_name g "context";
  match c with
  | VContexts l =>
      let g := <["batch_size" := VInt (20 * len l)]> g in
      let g := <["lr" := VInt 20]> g in
      let g := <["epochs" := VInt 3]> g in
      let g := <["bptt" := VInt 35]> g in
      Ok (<["grad_clip" := VFloat 0.25]> g)
  | _ => Raise TypeError
  end.

Definition cell_4 (g : gmap string PyVal) : Result (gmap string PyVal) :=
  let g := <["dataset_name" := VStr "wikitext-2"]> g in
  let g := bind_objects ["train_dataset"; "val_dataset"; "test_dataset"]
                        "dataset" g in
  let g := bind_objects ["vocab"] "vocab" g in
  _ ← read_names g ["vocab"; "bptt"; "batch_size"];
  Ok (bind_objects ["train_data"; "val_data"; "test_data"] "batches" g).

Definition cell_5 (g : gmap string PyVal) : Result (gmap string PyVal) :=
  let g := <["model_name" := VStr "standard_lstm_lm_200"]> g in
  _ ← read_names g ["model_name"; "vocab"];
  Ok (bind_objects ["vocab"] "vocab" (bind_objects ["model"] "model" g)).

Definition cell_6 (g : gmap string PyVal) : Result (gmap string PyVal) :=
  _ ← read_names g ["model"; "context"; "lr"];
  Ok (bind_objects ["trainer"; "loss"] "object" g).

Definition cell_7 (g : gmap string PyVal) : Result (gmap string PyVal) :=
  Ok (bind_objects ["detach"] "function" g).

Definition cell_8 (g : gmap string PyVal) : Result (gmap string PyVal) :=
  Ok (bind_objects ["evaluate"] "function" g).

Definition cell_9 (g : gmap string PyVal) : Result (gmap string PyVal) :=
  Ok (bind_objects ["train"] "function" g).

(** [train(model, train_data, val_data, test_data, epochs, lr)]: the
    arguments, and the globals the body of [train] and of [evaluate] read;
    [lr] is assigned inside [train] as a local name. *)
Definition cell_10 (g : gmap string PyVal) : Result (gmap string PyVal) :=
  _ ← read_names g ["train"; "model"; "train_data"; "val_data"; "test_data";
                    "epochs"; "lr"];
  _ ← read_names g ["context"; "batch_size"; "grad_clip"; "log_interval";
                    "trainer"; "loss"; "detach"; "evaluate"; "model_name";
                    "dataset_name"];
  Ok g.

Definition cell_11 (g : gmap string PyVal) : Result (gmap string PyVal) :=
  let g := <["TRAIN_PATH" := VStr "./sherlockholmes.train.txt"]> g in
  let g := <["VALID_PATH" := VStr "./sherlockholmes.valid.txt"]> g in
  let g := <["TEST_PATH" := VStr "./sherlockholmes.test.txt"]> g in
  let g := <["PREDICT_PATH" := VStr "./tinyshakespeare/input.txt"]> g in
  _ ← read_names g ["download"; "TRAIN_PATH"; "VALID_PATH"; "TEST_PATH";
                    "PREDICT_PATH"];
  Ok (bind_objects ["sherlockholmes_dataset"] "list" g).

Definition cell_12 (g : gmap string PyVal) : Result (gmap string PyVal) :=
  let g := bind_objects ["nltk"] "module" g in
  let g := bind_objects ["moses_tokenizer"] "tokenizer" g in
  let g := bind_objects ["sherlockholmes_val"] "dataset" g in
  _ ← read_names g ["sherlockholmes_val"; "vocab"; "bptt"; "batch_size"];
  Ok (bind_objects ["sherlockholmes_val_data"] "batches" g).

Definition cell_13 (g : gmap string PyVal) : Result (gmap string PyVal) :=
  _ ← read_names g ["evaluate"; "model"; "sherlockholmes_val_data";
                    "batch_size"; "context"; "loss"; "detach"];
  Ok (bind_objects ["sherlockholmes_L"] "float" g).

(** [train(model, sherlockholmes_val_data, ..., epochs=3, lr=20)] *)
Definition cell_14 (g : gmap string PyVal) : Result (gmap string PyVal) :=
  _ ← read_names g ["train"; "model"; "sherlockholmes_val_data"];
  _ ← read_names g ["context"; "batch_size"; "grad_clip"; "log_interval";
                    "trainer"; "loss"; "detach"; "evaluate"; "model_name";
                    "dataset_name"];
  Ok g.

Definition cell_15 (g : gmap string PyVal) : Result (gmap string PyVal) :=
  let g := <["awd_model_name" := VStr "awd_lstm_lm_1150"]> g in
  _ ← read_names g ["awd_model_name"; "vocab"; "dataset_name"; "context"];
  Ok (bind_objects ["vocab"] "vocab" (bind_objects ["awd_model"] "model" g)).

Definition cell_16 (g : gmap string PyVal) : Result (gmap string PyVal) :=
  _ ← read_names g ["evaluate"; "awd_model"; "val_data"; "test_data";
                    "batch_size"; "context"; "loss"; "detach"];
  Ok (bind_objects ["val_L"; "test_L"] "float" g).

Definition cell_17 (g : gmap string PyVal) : Result (gmap string PyVal) :=
  let g := <["window" := VInt 2]> g in
  let g := <["theta" := VFloat 0.662]> g in
  let g := <["lambdas" := VFloat 0.1279]> g in
  let g := <["bptt" := VInt 2000]> g in
  _ ← read_names g ["awd_model_name"; "dataset_name"; "window"; "theta";
                    "lambdas"; "context"];
  Ok (bind_objects ["cache_model"] "model" g).

Definition cell_18 (g : gmap string PyVal) : Result (gmap string PyVal) :=
  let g := <["val_batch_size" := VInt 1]> g in
  _ ← read_names g ["val_dataset"; "vocab"; "val_batch_size"];
  let g := bind_objects ["val_data"] "array" g in
  let g := <["test_batch_size" := VInt 1]> g in
  _ ← read_names g ["test_dataset"; "vocab"; "test_batch_size"];
  Ok (bind_objects ["test_data"] "array" g).

Definition cell_19 (g : gmap string PyVal) : Result (gmap string PyVal) :=
  Ok (bind_objects ["get_batch"] "function" g).

Definition cell_20 (g : gmap string PyVal) : Result (gmap string PyVal) :=
  Ok (bind_objects ["evaluate_cache"] "function" g).

(** [evaluate_cache(cache_model, ...)] twice; [evaluate_cache] and
    [get_batch] read the global [bptt]. *)
Definition cell_21 (g : gmap string PyVal) : Result (gmap string PyVal) :=
  _ ← read_names g ["evaluate_cache"; "cache_model"; "val_data"; "test_data";
                    "val_batch_size"; "context"];
  _ ← read_names g ["bptt"; "get_batch"; "detach"];
  Ok (bind_objects ["val_L"; "test_L"] "float" g).

Definition notebook_cells : list (gmap string PyVal -> Result (gmap string PyVal)) :=
  [cell_1; cell_2; cell_3; cell_4; cell_5; cell_6; cell_7; cell_8; cell_9;
   cell_10; cell_11; cell_12; cell_13; cell_14; cell_15; cell_16; cell_17;
   cell_18; cell_19; cell_20; cell_21].

(** Running cells in order. *)
Fixpoint run_cells (cells : list (gmap string PyVal -> Result (gmap string PyVal)))
    (g : gmap string PyVal) : Result (gmap string PyVal) :=
  match cells with
  | [] => Ok g
  | c :: cells' => g' ← c g; run_cells cells' g'
  end.

(** The value of the global [x] when code cell [k+1] starts, that is after
    the first [k] code cells have run from an empty namespace. *)
Definition global_after (k : nat) (x : string) : Result PyVal :=
  g ← run_cells (take k notebook_cells) ∅;
  read_name g x.

(** The names bound in the hyperparameter cell. *)
Definition hyperparameters : list string :=
  ["batch_size"; "lr"; "epochs"; "bptt"; "grad_clip"].

(** ** A small instance of the interfaces, to run the definitions on *)

(** Rationals with a point at infinity in the place of floats. *)
Inductive ToyFloat : Type :=
| Fin (q : Q)
| PosInf.

Definition toy_add (a b : ToyFloat) : ToyFloat :=
  match a, b with
  | Fin x, Fin y => Fin (Qred (x + y))
  | _, _ => PosInf
  end.

Definition toy_mul (a b : ToyFloat) : ToyFloat :=
  match a, b with
  | Fin x, Fin y => Fin (Qred (x * y))
  | _, _ => PosInf
  end.

Definition toy_div (a b : ToyFloat) : ToyFloat :=
  match a, b with
  | Fin x, Fin y => Fin (Qred (x / y))
  | Fin _, PosInf => Fin 0
  | PosInf, _ => PosInf
  end.

Definition toy_ltb (a b : ToyFloat) : bool :=
  match a, b with
  | Fin x, Fin y => (Qnum x * QDen y <? Qnum y * QDen x)
  | Fin _, PosInf => true
  | PosInf, _ => false
  end.

#[export] Instance toy_PyFloat : PyFloat ToyFloat := {
  f_zero := Fin 0;
  f_inf := PosInf;
  f_of_int n := Fin (inject_Z n);
  f_lit q := Fin q;
  f_add := toy_add;
  f_mul := toy_mul;
  f_div := toy_div;
  f_ltb := toy_ltb
}.

(** Tensors are vectors of ints that already hold negative log-probabilities;
    a parameter and a gradient are one int each. *)
#[export] Instance toy_Framework : Framework ToyFloat (list Z) Z Z := {
  nd_detach t := t;
  as_in_context t _ := t;
  nd_context _ := gpu 0;
  reshape_m3_m1 t := t;
  reshape_m1 t := t;
  nd_size t := Z.max 1 (len t);
  nd_shape1 _ := 1;
  nd_len t := len t;
  nd_slice t a b := py_slice t a b;
  nd_iter t := map (fun x => [x]) t;
  nd_sum t := [fold_left Z.add t 0];
  nd_log t := t;
  nd_neg t := t;
  asscalar t := Fin (inject_Z (fold_left Z.add t 0));
  nd_add t u := t ++ u;
  nd_radd_int n t := map (Z.add n) t;
  nd_div_int t n := map (fun x => x / n) t;
  loss pred label := map (fun _ => 1) label;
  split_and_load t ctxs := map (fun _ => t) ctxs;
  backward p L g := fold_left Z.add L 0;
  clip_global_norm _ _ g := Z.min g 1;
  trainer_step _ _ p g := p - g
}.

(** A model that adds its parameter to the input and keeps its state. *)
Definition toy_model : @Model (list Z) Z := {|
  m_call p r x h := (map (Z.add p) x, h);
  m_begin_state n f ctx := HList [HLeaf [0]; HLeaf [0]]
|}.

(** A cache model for which every target token has negative
    log-probability 1. *)
Definition toy_cache_model : @CacheModel (list Z) Z := {|
  c_call p data target nwh ch h := (map (fun _ => 1) target, target, data, h);
  c_begin_state n f ctx := HList [HLeaf [0]; HLeaf [0]]
|}.

Definition toy_world : @World ToyFloat (list Z) Z Z :=
  mkWorld 0 0 (Fin 20) false [] [].

(** Two batches of three tokens. *)
Definition toy_batches : list (list Z * list Z) :=
  [([1; 2; 3], [2; 3; 4]); ([4; 5; 6], [5; 6; 7])].

(** A sequence of 2002 tokens: one more than [bptt + 1] for [bptt = 2000]. *)
Definition toy_tokens : list Z := map Z.of_nat (seq 0 2002).

(** * Properties *)

(** ** [detach] *)

Section DetachFacts.
Context {T : Type} (leaf_detach : T -> T).

(** Induction over a state that reaches the states inside tuples and
    lists. *)
Lemma Hidden_nested_ind (P : Hidden T -> Prop) :
  (forall t, P (HLeaf t)) ->
  (forall l, Forall P l -> P (HTuple l)) ->
  (forall l, Forall P l -> P (HList l)) ->
  forall h, P h.
Proof.
  intros Hleaf Htuple Hlist.
  fix IH 1. intros [t|l|l].
  - apply Hleaf.
  - apply Htuple. induction l as [|h l IHl]; constructor; [apply IH | exact IHl].
  - apply Hlist. induction l as [|h l IHl]; constructor; [apply IH | exact IHl].
Qed.

Lemma Forall_map_ext {A B} (P : A -> Prop) (f g : A -> B) l :
  Forall P l -> (forall x, P x -> f x = g x) -> map f l = map g l.
Proof.
  induction 1 as [|x l Hx _ IH]; intros Hfg; simpl; [reflexivity|].
  rewrite (Hfg x Hx), IH by assumption. reflexivity.
Qed.

Lemma detach_shape h :
  shape_of (detach_with leaf_detach h) = as_lists (shape_of h).
Proof.
  induction h as [t|l IH|l IH] using Hidden_nested_ind; simpl;
    [reflexivity| |]; f_equal; rewrite !map_map;
    apply (Forall_map_ext _ _ _ _ IH); auto.
Qed.

Lemma detach_leaves h :
  leaves (detach_with leaf_detach h) = map leaf_detach (leaves h).
Proof.
  induction h as [t|l IH|l IH] using Hidden_nested_ind; simpl;
    [reflexivity| |]; rewrite map_map;
    (induction IH as [|x l Hx _ IHl]; simpl;
     [reflexivity | rewrite map_app, Hx, IHl; reflexivity]).
Qed.

Lemma detach_idem h :
  (forall t, leaf_detach (leaf_detach t) = leaf_detach t) ->
  detach_with leaf_detach (detach_with leaf_detach h) = detach_with leaf_detach h.
Proof.
  intros Hidem.
  induction h as [t|l IH|l IH] using Hidden_nested_ind; simpl;
    [rewrite Hidem; reflexivity| |]; f_equal; rewrite map_map;
    apply (Forall_map_ext _ _ _ _ IH); auto.
Qed.
End DetachFacts.

(** C9. For every nested structure of tuples and lists with tensor leaves,
    [detach] returns a structure of the same nesting shape in which every
    tuple and every list is a list, with the same leaves in the same order,
    each one detached; and when detaching a tensor twice is detaching it
    once, [detach (detach h) = detach h]. *)
Theorem detach_structure_and_idempotence
    {F NDArray Params Grads : Type} `{Framework F NDArray Params Grads}
    (h : Hidden NDArray) :
  shape_of (detach h) = as_lists (shape_of h) /\
  leaves (detach h) = map nd_detach (leaves h) /\
  ((forall t : NDArray, nd_detach (nd_detach t) = nd_detach t) ->
   detach (detach h) = detach h).
Proof.
  unfold detach. split; [apply detach_shape|].
  split; [apply detach_leaves|]. apply detach_idem.
Qed.

(** ** Slices and [get_batch] *)

Lemma py_slice_inside {A} (l : list A) (a b : Z) :
  0 <= a -> a <= b -> b <= len l ->
  py_slice l a b = take (Z.to_nat (b - a)) (drop (Z.to_nat a) l).
Proof.
  intros Ha Hab Hb. unfold py_slice, py_bound.
  destruct (Z.ltb_spec a 0); [lia|].
  destruct (Z.ltb_spec b 0); [lia|].
  rewrite !Z.min_l by lia. reflexivity.
Qed.

Lemma py_slice_length {A} (l : list A) (a b : Z) :
  0 <= a -> a <= b -> b <= len l -> len (py_slice l a b) = b - a.
Proof.
  intros Ha Hab Hb. rewrite py_slice_inside by assumption.
  unfold len in *. rewrite length_take, length_drop. lia.
Qed.

Lemma py_slice_lookup {A} (l : list A) (a b k : Z) :
  0 <= a -> a <= b -> b <= len l -> 0 <= k < b - a ->
  py_slice l a b !! Z.to_nat k = l !! Z.to_nat (a + k) /\
  is_Some (l !! Z.to_nat (a + k)).
Proof.
  intros Ha Hab Hb Hk. rewrite py_slice_inside by assumption.
  unfold len in *. rewrite lookup_take.
  destruct (decide (Z.to_nat k < Z.to_nat (b - a))%nat); [|lia].
  rewrite lookup_drop. replace (Z.to_nat a + Z.to_nat k)%nat with (Z.to_nat (a + k)) by lia.
  split; [reflexivity|]. apply lookup_lt_is_Some. lia.
Qed.

(** C8. For a sequence [data_source] and [0 <= i <= len(data_source) - 1],
    [get_batch(data_source, i)] is the pair of the slices
    [data_source[i : i+L]] and [data_source[i+1 : i+1+L]] with
    [L = min(bptt, len(data_source) - 1 - i)]; both have length [L], the
    [k]-th target is the element that follows the [k]-th datum in
    [data_source], and a [seq_len] of [None] or [0] stands for the global
    [bptt] (a non-negative number in the notebook). *)
Theorem get_batch_slices {A} (bptt : Z) (data_source : list A) (i : Z) :
  0 <= bptt ->
  0 <= i <= len data_source - 1 ->
  let L := Z.min bptt (len data_source - 1 - i) in
  let data := fst (get_batch bptt data_source i None) in
  let target := snd (get_batch bptt data_source i None) in
  data = py_slice data_source i (i + L) /\
  target = py_slice data_source (i + 1) (i + 1 + L) /\
  data = take (Z.to_nat L) (drop (Z.to_nat i) data_source) /\
  target = take (Z.to_nat L) (drop (Z.to_nat (i + 1)) data_source) /\
  len data = L /\ len target = L /\
  (forall k, 0 <= k < L ->
     exists x y,
       data !! Z.to_nat k = Some x /\
       target !! Z.to_nat k = Some y /\
       data_source !! Z.to_nat (i + k) = Some x /\
       data_source !! Z.to_nat (i + k + 1) = Some y) /\
  get_batch bptt data_source i (Some 0) = get_batch bptt data_source i None.
Proof.
  intros Hb Hi L data target. subst data target. unfold get_batch. simpl.
  fold L. assert (HL : 0 <= L) by (unfold L; lia).
  assert (HL' : i + 1 + L <= len data_source) by (unfold L; lia).
  split; [reflexivity|]. split; [reflexivity|].
  split; [rewrite py_slice_inside by lia; do 2 f_equal; lia|].
  split; [rewrite py_slice_inside by lia; do 2 f_equal; lia|].
  split; [rewrite py_slice_length by lia; lia|].
  split; [rewrite py_slice_length by lia; lia|].
  split; [|reflexivity].
  intros k Hk.
  destruct (py_slice_lookup data_source i (i + L) k) as [E1 [x Hx]]; try lia.
  destruct (py_slice_lookup data_source (i + 1) (i + 1 + L) k) as [E2 [y Hy]];
    try lia.
  exists x, y. rewrite E1, E2.
  replace (i + k + 1) with (i + 1 + k) by lia. auto.
Qed.

(** At the value that [bptt] has when [get_batch] is called (2000), on a
    sequence of five tokens, from index 1. *)
Lemma get_batch_slices_witness :
  fst (get_batch 2000 [10; 11; 12; 13; 14] 1 None) = [11; 12; 13] /\
  snd (get_batch 2000 [10; 11; 12; 13; 14] 1 None) = [12; 13; 14] /\
  len (fst (get_batch 2000 [10; 11; 12; 13; 14] 1 None)) = 3.
Proof.
  destruct (get_batch_slices 2000 [10; 11; 12; 13; 14] 1)
    as [Hdata [Htarget [_ [_ [Hlen _]]]]].
  - lia.
  - unfold len. simpl. lia.
  - split; [exact Hdata|]. split; [exact Htarget | exact Hlen].
Defined.

(** ** The global names *)

(** C7, as stated, fails: [bptt] does not keep the value of the
    hyperparameter cell. *)
Lemma hyperparameters_rebound :
  ~ (forall (k : nat) (x : string),
       (3 <= k <= 21)%nat -> x ∈ hyperparameters ->
       global_after k x = global_after 3 x).
Proof.
  intros Hc.
  specialize (Hc 17%nat "bptt" ltac:(lia)
                 ltac:(unfold hyperparameters; set_solver)).
  vm_compute in Hc. discriminate Hc.
Qed.

(** C7, amended. From the hyperparameter cell (the third code cell) to the
    end of the notebook, [batch_size], [lr], [epochs] and [grad_clip] keep
    the values 20, 20, 3 and 0.25.  [bptt] is 35 until the seventeenth code
    cell binds it again, to 2000: the batchifying cells and the training
    read 35, [get_batch] and [evaluate_cache] read 2000. *)
Theorem hyperparameters_values (k : nat) :
  (3 <= k <= 21)%nat ->
  global_after k "batch_size" = Ok (VInt 20) /\
  global_after k "lr" = Ok (VInt 20) /\
  global_after k "epochs" = Ok (VInt 3) /\
  global_after k "grad_clip" = Ok (VFloat 0.25) /\
  global_after k "bptt" = Ok (VInt (if (k <? 17)%nat then 35 else 2000)).
Proof.
  intros Hk.
  do 22 (destruct k as [|k]; [try lia; vm_compute; repeat split|]).
  lia.
Qed.

(** After the last code cell. *)
Lemma hyperparameters_values_witness :
  global_after 21 "bptt" = Ok (VInt 2000).
Proof.
  exact (proj2 (proj2 (proj2 (proj2
    (hyperparameters_values 21 ltac:(lia)))))).
Defined.

(** ** Worlds, statements and loops *)

Section Properties.
Context {F NDArray Params Grads : Type}.
Context `{PyFloat F} `{Framework F NDArray Params Grads}.

#[local] Abbreviation World := (@World F NDArray Params Grads).
#[local] Abbreviation M := (@M F NDArray Params Grads).
#[local] Abbreviation Model := (@Model NDArray Params).
#[local] Abbreviation CacheModel := (@CacheModel NDArray Params).
#[local] Abbreviation Entry := (@Entry F NDArray).
#[local] Abbreviation Event := (@Event F NDArray).

Lemma context_eq : context = [gpu 0].
Proof. reflexivity. Qed.

Lemma bind_run {A B} (m : M A) (k : A -> M B) (w : World) :
  (m ≫= k) w =
  match m w with
  | (Ok a, w') => k a w'
  | (Raise e, w') => (Raise e, w')
  end.
Proof. reflexivity. Qed.

Lemma extend_log_nil (w : World) : extend_log w [] = w.
Proof. destruct w. unfold extend_log. simpl. rewrite app_nil_r. reflexivity. Qed.

Lemma extend_log_app (w : World) d1 d2 :
  extend_log (extend_log w d1) d2 = extend_log w (d1 ++ d2).
Proof. unfold extend_log. simpl. rewrite app_assoc. reflexivity. Qed.

Lemma log_event_extend (w : World) e :
  log_event w e = extend_log w [(w_recording w, e)].
Proof. reflexivity. Qed.

Lemma for_each_app {A S} (l1 l2 : list A) (s : S) (body : S -> A -> M S)
    (w : World) :
  for_each (l1 ++ l2) s body w =
  (s' ← for_each l1 s body; for_each l2 s' body) w.
Proof.
  revert s w. induction l1 as [|x l1 IH]; intros s w; simpl.
  - rewrite bind_run. reflexivity.
  - rewrite !bind_run.
    destruct (body s x w) as [[s'|e] w']; [|reflexivity].
    rewrite IH, bind_run. reflexivity.
Qed.
(** ** [evaluate] *)

Lemma evaluate_loop (model : Model) (ctx : Context)
    (ds : list (NDArray * NDArray)) (k : Z) (total_L : F) (ntotal : Z)
    (h : Hidden NDArray) (w : World) :
  let Ls := eval_losses model (w_params w) (w_recording w) ctx h ds in
  exists h',
    for_each (enumerate_from k ds) (total_L, ntotal, h)
             (evaluate_step model ctx) w =
    (Ok (fold_left f_add (map (fun L => asscalar (nd_sum L)) Ls) total_L,
         fold_left Z.add (map nd_size Ls) ntotal, h'),
     extend_log w (eval_entries model (w_params w) (w_recording w) ctx h ds)).
Proof.
  revert k total_L ntotal h w.
  induction ds as [|[data target] ds IH]; intros k total_L ntotal h w; simpl.
  - exists h. rewrite extend_log_nil. reflexivity.
  - unfold mbind, M_bind, call_model, call_loss, mret, M_ret.
    destruct (m_call model (w_params w) (w_recording w) (as_in_context data ctx) h)
      as [output h1] eqn:Ecall.
    simpl.
    match goal with
    | |- context [for_each (enumerate_from ?k1 ds) ?st _ ?w1] =>
        destruct (IH k1 (fst (fst st)) (snd (fst st)) (snd st) w1) as [h' IH']
    end.
    simpl in IH'. exists h'. rewrite IH'. rewrite !log_event_extend, !extend_log_app.
    reflexivity.
Qed.

(** What [evaluate] returns and logs, whatever the data source. *)
Lemma evaluate_run (model : Model) (ds : list (NDArray * NDArray))
    (batch_size : Z) (ctx : Context) (w : World) :
  let h0 := m_begin_state model batch_size mx_nd_zeros ctx in
  let Ls := eval_losses model (w_params w) (w_recording w) ctx h0 ds in
  evaluate model ds batch_size ctx w =
  (py_truediv (float_sum (map (fun L => asscalar (nd_sum L)) Ls))
              (int_sum (map nd_size Ls)),
   extend_log w (eval_entries model (w_params w) (w_recording w) ctx h0 ds)).
Proof.
  intros h0 Ls. subst Ls.
  destruct (evaluate_loop model ctx ds 0 f_zero 0 h0 w) as [h' E].
  cbv zeta in E. unfold evaluate, enumerate. rewrite bind_run. fold h0.
  rewrite E.
  reflexivity.
Qed.

Lemma eval_losses_length (model : Model) p r ctx h ds :
  length (eval_losses model p r ctx h ds) = length ds.
Proof.
  revert h. induction ds as [|[data target] ds IH]; intros h; simpl;
    [reflexivity | rewrite IH; reflexivity].
Qed.

Lemma fold_add_sizes (l : list NDArray) (a : Z) :
  (forall t : NDArray, 0 < nd_size t) ->
  a + Z.of_nat (length l) <= fold_left Z.add (map nd_size l) a.
Proof.
  intros Hpos. revert a. induction l as [|t l IH]; intros a; simpl; [lia|].
  specialize (IH (a + nd_size t)). specialize (Hpos t). lia.
Qed.

(** C4. On a non-empty data source of [(data, target)] batches, [evaluate]
    starts from the state [begin_state(batch_size, func=mx.nd.zeros, ctx)]
    and returns the sum over the batches of [sum(loss(output, target))],
    divided by the total number of entries of the loss tensors; a loss
    tensor, as every tensor of the framework, has at least one entry. *)
Theorem evaluate_mean_loss (model : Model) (data_source : list (NDArray * NDArray))
    (batch_size : Z) (ctx : Context) (w : World) :
  data_source <> [] ->
  (forall t : NDArray, 0 < nd_size t) ->
  let hidden := m_begin_state model batch_size mx_nd_zeros ctx in
  let Ls := eval_losses model (w_params w) (w_recording w) ctx hidden
                        data_source in
  length Ls = length data_source /\
  fst (evaluate model data_source batch_size ctx w) =
  Ok (f_div (float_sum (map (fun L => asscalar (nd_sum L)) Ls))
            (f_of_int (int_sum (map nd_size Ls)))) /\
  carried_detached hidden
    (calls_of (eval_entries model (w_params w) (w_recording w) ctx hidden
                            data_source)) /\
  snd (evaluate model data_source batch_size ctx w) =
  extend_log w (eval_entries model (w_params w) (w_recording w) ctx hidden
                             data_source).
Proof.
  intros Hne Hpos hidden Ls.
  split; [apply eval_losses_length|].
  rewrite evaluate_run. fold hidden Ls. simpl.
  split; [|split; [|reflexivity]].
  - unfold py_truediv.
    pose proof (fold_add_sizes Ls 0 Hpos) as Hsum.
    assert (0 < Z.of_nat (length Ls)).
    { unfold Ls. rewrite eval_losses_length.
      destruct data_source; [congruence | simpl; lia]. }
    unfold int_sum.
    destruct (Z.eqb_spec (fold_left Z.add (map nd_size Ls) 0) 0); [lia|].
    reflexivity.
  - clear. generalize hidden. induction data_source as [|[data target] ds IH];
      intros h; simpl; [exact I|]. split; [reflexivity | apply IH].
Qed.

(** ** [evaluate_cache] *)

Lemma py_range_short (stop step : Z) :
  0 < step -> stop <= step ->
  py_range 0 stop step = Ok (if 0 <? stop then [0] else []).
Proof.
  intros Hstep Hstop. unfold py_range.
  destruct (Z.eqb_spec step 0); [lia|]. f_equal.
  rewrite Z.sub_0_r.
  destruct (Z.ltb_spec 0 stop) as [Hpos|Hneg].
  - destruct (Z.to_nat (Z.abs stop)) as [|fuel] eqn:Ef; [lia|].
    simpl. destruct (Z.ltb_spec 0 step); [|lia].
    destruct (Z.ltb_spec 0 stop); [|lia].
    destruct fuel as [|fuel]; [reflexivity|]. simpl.
    destruct (Z.ltb_spec 0 step); [|lia].
    destruct (Z.ltb_spec (0 + step) stop); [lia|]. reflexivity.
  - destruct (Z.to_nat (Z.abs stop)) as [|fuel]; [reflexivity|].
    simpl. destruct (Z.ltb_spec 0 step); [|lia].
    destruct (Z.ltb_spec 0 stop); [lia|]. reflexivity.
Qed.

Lemma py_range_long (stop step : Z) :
  0 < step -> step < stop ->
  exists rest, py_range 0 stop step = Ok (0 :: step :: rest).
Proof.
  intros Hstep Hstop. unfold py_range.
  destruct (Z.eqb_spec step 0); [lia|].
  rewrite Z.sub_0_r.
  destruct (Z.to_nat (Z.abs stop)) as [|[|fuel]] eqn:Ef; [lia|lia|].
  simpl. destruct (Z.ltb_spec 0 step); [|lia].
  destruct (Z.ltb_spec 0 stop); [|lia].
  destruct (Z.ltb_spec (0 + step) stop); [|lia].
  rewrite Z.add_0_l. eexists. reflexivity.
Qed.

Lemma py_truediv_ok (x : F) (n : Z) :
  n <> 0 -> py_truediv x n = Ok (f_div x (f_of_int n)).
Proof.
  intros Hn. unfold py_truediv. destruct (Z.eqb_spec n 0); [lia | reflexivity].
Qed.

(** The first round of the loop: no progress line, no [return]. *)
Lemma evaluate_cache_step_0 (model : CacheModel) (bptt : Z)
    (data_source : NDArray) (ctx : Context) st (w : World) :
  0 < bptt ->
  evaluate_cache_step model bptt data_source ctx st 0 w =
  (st' ← evaluate_cache_whole_step model bptt data_source ctx st 0;
   mret (Continue st')) w.
Proof.
  intros Hb. destruct st as [[[total_L nwh] ch] hidden].
  assert (E0 : (0 =? bptt) = false) by (apply Z.eqb_neq; lia).
  unfold evaluate_cache_step, evaluate_cache_whole_step.
  change (0 <? 0) with false. rewrite E0.
  unfold mbind, M_bind, mret, M_ret, lift, call_cache_model. simpl.
  destruct (c_call _ _ _ _ _ _ _) as [[[outs nwh'] ch'] hidden'].
  destruct (py_truediv _ _); reflexivity.
Qed.

(** The round at index [bptt]: a progress line, then [return]. *)
Lemma evaluate_cache_step_bptt (model : CacheModel) (bptt : Z)
    (data_source : NDArray) (ctx : Context) total_L nwh ch hidden (w : World) :
  0 < bptt ->
  evaluate_cache_step model bptt data_source ctx (total_L, nwh, ch, hidden)
                      bptt w =
  (Ok (Return (f_div total_L (f_of_int bptt))),
   log_event w (EPrint (MsgCacheBatch bptt (f_div total_L (f_of_int bptt))))).
Proof.
  intros Hb. unfold evaluate_cache_step.
  assert (E1 : (0 <? bptt) = true) by (apply Z.ltb_lt; lia).
  rewrite E1, Z.eqb_refl, py_truediv_ok by lia. reflexivity.
Qed.

(** When the sequence has at most [bptt + 1] tokens, the loop of
    [evaluate_cache] never reaches its [return]. *)
Lemma evaluate_cache_short (model : CacheModel) (bptt : Z)
    (data_source : NDArray) (batch_size : Z) (ctx : Context) (w : World) :
  0 < bptt -> nd_len data_source - 1 <= bptt ->
  evaluate_cache model bptt data_source batch_size ctx w =
  evaluate_cache_whole model bptt data_source batch_size ctx w.
Proof.
  intros Hb Hn. unfold evaluate_cache, evaluate_cache_whole.
  rewrite !bind_run. unfold lift at 1 3.
  rewrite (py_range_short _ _ Hb Hn).
  destruct (0 <? nd_len data_source - 1).
  - rewrite !bind_run. cbn [for_each_ret for_each]. rewrite !bind_run.
    rewrite evaluate_cache_step_0 by assumption. rewrite bind_run.
    destruct (evaluate_cache_whole_step _ _ _ _ _ _ _) as [[st'|e] w']; [|reflexivity].
    destruct st' as [[[total_L nwh] ch] hidden]. reflexivity.
  - rewrite !bind_run. reflexivity.
Qed.

(** When the sequence has more than [bptt + 1] tokens, the loop returns at
    its second round, after one call of the model. *)
Lemma evaluate_cache_long (model : CacheModel) (bptt : Z)
    (data_source : NDArray) (batch_size : Z) (ctx : Context) (w : World) :
  0 < bptt -> bptt < nd_len data_source - 1 ->
  evaluate_cache model bptt data_source batch_size ctx w =
  (total_L ← first_segment model bptt data_source batch_size ctx;
   _ ← emit (EPrint (MsgCacheBatch bptt (f_div total_L (f_of_int bptt))));
   mret (f_div total_L (f_of_int bptt))) w.
Proof.
  intros Hb Hn. unfold evaluate_cache.
  destruct (py_range_long _ _ Hb Hn) as [rest Er].
  rewrite !bind_run. unfold lift at 1. rewrite Er.
  rewrite !bind_run. cbn [for_each_ret]. rewrite !bind_run.
  rewrite evaluate_cache_step_0 by assumption. rewrite bind_run.
  unfold evaluate_cache_whole_step, first_segment.
  change (0 <? 0) with false.
  unfold mbind, M_bind, mret, M_ret, lift, call_cache_model, emit. simpl.
  destruct (c_call _ _ _ _ _ _ _) as [[[outs nwh] ch] hidden].
  destruct (py_truediv _ (nd_shape1 _)) as [q|e]; [|reflexivity].
  rewrite evaluate_cache_step_bptt by assumption. reflexivity.
Qed.


(** C1, amended. With [bptt > 0]: on a sequence of at most [bptt + 1]
    tokens [evaluate_cache] scores the whole sequence, as one segment, and
    returns the accumulated negative log-probabilities divided by
    [len(data_source)]; on a longer sequence it scores the first segment of
    [bptt] tokens only, and returns the loss accumulated over that segment
    divided by [bptt], after one call of the model. *)
Theorem evaluate_cache_scores_first_segment (model : CacheModel) (bptt : Z)
    (data_source : NDArray) (batch_size : Z) (ctx : Context) (w : World) :
  0 < bptt ->
  (nd_len data_source - 1 <= bptt ->
   evaluate_cache model bptt data_source batch_size ctx w =
   evaluate_cache_whole model bptt data_source batch_size ctx w) /\
  (bptt < nd_len data_source - 1 ->
   evaluate_cache model bptt data_source batch_size ctx w =
   (total_L ← first_segment model bptt data_source batch_size ctx;
    _ ← emit (EPrint (MsgCacheBatch bptt (f_div total_L (f_of_int bptt))));
    mret (f_div total_L (f_of_int bptt))) w).
Proof.
  intros Hb. split; intros Hn.
  - apply evaluate_cache_short; assumption.
  - apply evaluate_cache_long; assumption.
Qed.

(** ** [train]: one batch *)

Section OneContext.
(** [split_and_load] yields one slice per context. *)
Hypothesis split_and_load_length :
  forall (t : NDArray) (ctxs : list Context),
    length (split_and_load t ctxs) = length ctxs.

Lemma split_one (t : NDArray) : exists X, split_and_load t context = [X].
Proof.
  pose proof (split_and_load_length t context) as Hl.
  rewrite context_eq in *.
  destruct (split_and_load t [gpu 0]) as [|X [|X' l]]; try discriminate Hl.
  exists X. reflexivity.
Qed.

Lemma snoc_app {A} (l : list A) (a : A) (m : list A) :
  (l ++ [a]) ++ m = l ++ a :: m.
Proof. rewrite <- app_assoc. reflexivity. Qed.

(** One batch of the training loop, from a list of one state. *)
Lemma train_batch_run (model : Model) (epoch n : Z) (total_L : F)
    (h0 : Hidden NDArray) (i : Z) (data target : NDArray) (w : World) :
  exists X y,
    split_and_load data context = [X] /\
    split_and_load target context = [y] /\
    let r := w_recording w in
    let out := m_call model (w_params w) true X (detach h0) in
    let batch_L := loss (reshape_m3_m1 (fst out)) (reshape_m1 y) in
    let L := nd_radd_int 0 (nd_div_int (as_in_context batch_L (gpu 0))
                                       (nd_size X)) in
    let g := clip_global_norm [nd_context X] grad_clip
               (backward (w_params w) L (w_grads w)) in
    let p := trainer_step (w_lr w) 1 (w_params w) g in
    let total_L' :=
      f_add total_L
            (py_sum [asscalar (nd_sum (nd_div_int batch_L (nd_size X)))]) in
    let logging := (i mod log_interval =? 0) && (0 <? i) in
    train_batch model epoch n (total_L, HList [h0]) (i, (data, target)) w =
    (Ok (if logging then f_zero else total_L', HList [snd out]),
     mkWorld p g (w_lr w) r (w_files w)
       (w_log w ++
        [(r, ERecordEnter);
         (true, ECall X (detach h0) (snd out));
         (true, ELoss (reshape_m3_m1 (fst out)) (reshape_m1 y));
         (r, ERecordExit);
         (r, EBackward L);
         (r, EClipGlobalNorm [nd_context X] grad_clip);
         (r, EStep 1)] ++
        (if logging
         then [(r, EPrint (MsgBatch epoch i n
                             (f_div total_L' (f_of_int log_interval))))]
         else []))).
Proof.
  destruct (split_one data) as [X EX]. destruct (split_one target) as [y Ey].
  exists X, y. split; [exact EX|]. split; [exact Ey|].
  destruct w as [wp wg wl wr wf wlog].
  intros r out batch_L L g p total_L' logging.
  cbn [w_params w_recording w_grads w_lr w_files w_log] in *.
  unfold train_batch. rewrite EX, Ey. fold logging.
  unfold detach at 1.
  cbn [detach_with map hidden_items zip3 enumerate enumerate_from for_each].
  fold (detach h0).
  unfold with_record, train_forward.
  unfold mbind, M_bind, mret, M_ret, lift, call_model, call_loss,
    call_backward, call_clip_global_norm, call_step, emit, raise.
  change (py_getitem0 context) with (Ok (gpu 0) : Result Context).
  cbn [w_params w_recording w_grads w_lr w_files w_log log_event set_recording
       set_grads set_params fst snd].
  subst total_L' p g L batch_L. subst out.
  destruct (m_call model wp true X (detach h0)) as [output h1].
  cbn [fst snd acc_add hidden_setitem detach detach_with map app
       w_params w_recording w_grads w_lr w_files w_log log_event
       set_recording set_grads set_params].
  rewrite py_truediv_ok by (unfold log_interval; lia).
  change (Z.to_nat 0) with 0%nat. cbn [list_insert insert].
  destruct logging;
    cbv [w_params w_recording w_grads w_lr w_files w_log log_event
         set_recording set_grads set_params];
    rewrite !snoc_app; reflexivity.
Qed.
End OneContext.

(** ** Logs *)

Lemma calls_of_app (d1 d2 : list Entry) :
  calls_of (d1 ++ d2) = calls_of d1 ++ calls_of d2.
Proof.
  induction d1 as [|[b e] d1 IH]; simpl; [reflexivity|].
  destruct e; simpl; rewrite IH; reflexivity.
Qed.

Lemma valid_losses_app (d1 d2 : list Entry) :
  valid_losses (d1 ++ d2) = valid_losses d1 ++ valid_losses d2.
Proof.
  induction d1 as [|[b e] d1 IH]; simpl; [reflexivity|].
  destruct e as [| | | | | | | | | | |m]; simpl; try exact IH.
  destruct m; simpl; rewrite IH; reflexivity.
Qed.

Lemma phases_app (s s' : Phase) (d1 d2 : list Entry) :
  phases s (d1 ++ d2) s' <-> exists s1, phases s d1 s1 /\ phases s1 d2 s'.
Proof.
  revert s. induction d1 as [|e d1 IH]; intros s; simpl.
  - split.
    + intros Hp. exists s. split; [reflexivity | exact Hp].
    + intros [s1 [-> Hp]]. exact Hp.
  - split.
    + intros [s0 [Hs Hp]]. apply IH in Hp as [s1 [Hp1 Hp2]].
      exists s1. split; [exists s0; split; assumption | exact Hp2].
    + intros [s1 [[s0 [Hs Hp1]] Hp2]]. exists s0. split; [exact Hs|].
      apply IH. exists s1. split; assumption.
Qed.

Lemma phases_snoc (s s' : Phase) (d : list Entry) (e : Entry) :
  phases s (d ++ [e]) s' <-> exists s1, phases s d s1 /\ phase_step s1 e s'.
Proof.
  rewrite phases_app. simpl. split.
  - intros [s1 [Hp [s2 [Hs ->]]]]. exists s1. split; assumption.
  - intros [s1 [Hp Hs]]. exists s1. split; [exact Hp|].
    exists s'. split; [exact Hs | reflexivity].
Qed.

Lemma eval_entries_calls (model : Model) p r ctx h ds :
  carried_detached h (calls_of (eval_entries model p r ctx h ds)).
Proof.
  revert h. induction ds as [|[data target] ds IH]; intros h; simpl;
    [exact I | split; [reflexivity | apply IH]].
Qed.

Lemma eval_entries_valid_losses (model : Model) p r ctx h ds :
  valid_losses (eval_entries model p r ctx h ds) = [].
Proof.
  revert h. induction ds as [|[data target] ds IH]; intros h; simpl;
    [reflexivity | apply IH].
Qed.

Lemma eval_entries_phases (model : Model) p ctx h ds :
  phases Idle (eval_entries model p false ctx h ds) Idle.
Proof.
  revert h. induction ds as [|[data target] ds IH]; intros h; simpl;
    [reflexivity|].
  exists Idle. split; [constructor|].
  exists Idle. split; [constructor | apply IH].
Qed.

(** ** Worlds along a run *)

Lemma advances_refl (w : World) : advances run_of w w.
Proof.
  exists []. rewrite app_nil_r. repeat split.
Qed.

Lemma advances_trans (w1 w2 w3 : World) :
  advances run_of w1 w2 -> advances run_of w2 w3 -> advances run_of w1 w3.
Proof.
  intros [d1 [E1 [R1 P1]]] [d2 [E2 [R2 P2]]]. exists (d1 ++ d2).
  split; [rewrite E2, E1, app_assoc; reflexivity|].
  split; [congruence|]. intros Hr. apply phases_app. exists Idle.
  split; [apply P1; exact Hr | apply P2; congruence].
Qed.

Lemma advances_extend (w : World) (d : list Entry) :
  (w_recording w = false -> run_of d) -> advances run_of w (extend_log w d).
Proof. intros Hd. exists d. repeat split. exact Hd. Qed.

Lemma advances_bind {A B} (m : M A) (k : A -> M B) (w : World) :
  advances run_of w (snd (m w)) ->
  (forall a w1, advances run_of w1 (snd (k a w1))) ->
  advances run_of w (snd ((m ≫= k) w)).
Proof.
  intros Hm Hk. rewrite bind_run. destruct (m w) as [[a|e] w1]; simpl in *.
  - eapply advances_trans; [exact Hm | apply Hk].
  - exact Hm.
Qed.

Lemma advances_for_each {A S} (body : S -> A -> M S) (l : list A) :
  (forall s x w, advances run_of w (snd (body s x w))) ->
  forall s w, advances run_of w (snd (for_each l s body w)).
Proof.
  intros Hbody. induction l as [|x l IH]; intros s w; simpl.
  - apply advances_refl.
  - apply advances_bind; [apply Hbody | intros a w1; apply IH].
Qed.

Lemma advances_emit (e : Event) (w : World) :
  phase_step Idle (false, e) Idle -> advances run_of w (snd (emit e w)).
Proof.
  intros Hs. unfold emit. simpl. rewrite log_event_extend.
  apply advances_extend. intros ->. exists Idle. split; [exact Hs | reflexivity].
Qed.

Lemma advances_evaluate (model : Model) ds bs ctx (w : World) :
  advances run_of w (snd (evaluate model ds bs ctx w)).
Proof.
  rewrite evaluate_run. simpl. apply advances_extend. intros ->.
  apply eval_entries_phases.
Qed.

(** ** [train]: the batches of one epoch *)

Section Training.
(** [split_and_load] yields one slice per context. *)
Hypothesis split_and_load_length :
  forall (t : NDArray) (ctxs : list Context),
    length (split_and_load t ctxs) = length ctxs.

Lemma train_batch_summary (model : Model) (epoch n : Z) (total_L : F)
    (h0 : Hidden NDArray) (i : Z) (data target : NDArray) (w : World) :
  exists total_L' h1 w' d,
    train_batch model epoch n (total_L, HList [h0]) (i, (data, target)) w =
    (Ok (total_L', HList [h1]), w') /\
    w_log w' = w_log w ++ d /\
    w_recording w' = w_recording w /\
    calls_of d = [(detach h0, h1)] /\
    valid_losses d = [] /\
    (w_recording w = false -> run_of d).
Proof.
  destruct (train_batch_run split_and_load_length model epoch n total_L h0 i
              data target w) as [X [y [_ [_ Hrun]]]].
  cbv zeta in Hrun. rewrite Hrun. clear Hrun.
  do 4 eexists. split; [reflexivity|]. cbn [w_log w_recording].
  split; [reflexivity|]. split; [reflexivity|].
  destruct ((i mod log_interval =? 0) && (0 <? i)); cbn [app calls_of valid_losses];
    (split; [reflexivity|]); (split; [reflexivity|]);
    intros ->; unfold run_of; cbn [phases];
    repeat (eexists; split; [constructor|]); reflexivity.
Qed.

Lemma train_loop_summary (model : Model) (epoch n : Z)
    (ds : list (NDArray * NDArray)) (k : Z) (total_L : F)
    (h0 : Hidden NDArray) (w : World) :
  exists total_L' h' w' d,
    for_each (enumerate_from k ds) (total_L, HList [h0])
             (train_batch model epoch n) w =
    (Ok (total_L', HList [h']), w') /\
    w_log w' = w_log w ++ d /\
    w_recording w' = w_recording w /\
    carried_detached (detach h0) (calls_of d) /\
    length (calls_of d) = length ds /\
    valid_losses d = [] /\
    (w_recording w = false -> run_of d).
Proof.
  revert k total_L h0 w.
  induction ds as [|[data target] ds IH]; intros k total_L h0 w.
  - exists total_L, h0, w, []. simpl. rewrite app_nil_r.
    repeat split; reflexivity.
  - destruct (train_batch_summary model epoch n total_L h0 k data target w)
      as [t1 [h1 [w1 [d1 [E1 [L1 [R1 [C1 [V1 P1]]]]]]]]].
    destruct (IH (k + 1) t1 h1 w1)
      as [t2 [h2 [w2 [d2 [E2 [L2 [R2 [C2 [N2 [V2 P2]]]]]]]]]].
    exists t2, h2, w2, (d1 ++ d2).
    cbn [enumerate_from for_each]. rewrite bind_run, E1.
    split; [exact E2|].
    split; [rewrite L2, L1, app_assoc; reflexivity|].
    split; [congruence|].
    rewrite calls_of_app, valid_losses_app, C1, V1, V2. cbn [app carried_detached length].
    split; [split; [reflexivity | exact C2]|].
    split; [rewrite N2; reflexivity|].
    split; [reflexivity|].
    intros Hr. apply phases_app. exists Idle.
    split; [apply P1; exact Hr | apply P2; congruence].
Qed.

Lemma train_batches_summary (model : Model) (epoch : Z)
    (train_data : list (NDArray * NDArray)) (w : World) :
  exists st w' d,
    train_batches model epoch train_data w = (Ok st, w') /\
    w_log w' = w_log w ++ d /\
    w_recording w' = w_recording w /\
    carried_detached
      (detach (m_begin_state model (batch_size / len context) mx_nd_zeros
                             (gpu 0)))
      (calls_of d) /\
    length (calls_of d) = length train_data /\
    valid_losses d = [] /\
    (w_recording w = false -> run_of d).
Proof.
  destruct (train_loop_summary model epoch (len train_data) train_data 0
              f_zero
              (m_begin_state model (batch_size / len context) mx_nd_zeros
                             (gpu 0)) w)
    as [t [h [w' [d [E Hd]]]]].
  exists (t, HList [h]), w', d. split; [|exact Hd].
  unfold train_batches. rewrite bind_run.
  change (for_each context [] _ w) with
    (Ok [m_begin_state model (batch_size / len context) mx_nd_zeros (gpu 0)], w).
  exact E.
Qed.


Lemma advances_train_batches (model : Model) (epoch : Z)
    (train_data : list (NDArray * NDArray)) (w : World) :
  advances run_of w (snd (train_batches model epoch train_data w)).
Proof.
  destruct (train_batches_summary model epoch train_data w)
    as [st [w' [d [E [L [R [_ [_ [_ P]]]]]]]]].
  rewrite E. exists d. repeat split; assumption.
Qed.
End Training.

(** ** Logs that show no validation loss *)

Lemma grows_refl (w : World) : grows quiet w w.
Proof. exists []. rewrite app_nil_r. split; reflexivity. Qed.

Lemma grows_trans (w1 w2 w3 : World) :
  grows quiet w1 w2 -> grows quiet w2 w3 -> grows quiet w1 w3.
Proof.
  intros [d1 [E1 Q1]] [d2 [E2 Q2]]. exists (d1 ++ d2).
  split; [rewrite E2, E1, app_assoc; reflexivity|].
  unfold quiet in *. rewrite valid_losses_app, Q1, Q2. reflexivity.
Qed.

Lemma grows_bind {A B} (m : M A) (k : A -> M B) (w : World) :
  grows quiet w (snd (m w)) ->
  (forall a w1, grows quiet w1 (snd (k a w1))) ->
  grows quiet w (snd ((m ≫= k) w)).
Proof.
  intros Hm Hk. rewrite bind_run. destruct (m w) as [[a|e] w1]; simpl in *.
  - eapply grows_trans; [exact Hm | apply Hk].
  - exact Hm.
Qed.

Lemma grows_for_each {A S} (body : S -> A -> M S) (l : list A) :
  (forall s x w, grows quiet w (snd (body s x w))) ->
  forall s w, grows quiet w (snd (for_each l s body w)).
Proof.
  intros Hbody. induction l as [|x l IH]; intros s w; simpl.
  - apply grows_refl.
  - apply grows_bind; [apply Hbody | intros a w1; apply IH].
Qed.

Lemma grows_log_event (w : World) (e : Event) :
  (forall epoch v, e <> EPrint (MsgValid epoch v)) ->
  grows quiet w (log_event w e).
Proof.
  intros He. exists [(w_recording w, e)]. split; [reflexivity|].
  unfold quiet. simpl. destruct e as [| | | | | | | | | | |m]; try reflexivity.
  destruct m; try reflexivity. exfalso. eapply He. reflexivity.
Qed.

Lemma grows_fields (w w' : World) :
  w_log w' = w_log w -> grows quiet w w'.
Proof. intros E. exists []. rewrite app_nil_r. split; [exact E | reflexivity]. Qed.

Lemma grows_with_record {A} (body : M A) (w : World) :
  (forall w0, grows quiet w0 (snd (body w0))) ->
  grows quiet w (snd (with_record body w)).
Proof.
  intros Hbody. unfold with_record.
  specialize (Hbody (set_recording (log_event w ERecordEnter) true)).
  destruct (body _) as [r1 w1]. cbn [fst snd] in *.
  eapply grows_trans; [|apply grows_log_event; intros ? ? Heq; discriminate Heq].
  eapply grows_trans; [|apply grows_fields; reflexivity].
  eapply grows_trans; [|exact Hbody].
  apply grows_trans with (w2 := log_event w ERecordEnter);
    [apply grows_log_event; intros ? ? Heq; discriminate Heq|].
  apply grows_fields. reflexivity.
Qed.

Lemma grows_train_forward (model : Model) st jxyh (w : World) :
  grows quiet w (snd (train_forward model st jxyh w)).
Proof.
  destruct st as [[L Ls] hs]. destruct jxyh as [j [[X y] h]].
  unfold train_forward. apply grows_bind.
  { unfold call_model. cbn [fst snd]. apply grows_log_event; intros ? ? Heq; discriminate Heq. }
  intros [output h1] w1. apply grows_bind.
  { unfold call_loss. cbn [fst snd]. apply grows_log_event; intros ? ? Heq; discriminate Heq. }
  intros batch_L w2. apply grows_bind; [apply grows_refl|].
  intros ctx0 w3. apply grows_refl.
Qed.

Lemma grows_train_batch (model : Model) (epoch n : Z) st ib (w : World) :
  grows quiet w (snd (train_batch model epoch n st ib w)).
Proof.
  destruct st as [total_L hiddens]. destruct ib as [i [data target]].
  unfold train_batch. apply grows_bind.
  - apply grows_with_record. intros w0. apply grows_for_each.
    intros s x w1. apply grows_train_forward.
  - intros [[L Ls] hs] w1. apply grows_bind.
    { destruct L; apply grows_refl. }
    intros t w2. apply grows_bind.
    { unfold call_backward. cbn [fst snd].
      eapply grows_trans; [|apply grows_log_event; intros ? ? Heq; discriminate Heq].
      apply grows_fields. reflexivity. }
    intros _ w3. apply grows_bind.
    { unfold call_clip_global_norm. cbn [fst snd].
      eapply grows_trans; [|apply grows_log_event; intros ? ? Heq; discriminate Heq].
      apply grows_fields. reflexivity. }
    intros _ w4. apply grows_bind.
    { unfold call_step. cbn [fst snd].
      eapply grows_trans; [|apply grows_log_event; intros ? ? Heq; discriminate Heq].
      apply grows_fields. reflexivity. }
    intros _ w5. destruct ((i mod log_interval =? 0) && (0 <? i)).
    + apply grows_bind; [apply grows_refl|]. intros cur_L w6.
      apply grows_bind; [|intros; apply grows_refl].
      unfold emit. cbn [fst snd]. apply grows_log_event; intros ? ? Heq; discriminate Heq.
    + apply grows_refl.
Qed.

Lemma grows_train_batches (model : Model) (epoch : Z)
    (train_data : list (NDArray * NDArray)) (w : World) :
  grows quiet w (snd (train_batches model epoch train_data w)).
Proof.
  unfold train_batches. apply grows_bind.
  - apply grows_for_each. intros hs ctx w0.
    apply grows_bind; [apply grows_refl | intros; apply grows_refl].
  - intros hs w1. apply grows_for_each. intros st ib w2.
    apply grows_train_batch.
Qed.

(** ** [train]: the end of an epoch *)

Lemma evaluate_run' (model : Model) (ds : list (NDArray * NDArray))
    (bs : Z) (ctx : Context) (w : World) :
  evaluate model ds bs ctx w =
  (eval_result model (w_params w) (w_recording w) ctx
               (m_begin_state model bs mx_nd_zeros ctx) ds,
   extend_log w (eval_entries model (w_params w) (w_recording w) ctx
                              (m_begin_state model bs mx_nd_zeros ctx) ds)).
Proof. apply evaluate_run. Qed.

(** The end of an epoch, spelled out: validation, then one of the two
    branches. *)
Lemma train_epoch_end_run (model : Model)
    (val_data test_data : list (NDArray * NDArray)) (best_val lr : F)
    (epoch : Z) (w : World) :
  let r := w_recording w in
  let h := m_begin_state model batch_size mx_nd_zeros (gpu 0) in
  let d_val := eval_entries model (w_params w) r (gpu 0) h val_data in
  let d_test := eval_entries model (w_params w) r (gpu 0) h test_data in
  let pre := [(r, EWaitAll); (r, EPrint (MsgEpoch epoch))] in
  train_epoch_end model val_data test_data (best_val, lr) epoch w =
  match eval_result model (w_params w) r (gpu 0) h val_data with
  | Raise e => (Raise e, extend_log w (pre ++ d_val))
  | Ok val_L =>
      if f_ltb val_L best_val then
        match eval_result model (w_params w) r (gpu 0) h test_data with
        | Raise e =>
            (Raise e,
             extend_log w (pre ++ d_val ++
                           [(r, EPrint (MsgValid epoch val_L))] ++ d_test))
        | Ok test_L =>
            (Ok (val_L, lr),
             mkWorld (w_params w) (w_grads w) (w_lr w) r
               ((params_file epoch, w_params w) :: w_files w)
               (w_log w ++ pre ++ d_val ++
                [(r, EPrint (MsgValid epoch val_L))] ++ d_test ++
                [(r, ESaveParams (params_file epoch));
                 (r, EPrint (MsgTest test_L))]))
        end
      else
        (Ok (best_val, f_mul lr (f_lit 0.25)),
         mkWorld (w_params w) (w_grads w) (f_mul lr (f_lit 0.25)) r
           (w_files w)
           (w_log w ++ pre ++ d_val ++
            [(r, EPrint (MsgValid epoch val_L));
             (r, EPrint (MsgLearningRate (f_mul lr (f_lit 0.25))));
             (r, ESetLearningRate (f_mul lr (f_lit 0.25)))]))
  end.
Proof.
  destruct w as [wp wg wl wr wf wlog].
  intros r h d_val d_test pre.
  cbn [w_params w_recording w_grads w_lr w_files w_log] in *.
  unfold train_epoch_end.
  change (py_getitem0 context) with (Ok (gpu 0) : Result Context).
  unfold mbind at 1 2 3. unfold M_bind at 1 2 3. unfold emit at 1 2. unfold lift at 1.
  cbv [log_event w_params w_recording w_grads w_lr w_files w_log].
  rewrite bind_run, evaluate_run'.
  cbn [w_params w_recording w_grads w_lr w_files w_log extend_log].
  fold r h. fold d_val.
  destruct (eval_result model wp r (gpu 0) h val_data) as [val_L|e].
  - rewrite bind_run. unfold emit at 1.
    cbv [log_event w_params w_recording w_grads w_lr w_files w_log].
    destruct (f_ltb val_L best_val).
    + rewrite bind_run. unfold lift at 1. rewrite bind_run, evaluate_run'.
      cbn [w_params w_recording w_grads w_lr w_files w_log extend_log].
      fold r h. fold d_test.
      destruct (eval_result model wp r (gpu 0) h test_data) as [test_L|e].
      * unfold mbind, M_bind, call_save_params, emit, mret, M_ret.
        cbv [log_event add_file extend_log w_params w_recording w_grads w_lr w_files w_log].
        subst pre. rewrite <- !app_assoc. reflexivity.
      * unfold extend_log. cbn [w_params w_recording w_grads w_lr w_files w_log].
        subst pre. rewrite <- !app_assoc. reflexivity.
    + unfold mbind, M_bind, call_set_learning_rate, emit, mret, M_ret.
      cbv [log_event set_lr extend_log w_params w_recording w_grads w_lr w_files w_log].
      subst pre. rewrite <- !app_assoc. reflexivity.
  - unfold extend_log. cbn [w_params w_recording w_grads w_lr w_files w_log].
    subst pre. rewrite <- !app_assoc. reflexivity.
Qed.


Lemma run_of_app (d1 d2 : list Entry) :
  run_of d1 -> run_of d2 -> run_of (d1 ++ d2).
Proof.
  intros P1 P2. apply phases_app. exists Idle. split; assumption.
Qed.

Lemma run_of_idle (d : list Entry) :
  Forall (fun e => phase_step Idle e Idle) d -> run_of d.
Proof.
  induction 1 as [|e d He _ IH]; [reflexivity|].
  exists Idle. split; assumption.
Qed.

Lemma advances_train_epoch_end (model : Model)
    (val_data test_data : list (NDArray * NDArray)) (st : F * F)
    (epoch : Z) (w : World) :
  advances run_of w
    (snd (train_epoch_end model val_data test_data st epoch w)).
Proof.
  destruct st as [best_val lr]. rewrite train_epoch_end_run. cbv zeta.
  destruct (eval_result _ _ _ _ _ val_data) as [val_L|e].
  - destruct (f_ltb val_L best_val).
    + destruct (eval_result _ _ _ _ _ test_data) as [test_L|e].
      * eexists. cbn [snd w_log w_recording]. split; [reflexivity|].
        split; [reflexivity|]. intros ->.
        apply run_of_app; [apply run_of_idle; repeat constructor|].
        apply run_of_app; [apply eval_entries_phases|].
        apply run_of_app; [apply run_of_idle; repeat constructor|].
        apply run_of_app; [apply eval_entries_phases|].
        apply run_of_idle; repeat constructor.
      * cbn [snd]. apply advances_extend. intros ->.
        apply run_of_app; [apply run_of_idle; repeat constructor|].
        apply run_of_app; [apply eval_entries_phases|].
        apply run_of_app; [apply run_of_idle; repeat constructor|].
        apply eval_entries_phases.
    + eexists. cbn [snd w_log w_recording]. split; [reflexivity|].
      split; [reflexivity|]. intros ->.
      apply run_of_app; [apply run_of_idle; repeat constructor|].
      apply run_of_app; [apply eval_entries_phases|].
      apply run_of_idle; repeat constructor.
  - cbn [snd]. apply advances_extend. intros ->.
    apply run_of_app; [apply run_of_idle; repeat constructor|].
    apply eval_entries_phases.
Qed.

(** An epoch that completes shows one validation loss, and [best_val]
    becomes that loss when it is below it. *)
Lemma train_epoch_valid (model : Model)
    (train_data val_data test_data : list (NDArray * NDArray))
    (best_val lr : F) (epoch : Z) (w : World) best_val' lr' w' :
  train_epoch model train_data val_data test_data (best_val, lr) epoch w =
  (Ok (best_val', lr'), w') ->
  exists d val_L,
    w_log w' = w_log w ++ d /\
    valid_losses d = [val_L] /\
    best_val' = (if f_ltb val_L best_val then val_L else best_val).
Proof.
  unfold train_epoch. rewrite bind_run.
  pose proof (grows_train_batches model epoch train_data w) as [d0 [E0 Q0]].
  destruct (train_batches model epoch train_data w) as [[st|e] w0];
    [|discriminate]. cbn [snd] in E0.
  rewrite train_epoch_end_run. cbv zeta.
  destruct (eval_result _ _ _ _ _ val_data) as [val_L|e]; [|discriminate].
  destruct (f_ltb val_L best_val) eqn:Elt.
  - destruct (eval_result _ _ _ _ _ test_data) as [test_L|e]; [|discriminate].
    intros E. injection E as <- <- <-. eexists. exists val_L.
    cbn [w_log]. rewrite E0, <- app_assoc. split; [reflexivity|].
    split; [|rewrite Elt; reflexivity].
    unfold quiet in Q0. rewrite valid_losses_app, Q0.
    cbn [app valid_losses].
    rewrite ?valid_losses_app, ?eval_entries_valid_losses.
    cbn [app valid_losses].
    rewrite ?valid_losses_app, ?eval_entries_valid_losses. reflexivity.
  - intros E. injection E as <- <- <-. eexists. exists val_L.
    cbn [w_log]. rewrite E0, <- app_assoc. split; [reflexivity|].
    split; [|rewrite Elt; reflexivity].
    unfold quiet in Q0. rewrite valid_losses_app, Q0.
    cbn [app valid_losses].
    rewrite ?valid_losses_app, ?eval_entries_valid_losses.
    cbn [app valid_losses].
    rewrite ?valid_losses_app, ?eval_entries_valid_losses. reflexivity.
Qed.


(** [best_val] along the epochs, for an order [<] on floats that is
    irreflexive and transitive. *)
Lemma train_epochs_best_val (model : Model)
    (train_data val_data test_data : list (NDArray * NDArray)) :
  (forall x : F, f_ltb x x = false) ->
  (forall x y z : F, f_ltb x y = true -> f_ltb y z = true -> f_ltb x z = true) ->
  forall (es : list Z) (best_val lr : F) (w : World) best_val' lr' w',
    train_epochs model train_data val_data test_data es (best_val, lr) w =
    (Ok (best_val', lr'), w') ->
    exists d,
      w_log w' = w_log w ++ d /\
      length (valid_losses d) = length es /\
      (best_val' = best_val \/
       (In best_val' (valid_losses d) /\ f_ltb best_val' best_val = true)) /\
      f_ltb best_val best_val' = false /\
      Forall (fun v => f_ltb v best_val' = false) (valid_losses d).
Proof.
  intros Hirr Htrans. unfold train_epochs.
  induction es as [|e es IH]; intros best_val lr w best_val' lr' w' Hrun.
  - simpl in Hrun. injection Hrun as <- <- <-. exists [].
    rewrite app_nil_r. simpl. repeat split; auto.
  - cbn [for_each] in Hrun. rewrite bind_run in Hrun.
    destruct (train_epoch model train_data val_data test_data (best_val, lr) e w)
      as [[[b1 l1]|ex] w1] eqn:E1; [|discriminate].
    apply train_epoch_valid in E1 as [d1 [v1 [L1 [V1 B1]]]].
    apply IH in Hrun as [d2 [L2 [N2 [M2 [D2 A2]]]]].
    exists (d1 ++ d2). rewrite valid_losses_app, V1. cbn [app length In].
    split; [rewrite L2, L1, app_assoc; reflexivity|].
    split; [rewrite N2; reflexivity|].
    assert (Hv1 : f_ltb v1 best_val' = false).
    { destruct (f_ltb v1 best_val') eqn:Ev; [|reflexivity]. exfalso.
      destruct (f_ltb v1 best_val) eqn:Elt; subst b1.
      - congruence.
      - destruct M2 as [->|[_ Hlt]]; [congruence|].
        rewrite (Htrans _ _ _ Ev Hlt) in Elt. discriminate. }
    destruct (f_ltb v1 best_val) eqn:Elt; subst b1.
    + split; [|split].
      * right. destruct M2 as [->|[Hin Hlt]].
        -- split; [left; reflexivity | exact Elt].
        -- split; [right; exact Hin | exact (Htrans _ _ _ Hlt Elt)].
      * destruct (f_ltb best_val best_val') eqn:Eb; [|reflexivity].
        rewrite (Htrans _ _ _ Elt Eb) in Hv1. discriminate.
      * constructor; assumption.
    + split; [|split].
      * destruct M2 as [->|[Hin Hlt]]; [left; reflexivity|].
        right. split; [right; exact Hin | exact Hlt].
      * exact D2.
      * constructor; assumption.
Qed.

(** C10. At the end of an epoch that completes exactly one of two branches
    has run: when the validation loss is below [best_val], [best_val]
    becomes that loss, the model is evaluated on the test data and its
    parameters are saved, the learning rate staying as it is; otherwise
    [best_val] stays, the learning rate is multiplied by 0.25 and given to
    the trainer, and nothing is evaluated or saved.  Along the epochs
    [best_val] is the start value or a validation loss seen that is below
    the start value, it is never above its former value, and no validation
    loss seen is below it: starting from infinity, as [train] does, it is the
    minimum of infinity and the validation losses seen so far. *)
Theorem best_val_is_running_minimum (model : Model)
    (train_data val_data test_data : list (NDArray * NDArray)) :
  (forall epochs lr w,
     train model train_data val_data test_data epochs lr w =
     (_ ← train_epochs model train_data val_data test_data (py_range1 epochs)
                       (f_inf, lr);
      emit (EPrint MsgTotal)) w) /\
  (forall es1 es2 st w,
     train_epochs model train_data val_data test_data (es1 ++ es2) st w =
     (st' ← train_epochs model train_data val_data test_data es1 st;
      train_epochs model train_data val_data test_data es2 st') w) /\
  (forall best_val lr epoch w best_val' lr' w',
     train_epoch_end model val_data test_data (best_val, lr) epoch w =
     (Ok (best_val', lr'), w') ->
     let r := w_recording w in
     let h := m_begin_state model batch_size mx_nd_zeros (gpu 0) in
     let d_val := eval_entries model (w_params w) r (gpu 0) h val_data in
     let d_test := eval_entries model (w_params w) r (gpu 0) h test_data in
     let pre := [(r, EWaitAll); (r, EPrint (MsgEpoch epoch))] in
     exists val_L,
       eval_result model (w_params w) r (gpu 0) h val_data = Ok val_L /\
       w_params w' = w_params w /\
       ((f_ltb val_L best_val = true /\
         best_val' = val_L /\ lr' = lr /\ w_lr w' = w_lr w /\
         exists test_L,
           eval_result model (w_params w) r (gpu 0) h test_data = Ok test_L /\
           w_files w' = (params_file epoch, w_params w) :: w_files w /\
           w_log w' =
           w_log w ++ pre ++ d_val ++ [(r, EPrint (MsgValid epoch val_L))] ++
           d_test ++ [(r, ESaveParams (params_file epoch));
                      (r, EPrint (MsgTest test_L))]) \/
        (f_ltb val_L best_val = false /\
         best_val' = best_val /\ lr' = f_mul lr (f_lit 0.25) /\
         w_lr w' = f_mul lr (f_lit 0.25) /\
         w_files w' = w_files w /\
         w_log w' =
         w_log w ++ pre ++ d_val ++
         [(r, EPrint (MsgValid epoch val_L));
          (r, EPrint (MsgLearningRate (f_mul lr (f_lit 0.25))));
          (r, ESetLearningRate (f_mul lr (f_lit 0.25)))]))) /\
  ((forall x : F, f_ltb x x = false) ->
   (forall x y z : F,
      f_ltb x y = true -> f_ltb y z = true -> f_ltb x z = true) ->
   forall (es : list Z) (best_val lr : F) (w : World) best_val' lr' w',
     train_epochs model train_data val_data test_data es (best_val, lr) w =
     (Ok (best_val', lr'), w') ->
     exists d,
       w_log w' = w_log w ++ d /\
       length (valid_losses d) = length es /\
       (best_val' = best_val \/
        (In best_val' (valid_losses d) /\ f_ltb best_val' best_val = true)) /\
       f_ltb best_val best_val' = false /\
       Forall (fun v => f_ltb v best_val' = false) (valid_losses d)).
Proof.
  split; [reflexivity|].
  split; [intros; apply for_each_app|].
  split; [|apply train_epochs_best_val].
  intros best_val lr epoch w best_val' lr' w' Hrun r h d_val d_test pre.
  rewrite train_epoch_end_run in Hrun. cbv zeta in Hrun.
  fold r h in Hrun. fold d_val d_test pre in Hrun.
  destruct (eval_result model (w_params w) r (gpu 0) h val_data)
    as [val_L|e]; [|discriminate].
  exists val_L. split; [reflexivity|].
  destruct (f_ltb val_L best_val).
  - destruct (eval_result model (w_params w) r (gpu 0) h test_data)
      as [test_L|e]; [|discriminate].
    injection Hrun as <- <- <-. split; [reflexivity|]. left.
    repeat (split; [reflexivity|]). exists test_L. repeat split.
  - injection Hrun as <- <- <-. split; [reflexivity|]. right. repeat split.
Qed.

(** ** Exceptions *)

Lemma py_range1_pos (n : Z) : 0 < n -> exists rest, py_range1 n = 0 :: rest.
Proof.
  intros Hn. unfold py_range1.
  destruct (Z.to_nat n) as [|fuel] eqn:E; [lia|]. simpl.
  destruct (Z.ltb_spec 0 n); [|lia]. eexists. reflexivity.
Qed.

(** C5. The functions of the notebook handle no failure themselves.  On an
    empty data source [evaluate] reaches [total_L / ntotal] with
    [ntotal = 0], and [evaluate_cache] (for the positive [bptt] of the
    notebook) reaches [total_L / len(data_source)] with
    [len(data_source) = 0]: both raise [ZeroDivisionError], having called
    nothing.  [train] does not handle the exception of [evaluate] either: on
    empty validation data it raises in its first epoch. *)
Theorem empty_data_source_raises :
  (forall (model : Model) (batch_size : Z) (ctx : Context) (w : World),
     evaluate model [] batch_size ctx w = (Raise ZeroDivisionError, w)) /\
  (forall (model : CacheModel) (bptt : Z) (data_source : NDArray)
          (batch_size : Z) (ctx : Context) (w : World),
     0 < bptt -> nd_len data_source = 0 ->
     evaluate_cache model bptt data_source batch_size ctx w =
     (Raise ZeroDivisionError, w)) /\
  (forall (model : Model) (train_data test_data : list (NDArray * NDArray))
          (epochs : Z) (lr : F) (w : World),
     0 < epochs ->
     exists e w',
       train model train_data [] test_data epochs lr w = (Raise e, w')).
Proof.
  split; [|split].
  - intros model batch_size ctx w. rewrite evaluate_run. simpl.
    rewrite extend_log_nil. reflexivity.
  - intros model bptt data_source batch_size ctx w Hb Hn.
    rewrite evaluate_cache_short by lia.
    unfold evaluate_cache_whole. rewrite bind_run. unfold lift at 1.
    rewrite py_range_short by lia. rewrite Hn. simpl. reflexivity.
  - intros model train_data test_data epochs lr w Hn.
    destruct (py_range1_pos epochs Hn) as [rest Er].
    unfold train, train_epochs. rewrite Er, bind_run. cbn [for_each].
    rewrite bind_run. unfold train_epoch at 1. rewrite bind_run.
    destruct (train_batches model 0 train_data w) as [[st|e] w0].
    + rewrite train_epoch_end_run. cbv zeta.
      change (eval_result model (w_params w0) (w_recording w0) (gpu 0)
                (m_begin_state model batch_size mx_nd_zeros (gpu 0)) [])
        with (Raise ZeroDivisionError : Result F).
      do 2 eexists. reflexivity.
    + do 2 eexists. reflexivity.
Qed.

(** ** What a run of phases says about the log *)

Lemma phases_stamps (s s' : Phase) (d : list Entry) :
  phases s d s' ->
  map fst d = record_scope (in_record s) (map snd d) /\
  Forall (fun e => fst e = true -> is_forward_or_loss (snd e)) d /\
  Forall (fun e => is_update (snd e) -> fst e = false) d.
Proof.
  revert s. induction d as [|e d IH]; intros s Hp.
  - repeat split; constructor.
  - destruct Hp as [s1 [Hs Hp]]. destruct (IH s1 Hp) as [IH1 [IH2 IH3]].
    inversion Hs; subst; cbn [map fst snd record_scope in_record] in *;
      (split; [rewrite IH1; reflexivity|]);
      (split; constructor; try assumption; cbn [fst snd];
       intros Hx; try discriminate Hx; try reflexivity; try exact I;
       try (destruct Hx)).
Qed.

Lemma phases_last (s s' : Phase) (d : list Entry) :
  phases s d s' -> s <> s' ->
  exists d' e s1, d = d' ++ [e] /\ phases s d' s1 /\ phase_step s1 e s'.
Proof.
  intros Hp Hne. destruct d as [|e0 d0] using rev_ind.
  - simpl in Hp. congruence.
  - apply phases_snoc in Hp as [s1 [Hp Hs]]. exists d0, e0, s1.
    repeat split; assumption.
Qed.

(** Every optimizer step in a run is [trainer.step(1)] and stands at the
    end of the sequence forward pass, loss, end of recording, backward pass,
    clipping at [grad_clip]. *)
Lemma phases_step_order (d d1 d2 : list Entry) (s' : Phase) (b : bool)
    (n : Z) :
  phases Idle d s' -> d = d1 ++ (b, EStep n) :: d2 ->
  b = false /\ n = 1 /\
  exists d0 x h_in h_out pred label L ctxs,
    d1 = d0 ++ [(true, ECall x h_in h_out); (true, ELoss pred label);
                (false, ERecordExit); (false, EBackward L);
                (false, EClipGlobalNorm ctxs grad_clip)].
Proof.
  intros Hp ->. apply phases_app in Hp as [s1 [Hp1 [s2 [Hs _]]]].
  inversion Hs; subst. split; [reflexivity|]. split; [reflexivity|].
  apply phases_last in Hp1 as [d3 [e3 [s3 [-> [Hp3 Hs3]]]]]; [|discriminate].
  inversion Hs3; subst.
  apply phases_last in Hp3 as [d4 [e4 [s4 [-> [Hp4 Hs4]]]]]; [|discriminate].
  inversion Hs4; subst.
  apply phases_last in Hp4 as [d5 [e5 [s5 [-> [Hp5 Hs5]]]]]; [|discriminate].
  inversion Hs5; subst.
  apply phases_last in Hp5 as [d6 [e6 [s6 [-> [Hp6 Hs6]]]]]; [|discriminate].
  inversion Hs6; subst.
  apply phases_last in Hp6 as [d7 [e7 [s7 [-> [Hp7 Hs7]]]]]; [|discriminate].
  inversion Hs7; subst;
    (exists d7; do 7 eexists; rewrite <- !app_assoc; reflexivity).
Qed.

(** ** [train]: the whole loop *)

Section TrainingLoop.
(** [split_and_load] yields one slice per context. *)
Hypothesis split_and_load_length :
  forall (t : NDArray) (ctxs : list Context),
    length (split_and_load t ctxs) = length ctxs.

Lemma advances_train (model : Model)
    (train_data val_data test_data : list (NDArray * NDArray))
    (epochs : Z) (lr : F) (w : World) :
  advances run_of w
    (snd (train model train_data val_data test_data epochs lr w)).
Proof.
  unfold train, train_epochs. apply advances_bind.
  - apply advances_for_each. intros st e w1. unfold train_epoch.
    apply advances_bind.
    + apply advances_train_batches. exact split_and_load_length.
    + intros _ w2. apply advances_train_epoch_end.
  - intros _ w1. apply advances_emit. constructor.
Qed.

(** C2. Every batch of the training loop runs, in this order: the forward
    pass of the model and the loss, inside [autograd.record()]; one backward
    pass on the accumulated loss [L]; the clipping of the global norm of the
    gradients at [grad_clip]; one [trainer.step(1)], which takes the clipped
    gradients.  In the log of a whole call of [train] every optimizer step is
    [trainer.step(1)] and comes directly after the clipping, which comes
    directly after the backward pass of the same batch. *)
Theorem train_steps_in_order (model : Model)
    (train_data val_data test_data : list (NDArray * NDArray)) :
  (forall (epoch n : Z) (total_L : F) (h0 : Hidden NDArray) (i : Z)
          (data target : NDArray) (w : World),
     exists X y,
       split_and_load data context = [X] /\
       split_and_load target context = [y] /\
       let r := w_recording w in
       let out := m_call model (w_params w) true X (detach h0) in
       let batch_L := loss (reshape_m3_m1 (fst out)) (reshape_m1 y) in
       let L := nd_radd_int 0 (nd_div_int (as_in_context batch_L (gpu 0))
                                          (nd_size X)) in
       let clipped := clip_global_norm [nd_context X] grad_clip
                        (backward (w_params w) L (w_grads w)) in
       let w' := snd (train_batch model epoch n (total_L, HList [h0])
                                  (i, (data, target)) w) in
       (exists total_L',
          fst (train_batch model epoch n (total_L, HList [h0])
                           (i, (data, target)) w) =
          Ok (total_L', HList [snd out])) /\
       (exists tail,
          w_log w' =
          w_log w ++
          [(r, ERecordEnter);
           (true, ECall X (detach h0) (snd out));
           (true, ELoss (reshape_m3_m1 (fst out)) (reshape_m1 y));
           (r, ERecordExit);
           (r, EBackward L);
           (r, EClipGlobalNorm [nd_context X] grad_clip);
           (r, EStep 1)] ++ tail /\
          (tail = [] \/ exists m, tail = [(r, EPrint m)])) /\
       w_grads w' = clipped /\
       w_params w' = trainer_step (w_lr w) 1 (w_params w) clipped) /\
  (forall (epochs : Z) (lr : F) (w : World),
     w_recording w = false ->
     exists d,
       w_log (snd (train model train_data val_data test_data epochs lr w)) =
       w_log w ++ d /\
       run_of d /\
       forall d1 b n d2,
         d = d1 ++ (b, EStep n) :: d2 ->
         b = false /\ n = 1 /\
         exists d0 x h_in h_out pred label L ctxs,
           d1 = d0 ++ [(true, ECall x h_in h_out); (true, ELoss pred label);
                       (false, ERecordExit); (false, EBackward L);
                       (false, EClipGlobalNorm ctxs grad_clip)]).
Proof.
  split.
  - intros epoch n total_L h0 i data target w.
    destruct (train_batch_run split_and_load_length model epoch n total_L h0 i
                data target w) as [X [y [EX [Ey Hrun]]]].
    exists X, y. split; [exact EX|]. split; [exact Ey|].
    cbv zeta in *. rewrite Hrun. cbn [fst snd w_log w_grads w_params].
    split; [eexists; reflexivity|].
    split; [|split; reflexivity].
    eexists. split; [reflexivity|].
    destruct ((i mod log_interval =? 0) && (0 <? i));
      [right; eexists; reflexivity | left; reflexivity].
  - intros epochs lr w Hr.
    destruct (advances_train model train_data val_data test_data epochs lr w)
      as [d [Hlog [_ Hrun]]].
    exists d. split; [exact Hlog|]. specialize (Hrun Hr).
    split; [exact Hrun|].
    intros d1 b n d2 Hd. exact (phases_step_order d d1 d2 Idle b n Hrun Hd).
Qed.

(** C6. In a batch of the training loop the forward pass of the model and
    the loss are the calls between the entry into [autograd.record()] and
    the exit from it, and autograd is recording at each of them; the backward
    pass, the clipping and the optimizer step come after the exit, with
    recording as it was before the batch.  In the log of a whole call of
    [train] that starts with recording off, autograd is recording at a call
    exactly when the call lies inside an [autograd.record()] block; the calls
    at which it is recording are forward passes and losses, and it is not
    recording at any backward pass, clipping or optimizer step. *)
Theorem recording_covers_forward_and_loss (model : Model)
    (train_data val_data test_data : list (NDArray * NDArray)) :
  (forall (epoch n : Z) (total_L : F) (h0 : Hidden NDArray) (i : Z)
          (data target : NDArray) (w : World),
     let r := w_recording w in
     let w' := snd (train_batch model epoch n (total_L, HList [h0])
                                (i, (data, target)) w) in
     exists inside after,
       w_log w' =
       w_log w ++ [(r, ERecordEnter)] ++ inside ++ [(r, ERecordExit)] ++ after /\
       (exists x h_in h_out pred label,
          inside = [(true, ECall x h_in h_out); (true, ELoss pred label)]) /\
       (exists L ctxs tail,
          after = [(r, EBackward L); (r, EClipGlobalNorm ctxs grad_clip);
                   (r, EStep 1)] ++ tail /\
          Forall (fun e => fst e = r /\ exists m, snd e = EPrint m) tail) /\
       w_recording w' = r) /\
  (forall (epochs : Z) (lr : F) (w : World),
     w_recording w = false ->
     exists d,
       w_log (snd (train model train_data val_data test_data epochs lr w)) =
       w_log w ++ d /\
       map fst d = record_scope false (map snd d) /\
       Forall (fun e => fst e = true -> is_forward_or_loss (snd e)) d /\
       Forall (fun e => is_update (snd e) -> fst e = false) d).
Proof.
  split.
  - intros epoch n total_L h0 i data target w r w'. subst w'.
    destruct (train_batch_run split_and_load_length model epoch n total_L h0 i
                data target w) as [X [y [EX [Ey Hrun]]]].
    cbv zeta in Hrun. rewrite Hrun. cbn [snd w_log w_recording].
    set (out := m_call model (w_params w) true X (detach h0)).
    exists [(true, ECall X (detach h0) (snd out));
            (true, ELoss (reshape_m3_m1 (fst out)) (reshape_m1 y))].
    eexists. split; [cbn [app]; reflexivity|].
    split; [do 5 eexists; reflexivity|].
    split; [|reflexivity].
    do 3 eexists. split; [reflexivity|].
    destruct ((i mod log_interval =? 0) && (0 <? i)); repeat constructor.
    eexists; reflexivity.
  - intros epochs lr w Hr.
    destruct (advances_train model train_data val_data test_data epochs lr w)
      as [d [Hlog [_ Hrun]]].
    exists d. split; [exact Hlog|].
    exact (phases_stamps Idle Idle d (Hrun Hr)).
Qed.
End TrainingLoop.

(** ** The state carried from batch to batch *)

(** What [carried_detached] means for two calls in a row, when [detach] on a
    tensor keeps its [value] and leaves it not [attached] to a graph. *)
Lemma carried_detached_next {V : Type} (value : NDArray -> V)
    (attached : NDArray -> bool) :
  (forall t, value (nd_detach t) = value t) ->
  (forall t, attached (nd_detach t) = false) ->
  forall calls h, carried_detached h calls ->
  forall (k : nat) a b c e,
    calls !! k = Some (a, b) -> calls !! S k = Some (c, e) ->
    c = detach b /\
    shape_of c = as_lists (shape_of b) /\
    map value (leaves c) = map value (leaves b) /\
    Forall (fun t => attached t = false) (leaves c).
Proof.
  intros Hvalue Hattached.
  induction calls as [|[h_in h_out] calls IH]; intros h Hc k a b c e Hk HSk.
  - discriminate Hk.
  - destruct Hc as [_ Hc]. destruct k as [|k].
    + simpl in Hk. injection Hk as -> ->.
      destruct calls as [|[h_in' h_out'] calls']; [discriminate HSk|].
      simpl in HSk. injection HSk as -> ->. destruct Hc as [-> _].
      split; [reflexivity|]. unfold detach.
      split; [apply detach_shape|]. rewrite detach_leaves.
      split.
      * rewrite map_map. apply map_ext. intros t. apply Hvalue.
      * apply Forall_forall. intros t Ht. apply list_elem_of_In in Ht.
        apply in_map_iff in Ht as [t' [<- _]]. apply Hattached.
    + exact (IH _ Hc k a b c e Hk HSk).
Qed.

(** A round of the loop of [evaluate_cache] that goes on to the next round
    has called the model once, with the state it was given, and hands on the
    detached state that the model returned. *)
Lemma evaluate_cache_step_detaches (model : CacheModel) (bptt : Z)
    (data_source : NDArray) (ctx : Context) st (i : Z) (w : World) st' w' :
  evaluate_cache_step model bptt data_source ctx st i w =
  (Ok (Continue st'), w') ->
  exists d h_out,
    w_log w' = w_log w ++ d /\
    calls_of d = [(snd st, h_out)] /\
    snd st' = detach h_out.
Proof.
  destruct st as [[[total_L nwh] ch] hidden]. destruct w as [wp wg wl wr wf wlog].
  unfold evaluate_cache_step. rewrite bind_run.
  destruct (0 <? i) eqn:Ei.
  - rewrite bind_run. unfold lift at 1. unfold py_truediv at 1.
    destruct (Z.eqb_spec i 0) as [->|Hi]; [discriminate Ei|].
    unfold emit at 1. cbv [log_event w_recording w_log w_params w_grads w_lr w_files].
    destruct (i =? bptt).
    { rewrite bind_run. unfold lift. destruct (py_truediv _ _); discriminate. }
    unfold get_batch. cbv zeta.
    unfold mbind, M_bind, call_cache_model, lift, mret, M_ret.
    cbv [log_event w_recording w_log w_params w_grads w_lr w_files].
    destruct (c_call _ _ _ _ _ _ _) as [[[outs nwh'] ch'] hidden'].
    cbn [snd]. destruct (py_truediv _ _); [|discriminate].
    intros E. injection E as <- <-. do 2 eexists. cbn [w_log snd].
    rewrite <- app_assoc. split; [reflexivity|]. split; reflexivity.
  - unfold mret at 1. unfold M_ret at 1.
    destruct (i =? bptt).
    { rewrite bind_run. unfold lift. destruct (py_truediv _ _); discriminate. }
    unfold get_batch. cbv zeta.
    unfold mbind, M_bind, call_cache_model, lift, mret, M_ret.
    cbv [log_event w_recording w_log w_params w_grads w_lr w_files].
    destruct (c_call _ _ _ _ _ _ _) as [[[outs nwh'] ch'] hidden'].
    cbn [snd]. destruct (py_truediv _ _); [|discriminate].
    intros E. injection E as <- <-. do 2 eexists. cbn [w_log snd].
    split; [reflexivity|]. split; reflexivity.
Qed.

(** [evaluate_cache] calls the model at most once, with the state that
    [begin_state] gives. *)
Lemma evaluate_cache_calls (model : CacheModel) (bptt : Z)
    (data_source : NDArray) (batch_size : Z) (ctx : Context) (w : World) :
  0 < bptt ->
  exists d,
    w_log (snd (evaluate_cache model bptt data_source batch_size ctx w)) =
    w_log w ++ d /\
    carried_detached (c_begin_state model batch_size mx_nd_zeros ctx)
                     (calls_of d) /\
    (length (calls_of d) <= 1)%nat.
Proof.
  intros Hb. destruct w as [wp wg wl wr wf wlog].
  destruct (Z.le_gt_cases (nd_len data_source - 1) bptt) as [Hn|Hn].
  - rewrite evaluate_cache_short by assumption.
    unfold evaluate_cache_whole. rewrite bind_run. unfold lift at 1.
    rewrite py_range_short by assumption.
    destruct (0 <? nd_len data_source - 1).
    + cbn [for_each]. unfold evaluate_cache_whole_step.
      change (0 <? 0) with false. unfold get_batch. cbv zeta.
      unfold mbind, M_bind, call_cache_model, lift, mret, M_ret.
      cbv [log_event w_recording w_log w_params w_grads w_lr w_files].
      destruct (c_call _ _ _ _ _ _ _) as [[[outs nwh'] ch'] hidden'].
      cbn [snd]. destruct (py_truediv _ (nd_shape1 _));
        [destruct (py_truediv _ _)|]; cbn [snd w_log];
        (eexists; split; [reflexivity|]; cbn [calls_of carried_detached length];
         repeat split; lia).
    + cbn [for_each]. unfold mbind, M_bind, lift, mret, M_ret.
      destruct (py_truediv _ _); cbn [snd w_log];
        (exists []; rewrite app_nil_r; repeat split; simpl; lia).
  - rewrite evaluate_cache_long by lia.
    unfold first_segment, get_batch. cbv zeta.
    unfold mbind, M_bind, call_cache_model, lift, mret, M_ret, emit.
    cbv [log_event w_recording w_log w_params w_grads w_lr w_files].
    destruct (c_call _ _ _ _ _ _ _) as [[[outs nwh'] ch'] hidden'].
    cbn [snd]. destruct (py_truediv _ (nd_shape1 _)); cbn [snd w_log].
    + rewrite <- app_assoc. eexists. split; [reflexivity|].
      cbn [app calls_of carried_detached length]. repeat split; lia.
    + eexists. split; [reflexivity|].
      cbn [calls_of carried_detached length]. repeat split; lia.
Qed.

Section CarriedState.
(** [split_and_load] yields one slice per context. *)
Hypothesis split_and_load_length :
  forall (t : NDArray) (ctxs : list Context),
    length (split_and_load t ctxs) = length ctxs.

(** C3. In [evaluate], in the batches of an epoch of [train] and in
    [evaluate_cache], the model is called once per batch, and every call
    after the first receives the detached state that the call before it
    returned (the first receives the state [begin_state] gives, detached in
    [train]).  So, [detach] on a tensor keeping its value and cutting it from
    the graph, the state that enters a batch has the values of the state
    that left the batch before it, and none of its tensors is attached to a
    graph. *)
Theorem hidden_state_detached_between_batches :
  (forall (model : Model) (data_source : list (NDArray * NDArray))
          (batch_size : Z) (ctx : Context) (w : World),
     exists d,
       w_log (snd (evaluate model data_source batch_size ctx w)) =
       w_log w ++ d /\
       length (calls_of d) = length data_source /\
       carried_detached (m_begin_state model batch_size mx_nd_zeros ctx)
                        (calls_of d)) /\
  (forall (model : Model) (epoch : Z) (train_data : list (NDArray * NDArray))
          (w : World),
     exists d,
       w_log (snd (train_batches model epoch train_data w)) = w_log w ++ d /\
       length (calls_of d) = length train_data /\
       carried_detached
         (detach (m_begin_state model (batch_size / len context) mx_nd_zeros
                                (gpu 0)))
         (calls_of d)) /\
  (forall (model : CacheModel) (bptt : Z) (data_source : NDArray)
          (batch_size : Z) (ctx : Context) (w : World),
     0 < bptt ->
     (exists d,
        w_log (snd (evaluate_cache model bptt data_source batch_size ctx w)) =
        w_log w ++ d /\
        carried_detached (c_begin_state model batch_size mx_nd_zeros ctx)
                         (calls_of d)) /\
     (forall st i w0 st' w',
        evaluate_cache_step model bptt data_source ctx st i w0 =
        (Ok (Continue st'), w') ->
        exists d h_out,
          w_log w' = w_log w0 ++ d /\
          calls_of d = [(snd st, h_out)] /\
          snd st' = detach h_out)) /\
  (forall (V : Type) (value : NDArray -> V) (attached : NDArray -> bool),
     (forall t, value (nd_detach t) = value t) ->
     (forall t, attached (nd_detach t) = false) ->
     forall calls h, carried_detached h calls ->
     forall (k : nat) a b c e,
       calls !! k = Some (a, b) -> calls !! S k = Some (c, e) ->
       c = detach b /\
       shape_of c = as_lists (shape_of b) /\
       map value (leaves c) = map value (leaves b) /\
       Forall (fun t => attached t = false) (leaves c)).
Proof.
  split; [|split; [|split]].
  - intros model data_source bs ctx w. rewrite evaluate_run'. cbn [snd].
    eexists. split; [reflexivity|]. split; [|apply eval_entries_calls].
    generalize (m_begin_state model bs mx_nd_zeros ctx).
    induction data_source as [|[data target] ds IH]; intros h; simpl;
      [reflexivity | rewrite IH; reflexivity].
  - intros model epoch train_data w.
    destruct (train_batches_summary split_and_load_length model epoch
                train_data w) as [st [w' [d [E [L [_ [C [N _]]]]]]]].
    rewrite E. exists d. cbn [snd]. repeat split; assumption.
  - intros model bptt data_source bs ctx w Hb. split.
    + destruct (evaluate_cache_calls model bptt data_source bs ctx w Hb)
        as [d [L [C _]]]. exists d. split; assumption.
    + intros st i w0 st' w'. apply evaluate_cache_step_detaches.
  - intros V value attached. apply carried_detached_next.
Qed.
End CarriedState.

(** ** More on [get_batch] *)

Lemma take_add_app {A} (m k : nat) (l : list A) :
  take (m + k) l = take m l ++ take k (drop m l).
Proof.
  revert l. induction m as [|m IH]; intros l; [reflexivity|].
  destruct l as [|x l]; simpl.
  - destruct k; reflexivity.
  - rewrite IH. reflexivity.
Qed.


(** X1. A positive [seq_len] passed to [get_batch] takes the place of the
    global [bptt]: for [0 <= i <= len(data_source) - 1] both slices have
    length [min(seq_len, len(data_source) - 1 - i)], and they start at [i]
    and at [i + 1]. *)
Theorem get_batch_explicit_seq_len {A} (bptt seq_len : Z)
    (data_source : list A) (i : Z) :
  0 < seq_len ->
  0 <= i <= len data_source - 1 ->
  let L := Z.min seq_len (len data_source - 1 - i) in
  get_batch bptt data_source i (Some seq_len) =
  (take (Z.to_nat L) (drop (Z.to_nat i) data_source),
   take (Z.to_nat L) (drop (Z.to_nat (i + 1)) data_source)) /\
  len (fst (get_batch bptt data_source i (Some seq_len))) = L /\
  len (snd (get_batch bptt data_source i (Some seq_len))) = L.
Proof.
  intros Hs Hi L. unfold get_batch. cbn [sl_len sl_slice list_Sliceable fst snd].
  destruct (Z.eqb_spec seq_len 0) as [E|_]; [lia|]. fold L.
  assert (HL : 0 <= L) by (unfold L; lia).
  assert (HL' : i + 1 + L <= len data_source) by (unfold L; lia).
  rewrite !py_slice_length by lia.
  rewrite !py_slice_inside by lia.
  split; [|split; lia].
  f_equal; do 2 f_equal; lia.
Qed.


Lemma range_from_done (fuel : nat) (a n step : Z) :
  0 < step -> n <= a -> range_from fuel a n step = [].
Proof.
  intros Hs Ha. destruct fuel as [|fuel]; [reflexivity|]. simpl.
  destruct (Z.ltb_spec 0 step); [|lia].
  destruct (Z.ltb_spec a n); [lia | reflexivity].
Qed.

(** The batches addressed by the indices from [a] on cover
    [data_source[a : n]], and their targets [data_source[a+1 : n+1]], for
    [n = len(data_source) - 1]. *)
Lemma range_from_tiles {A} (bptt : Z) (data_source : list A) :
  0 < bptt ->
  forall (fuel : nat) (a : Z),
    0 <= a <= len data_source - 1 ->
    (Z.to_nat (len data_source - 1 - a) <= fuel)%nat ->
    let idx := range_from fuel a (len data_source - 1) bptt in
    concat (map (fun i => fst (get_batch bptt data_source i None)) idx) =
    take (Z.to_nat (len data_source - 1 - a)) (drop (Z.to_nat a) data_source) /\
    concat (map (fun i => snd (get_batch bptt data_source i None)) idx) =
    take (Z.to_nat (len data_source - 1 - a))
         (drop (Z.to_nat (a + 1)) data_source) /\
    Forall (fun i => 0 < len (fst (get_batch bptt data_source i None)) <= bptt)
           idx.
Proof.
  intros Hb. set (n := len data_source - 1).
  induction fuel as [|fuel IH]; intros a Ha Hfuel; cbn zeta.
  - replace (Z.to_nat (n - a)) with 0%nat by lia. simpl.
    repeat split. constructor.
  - cbn [range_from]. destruct (Z.ltb_spec 0 bptt); [|lia].
    destruct (Z.ltb_spec a n) as [Han|Han].
    + cbn [map concat].
      assert (Hget : get_batch bptt data_source a None =
                     (take (Z.to_nat (Z.min bptt (n - a)))
                           (drop (Z.to_nat a) data_source),
                      take (Z.to_nat (Z.min bptt (n - a)))
                           (drop (Z.to_nat (a + 1)) data_source))).
      { unfold get_batch. cbn [sl_len sl_slice list_Sliceable]. fold n.
        rewrite !py_slice_inside by (unfold n in *; lia).
        f_equal; do 2 f_equal; lia. }
      rewrite Hget. cbn [fst snd].
      destruct (Z.le_gt_cases (a + bptt) n) as [Hle|Hgt].
      * destruct (IH (a + bptt)) as [IH1 [IH2 IH3]]; [lia | lia |].
        cbn zeta in IH1, IH2, IH3. rewrite IH1, IH2.
        rewrite Z.min_l by lia.
        replace (Z.to_nat (n - a))
          with (Z.to_nat bptt + Z.to_nat (n - (a + bptt)))%nat by lia.
        rewrite !take_add_app, !drop_drop.
        replace (Z.to_nat (a + bptt)) with (Z.to_nat a + Z.to_nat bptt)%nat
          by lia.
        replace (Z.to_nat (a + bptt + 1))
          with (Z.to_nat (a + 1) + Z.to_nat bptt)%nat by lia.
        split; [reflexivity|]. split; [reflexivity|].
        constructor; [|exact IH3].
        rewrite Hget. cbn [fst]. unfold n, len in *.
        rewrite length_take, length_drop. lia.
      * rewrite (range_from_done fuel (a + bptt) n bptt) by lia.
        cbn [map concat]. rewrite !app_nil_r, Z.min_r by lia.
        split; [reflexivity|]. split; [reflexivity|].
        constructor; [|constructor].
        rewrite Hget. cbn [fst]. unfold n, len in *.
        rewrite length_take, length_drop. lia.
    + replace (Z.to_nat (n - a)) with 0%nat by lia. simpl.
      repeat split. constructor.
Qed.

(** X3. The batches that [get_batch] cuts at the indices
    [range(0, len(data_source) - 1, bptt)] tile the sequence: their data,
    put end to end, are [data_source] without its last element, their
    targets are [data_source] without its first, and every batch holds
    between 1 and [bptt] elements. *)
Theorem get_batch_tiles_sequence {A} (bptt : Z) (data_source : list A) :
  0 < bptt ->
  exists idx,
    py_range 0 (len data_source - 1) bptt = Ok idx /\
    concat (map (fun i => fst (get_batch bptt data_source i None)) idx) =
    take (length data_source - 1) data_source /\
    concat (map (fun i => snd (get_batch bptt data_source i None)) idx) =
    drop 1 data_source /\
    Forall (fun i => 0 < len (fst (get_batch bptt data_source i None)) <= bptt)
           idx.
Proof.
  intros Hb. unfold py_range. destruct (Z.eqb_spec bptt 0); [lia|].
  eexists. split; [reflexivity|]. rewrite Z.sub_0_r.
  destruct data_source as [|x l] eqn:E.
  - assert (Elt : (0 <? bptt) = true) by (apply Z.ltb_lt; lia).
    simpl. rewrite Elt. simpl. repeat split. constructor.
  - rewrite <- E.
    destruct (range_from_tiles bptt data_source Hb
                (Z.to_nat (Z.abs (len data_source - 1))) 0) as [H1 [H2 H3]].
    + subst. unfold len. simpl. lia.
    + lia.
    + cbn zeta in H1, H2, H3. rewrite H1, H2.
      split; [|split; [|exact H3]].
      * rewrite Z.sub_0_r. unfold len. simpl. f_equal. lia.
      * rewrite Z.sub_0_r. change (Z.to_nat (0 + 1)) with 1%nat.
        apply take_ge. unfold len. rewrite length_drop. lia.
Qed.

(** ** What a statement leaves as it was *)

Section Kept.
Variable R : World -> World -> Prop.
Hypothesis R_refl : forall w, R w w.
Hypothesis R_trans : forall w1 w2 w3, R w1 w2 -> R w2 w3 -> R w1 w3.

Lemma kept_bind {A B} (m : M A) (k : A -> M B) (w : World) :
  R w (snd (m w)) -> (forall a w1, R w1 (snd (k a w1))) ->
  R w (snd ((m ≫= k) w)).
Proof.
  intros Hm Hk. rewrite bind_run. destruct (m w) as [[a|e] w1]; cbn [snd] in *.
  - eapply R_trans; [exact Hm | apply Hk].
  - exact Hm.
Qed.

Lemma kept_for_each {A S} (body : S -> A -> M S) (l : list A) :
  (forall s x w, R w (snd (body s x w))) ->
  forall s w, R w (snd (for_each l s body w)).
Proof.
  intros Hbody. induction l as [|x l IH]; intros s w; cbn [for_each].
  - apply R_refl.
  - apply kept_bind; [apply Hbody | intros a w1; apply IH].
Qed.

Lemma kept_for_each_ret {A S T} (body : S -> A -> M (Flow T S)) (l : list A) :
  (forall s x w, R w (snd (body s x w))) ->
  forall s w, R w (snd (for_each_ret l s body w)).
Proof.
  intros Hbody. induction l as [|x l IH]; intros s w; cbn [for_each_ret].
  - apply R_refl.
  - apply kept_bind; [apply Hbody|]. intros [v|s'] w1; [apply R_refl | apply IH].
Qed.

End Kept.

Lemma only_logged_refl (w : World) : only_logged w w.
Proof. repeat split. Qed.

Lemma only_logged_trans (w1 w2 w3 : World) :
  only_logged w1 w2 -> only_logged w2 w3 -> only_logged w1 w3.
Proof.
  unfold only_logged. intros [A1 [B1 [C1 [D1 E1]]]] [A2 [B2 [C2 [D2 E2]]]].
  repeat split; congruence.
Qed.

Lemma same_session_refl (w : World) : same_session w w.
Proof. repeat split. Qed.

Lemma same_session_trans (w1 w2 w3 : World) :
  same_session w1 w2 -> same_session w2 w3 -> same_session w1 w3.
Proof.
  unfold same_session. intros [A1 [B1 C1]] [A2 [B2 C2]].
  repeat split; congruence.
Qed.

Lemma same_recording_refl (w : World) : same_recording w w.
Proof. reflexivity. Qed.

Lemma same_recording_trans (w1 w2 w3 : World) :
  same_recording w1 w2 -> same_recording w2 w3 -> same_recording w1 w3.
Proof. unfold same_recording. congruence. Qed.

Lemma only_logged_log_event (w : World) (e : Event) :
  only_logged w (log_event w e).
Proof. repeat split. Qed.

Lemma only_logged_extend (w : World) (d : list Entry) :
  only_logged w (extend_log w d).
Proof. repeat split. Qed.

Lemma eval_entries_forward_or_loss (model : Model) p r ctx h ds :
  Forall (fun e => is_forward_or_loss (snd e))
         (eval_entries model p r ctx h ds) /\
  length (eval_entries model p r ctx h ds) = (2 * length ds)%nat.
Proof.
  revert h. induction ds as [|[data target] ds IH]; intros h; simpl.
  - split; [constructor | reflexivity].
  - destruct (IH (detach (snd (m_call model p r (as_in_context data ctx) h))))
      as [IH1 IH2].
    split; [repeat constructor; exact IH1 | rewrite IH2; lia].
Qed.

(** X4. [evaluate] only reads the model: it leaves the parameters, the
    gradients, the learning rate of the trainer, the recording flag and the
    files as they were, and calls nothing but the forward pass and the loss,
    once each per batch.  What it returns depends on the world through the
    parameters and the recording flag only, so evaluating again returns the
    same value. *)
Theorem evaluate_only_reads (model : Model)
    (data_source : list (NDArray * NDArray)) (batch_size : Z) (ctx : Context)
    (w : World) :
  only_logged w (snd (evaluate model data_source batch_size ctx w)) /\
  (exists d,
     w_log (snd (evaluate model data_source batch_size ctx w)) =
     w_log w ++ d /\
     length d = (2 * length data_source)%nat /\
     Forall (fun e => is_forward_or_loss (snd e)) d) /\
  (forall w2 : World,
     w_params w2 = w_params w -> w_recording w2 = w_recording w ->
     fst (evaluate model data_source batch_size ctx w2) =
     fst (evaluate model data_source batch_size ctx w)) /\
  fst (evaluate model data_source batch_size ctx
                (snd (evaluate model data_source batch_size ctx w))) =
  fst (evaluate model data_source batch_size ctx w).
Proof.
  split; [rewrite evaluate_run'; apply only_logged_extend|].
  split.
  - rewrite evaluate_run'. cbn [snd extend_log w_log]. eexists.
    split; [reflexivity|].
    destruct (eval_entries_forward_or_loss model (w_params w) (w_recording w)
                ctx (m_begin_state model batch_size mx_nd_zeros ctx)
                data_source) as [Hall Hlen].
    split; assumption.
  - split.
    + intros w2 Hp Hr. rewrite !evaluate_run'. cbn [fst]. rewrite Hp, Hr.
      reflexivity.
    + rewrite !evaluate_run'. reflexivity.
Qed.

Lemma only_logged_evaluate_cache_step (model : CacheModel) (bptt : Z)
    (data_source : NDArray) (ctx : Context) st (i : Z) (w : World) :
  only_logged w (snd (evaluate_cache_step model bptt data_source ctx st i w)).
Proof.
  destruct st as [[[total_L nwh] ch] hidden]. unfold evaluate_cache_step.
  apply (kept_bind only_logged only_logged_trans).
  - destruct (0 <? i); [|apply only_logged_refl].
    apply (kept_bind only_logged only_logged_trans); [apply only_logged_refl|].
    intros a w1. apply only_logged_log_event.
  - intros _ w1. destruct (i =? bptt).
    + apply (kept_bind only_logged only_logged_trans);
        intros; apply only_logged_refl.
    + unfold get_batch. cbv zeta.
      apply (kept_bind only_logged only_logged_trans).
      * unfold call_cache_model. cbn [snd]. apply only_logged_log_event.
      * intros [[[outs nwh'] ch'] hidden'] w2.
        apply (kept_bind only_logged only_logged_trans);
          intros; apply only_logged_refl.
Qed.

(** X5. [evaluate_cache] only reads the model, whatever [bptt] is and
    whether it returns or raises: parameters, gradients, learning rate,
    recording flag and files are as they were. *)
Theorem evaluate_cache_only_reads (model : CacheModel) (bptt : Z)
    (data_source : NDArray) (batch_size : Z) (ctx : Context) (w : World) :
  only_logged w (snd (evaluate_cache model bptt data_source batch_size ctx w)).
Proof.
  unfold evaluate_cache.
  apply (kept_bind only_logged only_logged_trans); [apply only_logged_refl|].
  intros idx w1. apply (kept_bind only_logged only_logged_trans).
  - apply (kept_for_each_ret only_logged only_logged_refl only_logged_trans).
    intros st i w2. apply only_logged_evaluate_cache_step.
  - intros [v|[[[total_L nwh] ch] hidden]] w2; apply only_logged_refl.
Qed.

Lemma same_session_log_event (w : World) (e : Event) :
  same_session w (log_event w e).
Proof. repeat split. Qed.

Lemma same_session_train_forward (model : Model) st jxyh (w : World) :
  same_session w (snd (train_forward model st jxyh w)).
Proof.
  destruct st as [[L Ls] hs]. destruct jxyh as [j [[X y] h]].
  unfold train_forward. apply (kept_bind same_session same_session_trans).
  { unfold call_model. cbn [snd]. apply same_session_log_event. }
  intros [output h1] w1. apply (kept_bind same_session same_session_trans).
  { unfold call_loss. cbn [snd]. apply same_session_log_event. }
  intros batch_L w2. apply (kept_bind same_session same_session_trans);
    intros; apply same_session_refl.
Qed.

Lemma same_session_with_record {A} (body : M A) (w : World) :
  (forall w0, same_session w0 (snd (body w0))) ->
  same_session w (snd (with_record body w)).
Proof.
  intros Hbody. unfold with_record.
  specialize (Hbody (set_recording (log_event w ERecordEnter) true)).
  destruct (body _) as [r1 w1]. cbn [fst snd] in *.
  destruct Hbody as [Hlr [_ Hfiles]]. repeat split; assumption.
Qed.

(** A batch of the training loop, whatever the state it starts from and
    whether it completes or raises. *)
Lemma same_session_train_batch (model : Model) (epoch n : Z) st ib
    (w : World) :
  same_session w (snd (train_batch model epoch n st ib w)).
Proof.
  destruct st as [total_L hiddens]. destruct ib as [i [data target]].
  unfold train_batch. apply (kept_bind same_session same_session_trans).
  - apply same_session_with_record. intros w0.
    apply (kept_for_each same_session same_session_refl same_session_trans).
    intros s x w1. apply same_session_train_forward.
  - intros [[L Ls] hs] w1. apply (kept_bind same_session same_session_trans).
    { destruct L; apply same_session_refl. }
    intros t w2. apply (kept_bind same_session same_session_trans).
    { unfold call_backward. cbn [snd]. repeat split. }
    intros _ w3. apply (kept_bind same_session same_session_trans).
    { unfold call_clip_global_norm. cbn [snd]. repeat split. }
    intros _ w4. apply (kept_bind same_session same_session_trans).
    { unfold call_step. cbn [snd]. repeat split. }
    intros _ w5. destruct ((i mod log_interval =? 0) && (0 <? i)).
    + apply (kept_bind same_session same_session_trans);
        [apply same_session_refl|]. intros cur_L w6.
      apply (kept_bind same_session same_session_trans);
        [|intros; apply same_session_refl].
      unfold emit. cbn [snd]. apply same_session_log_event.
    + apply same_session_refl.
Qed.

Lemma same_session_train_batches (model : Model) (epoch : Z)
    (train_data : list (NDArray * NDArray)) (w : World) :
  same_session w (snd (train_batches model epoch train_data w)).
Proof.
  unfold train_batches. apply (kept_bind same_session same_session_trans).
  - apply (kept_for_each same_session same_session_refl same_session_trans).
    intros hs ctx w0. apply (kept_bind same_session same_session_trans);
      intros; apply same_session_refl.
  - intros hs w1.
    apply (kept_for_each same_session same_session_refl same_session_trans).
    intros st ib w2. apply same_session_train_batch.
Qed.

Lemma same_recording_train_epoch_end (model : Model)
    (val_data test_data : list (NDArray * NDArray)) st (epoch : Z)
    (w : World) :
  same_recording w (snd (train_epoch_end model val_data test_data st epoch w)).
Proof.
  destruct st as [best_val lr]. rewrite train_epoch_end_run. cbv zeta.
  destruct (eval_result _ _ _ _ _ val_data) as [val_L|e]; [|reflexivity].
  destruct (f_ltb val_L best_val); [|reflexivity].
  destruct (eval_result _ _ _ _ _ test_data); reflexivity.
Qed.

(** X6. A batch of the training loop leaves the learning rate of the
    trainer, the files and the recording flag as they were, whatever state
    it starts from and whether it completes or raises; and a call of [train]
    leaves the recording flag as it found it, also when it raises: autograd
    is never left recording. *)
Theorem train_restores_recording (model : Model)
    (train_data val_data test_data : list (NDArray * NDArray)) :
  (forall (epoch n : Z) st ib (w : World),
     same_session w (snd (train_batch model epoch n st ib w))) /\
  (forall (epochs : Z) (lr : F) (w : World),
     w_recording (snd (train model train_data val_data test_data epochs lr w))
     = w_recording w).
Proof.
  split; [intros; apply same_session_train_batch|].
  intros epochs lr w. change (same_recording w
    (snd (train model train_data val_data test_data epochs lr w))).
  unfold train, train_epochs.
  apply (kept_bind same_recording same_recording_trans).
  - apply (kept_for_each same_recording same_recording_refl
                         same_recording_trans).
    intros st e w1. unfold train_epoch.
    apply (kept_bind same_recording same_recording_trans).
    + apply (same_session_train_batches model e train_data w1).
    + intros _ w2. apply same_recording_train_epoch_end.
  - intros _ w1. reflexivity.
Qed.


(** ** What the log shows of a training run *)

Lemma view_app {X} (g : Event -> option X) (d1 d2 : list Entry) :
  view g (d1 ++ d2) = view g d1 ++ view g d2.
Proof. apply omap_app. Qed.

Lemma for_each_ok_inv {A S} (body : S -> A -> M S) (x : A) (l : list A)
    (s s' : S) (w w' : World) :
  for_each (x :: l) s body w = (Ok s', w') ->
  exists s1 w1, body s x w = (Ok s1, w1) /\
                for_each l s1 body w1 = (Ok s', w').
Proof.
  cbn [for_each]. rewrite bind_run.
  destruct (body s x w) as [[s1|e] w1]; [|discriminate].
  intros Hrest. exists s1, w1. split; [reflexivity | exact Hrest].
Qed.

Section View.
Context {X : Type} (g : Event -> option X).

Lemma silent_refl (w : World) : grows (silent g) w w.
Proof. exists []. split; [rewrite app_nil_r|]; reflexivity. Qed.

Lemma silent_trans (w1 w2 w3 : World) :
  grows (silent g) w1 w2 -> grows (silent g) w2 w3 -> grows (silent g) w1 w3.
Proof.
  intros [d1 [E1 Q1]] [d2 [E2 Q2]]. exists (d1 ++ d2). split.
  - rewrite E2, E1, app_assoc. reflexivity.
  - unfold silent in *. rewrite view_app, Q1, Q2. reflexivity.
Qed.

Lemma silent_log_event (w : World) (e : Event) :
  g e = None -> grows (silent g) w (log_event w e).
Proof.
  intros He. exists [(w_recording w, e)]. split; [reflexivity|].
  unfold silent, view. cbn. rewrite He. reflexivity.
Qed.

Lemma view_skip (r : bool) (e : Event) (d : list Entry) :
  g e = None -> view g ((r, e) :: d) = view g d.
Proof. intros He. unfold view. cbn [omap list_omap snd]. rewrite He. reflexivity. Qed.

Lemma silent_fields (w w' : World) :
  w_log w' = w_log w -> grows (silent g) w w'.
Proof.
  intros E. exists []. split; [rewrite app_nil_r; exact E | reflexivity].
Qed.

(** A loop whose completed passes each show [tr x] shows them in turn. *)
Lemma for_each_view {A S} (body : S -> A -> M S) (tr : A -> list X) :
  (forall s x (w : World) s1 w1,
     body s x w = (Ok s1, w1) ->
     exists d, w_log w1 = w_log w ++ d /\ view g d = tr x) ->
  forall l s (w : World) s' w',
    for_each l s body w = (Ok s', w') ->
    exists d, w_log w' = w_log w ++ d /\ view g d = concat (map tr l).
Proof.
  intros Hbody. induction l as [|x l IH]; intros s w s' w' Hrun.
  - cbn in Hrun. injection Hrun as _ <-. exists []. split;
      [rewrite app_nil_r|]; reflexivity.
  - apply for_each_ok_inv in Hrun. destruct Hrun as (s1 & w1 & H1 & Hrest).
    destruct (Hbody _ _ _ _ _ H1) as (d1 & E1 & V1).
    destruct (IH _ _ _ _ Hrest) as (d2 & E2 & V2).
    exists (d1 ++ d2). split.
    + rewrite E2, E1, app_assoc. reflexivity.
    + rewrite view_app, V1, V2. reflexivity.
Qed.

Hypothesis g_call : forall x h h', g (ECall x h h') = None.
Hypothesis g_loss : forall p l, g (ELoss p l) = None.

Lemma view_eval_entries (model : Model) p r ctx h ds :
  view g (eval_entries model p r ctx h ds) = [].
Proof.
  revert h. induction ds as [|[data target] ds IH]; intros h;
    [reflexivity|].
  cbn [eval_entries]. unfold view. cbn [omap list_omap snd].
  rewrite g_call, g_loss. apply IH.
Qed.

Lemma silent_train_forward (model : Model) st jxyh (w : World) :
  grows (silent g) w (snd (train_forward model st jxyh w)).
Proof.
  destruct st as [[L Ls] hs]. destruct jxyh as [j [[x y] h]].
  unfold train_forward.
  apply (kept_bind _ silent_trans).
  { unfold call_model. cbn [snd]. apply silent_log_event, g_call. }
  intros [output h1] w1. apply (kept_bind _ silent_trans).
  { unfold call_loss. cbn [snd]. apply silent_log_event, g_loss. }
  intros batch_L w2. apply (kept_bind _ silent_trans);
    intros; apply silent_refl.
Qed.

Hypothesis g_enter : g ERecordEnter = None.
Hypothesis g_exit : g ERecordExit = None.

Lemma silent_with_record {A} (body : M A) (w : World) :
  (forall w0, grows (silent g) w0 (snd (body w0))) ->
  grows (silent g) w (snd (with_record body w)).
Proof.
  intros Hbody. unfold with_record.
  specialize (Hbody (set_recording (log_event w ERecordEnter) true)).
  destruct (body _) as [r1 w1]. cbn [fst snd] in *.
  destruct Hbody as (d & E & Q).
  exists ((w_recording w, ERecordEnter) :: d ++ [(w_recording w, ERecordExit)]).
  split.
  - cbn [log_event set_recording w_log w_recording] in *. rewrite E.
    rewrite <- !app_assoc. reflexivity.
  - unfold silent, view in *. cbn [omap list_omap snd]. rewrite g_enter.
    rewrite omap_app, Q. cbn. rewrite g_exit. reflexivity.
Qed.

Hypothesis g_backward : forall L, g (EBackward L) = None.
Hypothesis g_clip : forall c m, g (EClipGlobalNorm c m) = None.

(** A completed batch shows its optimizer step and, when it logs, its
    progress line. *)
Lemma train_batch_view (model : Model) (epoch n : Z) st (i : Z)
    (data target : NDArray) (w : World) st' w' :
  train_batch model epoch n st (i, (data, target)) w = (Ok st', w') ->
  exists d cur_L,
    w_log w' = w_log w ++ d /\
    view g d =
    view g ((false, EStep 1) ::
            (if logging i
             then [(false, EPrint (MsgBatch epoch i n cur_L))] else [])).
Proof.
  destruct st as [total_L hiddens]. unfold train_batch.
  rewrite bind_run.
  pose proof (silent_with_record
    (for_each (enumerate (zip3 (split_and_load data context)
                               (split_and_load target context)
                               (hidden_items (detach hiddens))))
              (AccInt 0, [], detach hiddens) (train_forward model)) w
    (fun w0 => kept_for_each _ silent_refl silent_trans _ _
                 (fun s x w1 => silent_train_forward model s x w1) _ _))
    as Hrec.
  destruct (with_record _ w) as [[[[L Ls] hs]|e] w1]; [|discriminate].
  cbn [snd] in Hrec. destruct Hrec as (d1 & E1 & Q1).
  destruct L as [k|t]; [discriminate|].
  destruct w1 as [wp wg wl wr wf wlog]. cbn [w_log] in E1. subst wlog.
  fold (logging i). intros Hrun.
  unfold mbind, M_bind, mret, M_ret, lift, call_backward,
    call_clip_global_norm, call_step, emit in Hrun.
  cbv [log_event set_params set_grads set_recording w_params w_recording
       w_grads w_lr w_files w_log] in Hrun.
  rewrite py_truediv_ok in Hrun by (unfold log_interval; lia).
  destruct (logging i); injection Hrun; intros <- _; cbn [w_log].
  - eexists. exists (f_div
        (f_add total_L (py_sum (map (fun l => asscalar (nd_sum l)) Ls)))
        (f_of_int log_interval)).
    split; [rewrite !snoc_app, <- app_assoc; reflexivity|].
    rewrite view_app. unfold silent in Q1. rewrite Q1.
    unfold view. cbn [omap list_omap snd app].
    rewrite g_backward, g_clip. reflexivity.
  - eexists. exists f_zero.
    split; [rewrite !snoc_app, <- app_assoc; reflexivity|].
    rewrite view_app. unfold silent in Q1. rewrite Q1.
    unfold view. cbn [omap list_omap snd app].
    rewrite g_backward, g_clip. reflexivity.
Qed.

Lemma train_batches_view (model : Model) (epoch : Z)
    (train_data : list (NDArray * NDArray)) (tr : Z -> list X)
    (w : World) st' w' :
  (forall i cur_L,
     view g ((false, EStep 1) ::
             (if logging i
              then [(false, EPrint (MsgBatch epoch i (len train_data) cur_L))]
              else [])) = tr i) ->
  train_batches model epoch train_data w = (Ok st', w') ->
  exists d,
    w_log w' = w_log w ++ d /\
    view g d = concat (map (fun ib => tr (fst ib)) (enumerate train_data)).
Proof.
  intros Htr. unfold train_batches. rewrite bind_run.
  change (for_each context [] _ w) with
    (Ok [m_begin_state model (batch_size / len context) mx_nd_zeros (gpu 0)], w).
  apply (for_each_view (train_batch model epoch (len train_data))
                       (fun ib => tr (fst ib))).
  intros s [i [data target]] w0 s1 w1 Hb.
  destruct (train_batch_view _ _ _ _ _ _ _ _ _ _ Hb) as (d & cur & E & V).
  exists d. split; [exact E|]. rewrite V. apply Htr.
Qed.

Hypothesis g_wait : g EWaitAll = None.
Hypothesis g_epoch : forall e, g (EPrint (MsgEpoch e)) = None.
Hypothesis g_valid : forall e v, g (EPrint (MsgValid e v)) = None.
Hypothesis g_rate : forall v, g (EPrint (MsgLearningRate v)) = None.
Hypothesis g_set : forall v, g (ESetLearningRate v) = None.
Hypothesis g_save : forall f, g (ESaveParams f) = None.

(** A completed epoch either saves the parameters and prints the test loss
    they have, or decays the learning rate. *)
Lemma train_epoch_outcome (model : Model)
    (train_data val_data test_data : list (NDArray * NDArray))
    (tr : Z -> list X) (best_val lr : F) (epoch : Z) (w : World)
    best_val' lr' w' :
  (forall i cur_L,
     view g ((false, EStep 1) ::
             (if logging i
              then [(false, EPrint (MsgBatch epoch i (len train_data) cur_L))]
              else [])) = tr i) ->
  train_epoch model train_data val_data test_data (best_val, lr) epoch w =
  (Ok (best_val', lr'), w') ->
  exists d,
    w_log w' = w_log w ++ d /\
    w_recording w' = w_recording w /\
    ((exists p test_L,
        eval_result model p (w_recording w) (gpu 0)
          (m_begin_state model batch_size mx_nd_zeros (gpu 0)) test_data =
        Ok test_L /\
        lr' = lr /\ w_lr w' = w_lr w /\
        w_files w' = (params_file epoch, p) :: w_files w /\
        view g d =
        concat (map (fun ib => tr (fst ib)) (enumerate train_data)) ++
        view g [(false, EPrint (MsgTest test_L))]) \/
     (lr' = decay lr /\ w_lr w' = decay lr /\ w_files w' = w_files w /\
      view g d =
      concat (map (fun ib => tr (fst ib)) (enumerate train_data)))).
Proof.
  intros Htr. unfold train_epoch. rewrite bind_run.
  pose proof (same_session_train_batches model epoch train_data w)
    as (Slr & Srec & Sfiles).
  destruct (train_batches model epoch train_data w) as [[st|e] w0] eqn:Eb;
    [|discriminate].
  destruct (train_batches_view _ _ _ _ _ _ _ Htr Eb) as (d0 & E0 & V0).
  cbn [snd] in Slr, Srec, Sfiles.
  rewrite train_epoch_end_run. cbv zeta.
  destruct (eval_result _ _ _ _ _ val_data) as [val_L|e]; [|discriminate].
  destruct (f_ltb val_L best_val).
  - destruct (eval_result _ _ _ _ _ test_data) as [test_L|e] eqn:Et;
      [|discriminate].
    intros E. injection E as <- <- <-. eexists.
    cbn [w_log w_recording w_lr w_files].
    rewrite E0, <- app_assoc. split; [reflexivity|]. split; [exact Srec|].
    left. exists (w_params w0), test_L. rewrite <- Srec, Sfiles, Slr.
    split; [exact Et|]. repeat (split; [reflexivity|]).
    rewrite view_app, V0. f_equal.
    rewrite view_skip by apply g_wait. rewrite view_skip by apply g_epoch.
    rewrite view_app, view_eval_entries. cbn [app].
    rewrite view_skip by apply g_valid.
    rewrite view_app, view_eval_entries. cbn [app].
    rewrite view_skip by apply g_save. reflexivity.
  - intros E. injection E as <- <- <-. eexists.
    cbn [w_log w_recording w_lr w_files].
    rewrite E0, <- app_assoc. split; [reflexivity|]. split; [exact Srec|].
    right. rewrite Sfiles. repeat (split; [reflexivity|]).
    rewrite view_app, V0. rewrite <- (app_nil_r (concat _)) at 2. f_equal.
    rewrite view_skip by apply g_wait. rewrite view_skip by apply g_epoch.
    rewrite view_app, view_eval_entries. cbn [app].
    rewrite view_skip by apply g_valid. rewrite view_skip by apply g_rate.
    rewrite view_skip by apply g_set. reflexivity.
Qed.

Hypothesis g_test : forall v, g (EPrint (MsgTest v)) = None.

(** The completed epochs of a run show their batches in turn. *)
Lemma train_epochs_view (model : Model)
    (train_data val_data test_data : list (NDArray * NDArray))
    (tr : Z -> Z -> list X) :
  (forall epoch i cur_L,
     view g ((false, EStep 1) ::
             (if logging i
              then [(false, EPrint (MsgBatch epoch i (len train_data) cur_L))]
              else [])) = tr epoch i) ->
  forall (es : list Z) st (w : World) st' w',
    train_epochs model train_data val_data test_data es st w =
    (Ok st', w') ->
    exists d,
      w_log w' = w_log w ++ d /\
      view g d =
      concat (map (fun epoch =>
                     concat (map (fun ib => tr epoch (fst ib))
                                 (enumerate train_data))) es).
Proof.
  intros Htr es st w st' w'. unfold train_epochs.
  apply (for_each_view
           (train_epoch model train_data val_data test_data)
           (fun epoch => concat (map (fun ib => tr epoch (fst ib))
                                     (enumerate train_data)))).
  intros [best_val lr] epoch w0 [best_val1 lr1] w1 He.
  destruct (train_epoch_outcome _ _ _ _ (tr epoch) _ _ _ _ _ _ _
              (Htr epoch) He) as (d & E & _ & Hd).
  exists d. split; [exact E|].
  destruct Hd as [(p & test_L & _ & _ & _ & _ & V)|(_ & _ & _ & V)];
    rewrite V; [|reflexivity].
  rewrite view_skip by apply g_test. apply app_nil_r.
Qed.
End View.


Lemma train_ok_inv (model : Model)
    (train_data val_data test_data : list (NDArray * NDArray))
    (epochs : Z) (lr : F) (w w' : World) :
  train model train_data val_data test_data epochs lr w = (Ok tt, w') ->
  exists st' w1,
    train_epochs model train_data val_data test_data (py_range1 epochs)
                 (f_inf, lr) w = (Ok st', w1) /\
    w' = log_event w1 (EPrint MsgTotal).
Proof.
  unfold train. rewrite bind_run.
  destruct (train_epochs _ _ _ _ _ _ w) as [[st'|e] w1]; [|discriminate].
  unfold emit. intros E. injection E as <-. exists st', w1.
  split; reflexivity.
Qed.

Lemma range_from_seq (fuel : nat) (a n : Z) :
  a + Z.of_nat fuel <= n ->
  range_from fuel a n 1 = map (fun k => a + Z.of_nat k) (seq 0 fuel).
Proof.
  revert a. induction fuel as [|fuel IH]; intros a Ha; [reflexivity|].
  cbn [range_from seq map].
  change (0 <? 1) with true. cbv iota.
  destruct (Z.ltb_spec a n) as [_|Hge]; [|lia].
  rewrite Z.add_0_r. f_equal. rewrite IH by lia.
  rewrite <- seq_shift, map_map. apply map_ext. intros k. lia.
Qed.

Lemma py_range1_seq (n : Z) :
  py_range1 n = map Z.of_nat (seq 0 (Z.to_nat n)).
Proof.
  unfold py_range1. destruct (Z.le_gt_cases 0 n) as [Hn|Hn].
  - rewrite range_from_seq by lia. apply map_ext. intros k. lia.
  - replace (Z.to_nat n) with 0%nat by lia. reflexivity.
Qed.

Lemma enumerate_from_fst {A} (k : Z) (l : list A) :
  map fst (enumerate_from k l) =
  map (fun j => k + Z.of_nat j) (seq 0 (length l)).
Proof.
  revert k. induction l as [|x l IH]; intros k; [reflexivity|].
  cbn [enumerate_from map length seq fst]. rewrite Z.add_0_r. f_equal.
  rewrite IH, <- seq_shift, map_map. apply map_ext. intros j. lia.
Qed.

Lemma enumerate_fst {A} (l : list A) :
  map fst (enumerate l) = map Z.of_nat (seq 0 (length l)).
Proof.
  unfold enumerate. rewrite enumerate_from_fst. apply map_ext. intros j. lia.
Qed.

Lemma concat_map_fst {A B C} (f : B -> list C) (l : list (B * A)) :
  concat (map (fun ib => f (fst ib)) l) = concat (map f (map fst l)).
Proof. rewrite map_map. reflexivity. Qed.

Lemma concat_map_nil {A B} (l : list A) :
  concat (map (fun _ => @nil B) l) = [].
Proof. induction l as [|x l IH]; [reflexivity | exact IH]. Qed.

Lemma concat_map_singleton {A B} (b : B) (l : list A) :
  concat (map (fun _ => [b]) l) = repeat b (length l).
Proof.
  induction l as [|x l IH]; [reflexivity|]. cbn. rewrite IH. reflexivity.
Qed.

Lemma concat_map_repeat {A B} (b : B) (n : nat) (l : list A) :
  concat (map (fun _ => repeat b n) l) = repeat b (length l * n).
Proof.
  induction l as [|x l IH]; [reflexivity|]. cbn [map concat length].
  rewrite IH, <- repeat_app. reflexivity.
Qed.

Lemma concat_map_filter {A B} (p : A -> bool) (f : A -> B) (l : list A) :
  concat (map (fun i => if p i then [f i] else []) l) =
  map f (List.filter p l).
Proof.
  induction l as [|x l IH]; [reflexivity|]. cbn [map concat List.filter].
  rewrite IH. destruct (p x); reflexivity.
Qed.

Lemma logging_below (n : nat) :
  Z.of_nat n <= log_interval ->
  List.filter logging (map Z.of_nat (seq 0 n)) = [].
Proof.
  intros Hn.
  assert (Hall : forall i, In i (map Z.of_nat (seq 0 n)) -> logging i = false).
  { intros i Hi. apply in_map_iff in Hi. destruct Hi as (k & <- & Hk).
    apply in_seq in Hk. unfold logging.
    destruct (Z.ltb_spec 0 (Z.of_nat k)) as [Hpos|_];
      [|apply andb_false_r].
    rewrite Z.mod_small by lia.
    destruct (Z.eqb_spec (Z.of_nat k) 0); [lia | reflexivity]. }
  induction (map Z.of_nat (seq 0 n)) as [|i l IH]; [reflexivity|].
  cbn [List.filter]. rewrite (Hall i) by (left; reflexivity).
  apply IH. intros j Hj. apply Hall. right. exact Hj.
Qed.

(** X7. A completed run of [train] takes exactly one optimizer step of
    size 1 per batch of each epoch, and prints a progress line for the
    batches whose index is a positive multiple of [log_interval] and for no
    other: none for batch 0, and none at all when an epoch has no more than
    [log_interval] batches. *)
Theorem train_steps_and_progress_lines (model : Model)
    (train_data val_data test_data : list (NDArray * NDArray))
    (epochs : Z) (lr : F) (w w' : World) :
  train model train_data val_data test_data epochs lr w = (Ok tt, w') ->
  exists d,
    w_log w' = w_log w ++ d /\
    steps_of d = repeat 1 (Z.to_nat epochs * length train_data) /\
    batch_lines d =
    concat (map (fun epoch =>
                   map (fun i => (epoch, i, len train_data))
                       (List.filter logging
                          (map Z.of_nat (seq 0 (length train_data)))))
                (py_range1 epochs)) /\
    (len train_data <= log_interval -> batch_lines d = []).
Proof.
  intros Hrun. apply train_ok_inv in Hrun.
  destruct Hrun as (st' & w1 & Hep & ->).
  assert (Hsteps : exists d, w_log w1 = w_log w ++ d /\
            steps_of d = repeat 1 (Z.to_nat epochs * length train_data)).
  { unfold steps_of.
    eapply (train_epochs_view step_size) with (tr := fun _ _ => [1]) in Hep;
      try (intros; reflexivity).
    - destruct Hep as (d & E & V). exists d. split; [exact E|].
      rewrite V.
      rewrite (map_ext _ (fun _ => repeat 1 (length train_data))).
      + rewrite concat_map_repeat. rewrite py_range1_seq.
        rewrite length_map, length_seq. reflexivity.
      + intros epoch. rewrite concat_map_singleton. unfold enumerate.
        f_equal. clear. generalize 0. induction train_data as [|x l IH];
          intros k; [reflexivity|]. cbn. rewrite IH. reflexivity.
    - intros epoch i cur_L. destruct (logging i); reflexivity. }
  assert (Hlines : exists d, w_log w1 = w_log w ++ d /\
            batch_lines d =
            concat (map (fun epoch =>
                           map (fun i => (epoch, i, len train_data))
                               (List.filter logging
                                  (map Z.of_nat (seq 0 (length train_data)))))
                        (py_range1 epochs))).
  { unfold batch_lines.
    eapply (train_epochs_view batch_line_of) with
      (tr := fun epoch i =>
               if logging i then [(epoch, i, len train_data)] else []) in Hep;
      try (intros; reflexivity).
    - destruct Hep as (d & E & V). exists d. split; [exact E|].
      rewrite V. f_equal. apply map_ext. intros epoch.
      rewrite (concat_map_fst
                 (fun i => if logging i then [(epoch, i, len train_data)]
                           else [])).
      rewrite enumerate_fst. apply concat_map_filter.
    - intros epoch i cur_L. destruct (logging i); reflexivity. }
  destruct Hsteps as (d & E & Vs). destruct Hlines as (d' & E' & Vl).
  assert (d' = d) as -> by (rewrite E' in E; apply app_inv_head in E; exact E).
  exists (d ++ [(w_recording w1, EPrint MsgTotal)]).
  cbn [log_event w_log]. rewrite E, <- app_assoc.
  split; [reflexivity|].
  unfold steps_of, batch_lines in *. rewrite !view_app, Vs, Vl.
  split; [apply app_nil_r|]. split; [apply app_nil_r|].
  intros Hshort. rewrite logging_below by (unfold len in Hshort; lia).
  cbn [map]. rewrite concat_map_nil. reflexivity.
Qed.


(** ** Learning rate and checkpoints over a run *)

Lemma test_loss_of_batch (epoch i n : Z) (cur_L : F) :
  test_losses
    (((false, EStep 1) ::
      (if logging i then [(false, EPrint (MsgBatch epoch i n cur_L))]
       else [])) : list Entry) = [].
Proof. destruct (logging i); reflexivity. Qed.

(** What [train_epoch_outcome] gives for the test losses. *)
Lemma train_epoch_test_loss (model : Model)
    (train_data val_data test_data : list (NDArray * NDArray))
    (best_val lr : F) (epoch : Z) (w : World) best_val' lr' w' :
  train_epoch model train_data val_data test_data (best_val, lr) epoch w =
  (Ok (best_val', lr'), w') ->
  exists d,
    w_log w' = w_log w ++ d /\
    w_recording w' = w_recording w /\
    ((exists p test_L,
        eval_result model p (w_recording w) (gpu 0)
          (m_begin_state model batch_size mx_nd_zeros (gpu 0)) test_data =
        Ok test_L /\
        lr' = lr /\ w_lr w' = w_lr w /\
        w_files w' = (params_file epoch, p) :: w_files w /\
        test_losses d = [test_L]) \/
     (lr' = decay lr /\ w_lr w' = decay lr /\ w_files w' = w_files w /\
      test_losses d = [])).
Proof.
  intros He.
  eapply (train_epoch_outcome test_loss_of) with (tr := fun _ => [])
    in He; try (intros; reflexivity); [|intros; apply test_loss_of_batch].
  destruct He as (d & E & Hr & Hd). exists d. split; [exact E|].
  split; [exact Hr|]. unfold test_losses.
  destruct Hd as [(p & test_L & Ht & Hlr & Hw & Hf & V)|(Hlr & Hw & Hf & V)];
    rewrite concat_map_nil in V.
  - left. exists p, test_L. repeat (split; [assumption|]). exact V.
  - right. repeat (split; [assumption|]). exact V.
Qed.

Lemma train_epochs_schedule (model : Model)
    (train_data val_data test_data : list (NDArray * NDArray))
    (es : list Z) :
  forall (best_val lr : F) (w : World) best_val' lr' w',
    train_epochs model train_data val_data test_data es (best_val, lr) w =
    (Ok (best_val', lr'), w') ->
    exists (k : nat) d,
      w_log w' = w_log w ++ d /\
      (k <= length es)%nat /\
      lr' = Nat.iter k decay lr /\
      w_lr w' = match k with O => w_lr w | S _ => lr' end /\
      length (w_files w') = (length (w_files w) + (length es - k))%nat /\
      length (test_losses d) = (length es - k)%nat.
Proof.
  induction es as [|e es IH]; intros best_val lr w best_val' lr' w' Hrun.
  - cbn in Hrun. injection Hrun as <- <- <-. exists 0%nat, [].
    rewrite app_nil_r. cbn. repeat split; lia.
  - apply for_each_ok_inv in Hrun.
    destruct Hrun as ([best_val1 lr1] & w1 & He & Hrest).
    apply train_epoch_test_loss in He.
    destruct He as (d1 & E1 & _ & Hd).
    apply IH in Hrest.
    destruct Hrest as (k & d2 & E2 & Hk & Hlr & Hw & Hf & Ht).
    unfold test_losses in *.
    destruct Hd as [(p & test_L & _ & -> & Hw1 & Hf1 & V)|(-> & Hw1 & Hf1 & V)].
    + exists k, (d1 ++ d2). rewrite E2, E1, <- app_assoc.
      split; [reflexivity|]. split; [cbn [length]; lia|].
      split; [exact Hlr|]. split; [rewrite Hw, Hw1; reflexivity|].
      rewrite Hf, Hf1, view_app, V, length_app, Ht. cbn [length].
      split; lia.
    + exists (S k), (d1 ++ d2). rewrite E2, E1, <- app_assoc.
      split; [reflexivity|]. split; [cbn [length]; lia|].
      split; [rewrite Nat.iter_succ_r; exact Hlr|].
      split.
      * rewrite Hw. destruct k; [|reflexivity].
        rewrite Hw1, Hlr. reflexivity.
      * rewrite Hf, Hf1, view_app, V. cbn [app]. rewrite Ht.
        cbn [length]. split; lia.
Qed.

(** X8. In a completed run of [train] every epoch either saves the
    parameters and prints a test loss, or multiplies the learning rate by
    0.25 and sets it in the trainer, never both.  After [k] decays the
    trainer has [lr] times 0.25, [k] times; when no epoch decays, the
    learning rate of the trainer is as it was, whatever the argument [lr]
    is. *)
Theorem train_decays_or_saves (model : Model)
    (train_data val_data test_data : list (NDArray * NDArray))
    (epochs : Z) (lr : F) (w w' : World) :
  train model train_data val_data test_data epochs lr w = (Ok tt, w') ->
  exists (k : nat) d,
    w_log w' = w_log w ++ d /\
    (k <= Z.to_nat epochs)%nat /\
    w_lr w' = match k with O => w_lr w | S _ => Nat.iter k decay lr end /\
    length (w_files w') = (length (w_files w) + (Z.to_nat epochs - k))%nat /\
    length (test_losses d) = (Z.to_nat epochs - k)%nat.
Proof.
  intros Hrun. apply train_ok_inv in Hrun.
  destruct Hrun as ([best_val' lr'] & w1 & Hep & ->).
  apply train_epochs_schedule in Hep.
  destruct Hep as (k & d & E & Hk & Hlr & Hw & Hf & Ht).
  rewrite py_range1_seq, length_map, length_seq in *.
  exists k, (d ++ [(w_recording w1, EPrint MsgTotal)]).
  cbn [log_event w_log w_lr w_files]. rewrite E, <- app_assoc.
  split; [reflexivity|]. split; [exact Hk|].
  split; [rewrite Hw; destruct k; [reflexivity | exact Hlr]|].
  split; [exact Hf|].
  unfold test_losses in *. rewrite view_app, length_app, Ht. cbn. lia.
Qed.

Lemma string_length_app (s t : string) :
  String.length (s +:+ t) = (String.length s + String.length t)%nat.
Proof.
  induction s as [|c s IH]; [reflexivity|].
  change (S (String.length (s +:+ t)) =
          S (String.length s + String.length t)).
  rewrite IH. reflexivity.
Qed.

Lemma string_app_inv_tail (s1 s2 t : string) :
  s1 +:+ t = s2 +:+ t -> s1 = s2.
Proof.
  revert s2. induction s1 as [|c s1 IH]; intros [|c2 s2] E.
  - reflexivity.
  - apply (f_equal String.length) in E. rewrite !string_length_app in E.
    cbn [String.length] in E. lia.
  - apply (f_equal String.length) in E. rewrite !string_length_app in E.
    cbn [String.length] in E. lia.
  - cbn in E. injection E as -> E. f_equal. apply IH. exact E.
Qed.

Lemma params_file_inj (a b : Z) : params_file a = params_file b -> a = b.
Proof.
  unfold params_file. intros E.
  apply String.app_inj in E. apply String.app_inj in E.
  apply String.app_inj in E. apply String.app_inj in E.
  apply string_app_inv_tail in E. apply pretty_Z_inj in E. exact E.
Qed.

Lemma train_epochs_checkpoints (model : Model)
    (train_data val_data test_data : list (NDArray * NDArray))
    (es : list Z) :
  forall (st : F * F) (w : World) st' w',
    train_epochs model train_data val_data test_data es st w =
    (Ok st', w') ->
    exists d saved,
      w_log w' = w_log w ++ d /\
      w_recording w' = w_recording w /\
      w_files w' = rev saved ++ w_files w /\
      Forall2 (fun file v =>
                 eval_result model (snd file) (w_recording w) (gpu 0)
                   (m_begin_state model batch_size mx_nd_zeros (gpu 0))
                   test_data = Ok v)
              saved (test_losses d) /\
      sublist (map fst saved) (map params_file es).
Proof.
  induction es as [|e es IH]; intros st w st' w' Hrun.
  - cbn in Hrun. injection Hrun as <- <-. exists [], [].
    rewrite app_nil_r. repeat split; constructor.
  - apply for_each_ok_inv in Hrun.
    destruct Hrun as ([best_val1 lr1] & w1 & He & Hrest).
    destruct st as [best_val lr].
    apply train_epoch_test_loss in He.
    destruct He as (d1 & E1 & Hr1 & Hd).
    apply IH in Hrest.
    destruct Hrest as (d2 & saved & E2 & Hr2 & Hf & Hall & Hsub).
    rewrite Hr1 in Hall. unfold test_losses in *.
    destruct Hd as [(p & test_L & Ht & _ & _ & Hf1 & V)|(_ & _ & Hf1 & V)].
    + exists (d1 ++ d2), ((params_file e, p) :: saved).
      rewrite E2, E1, <- app_assoc. split; [reflexivity|].
      split; [rewrite Hr2; exact Hr1|].
      split; [rewrite Hf, Hf1; cbn [rev]; rewrite <- app_assoc; reflexivity|].
      rewrite view_app, V. cbn [app map fst].
      split; [constructor; [exact Ht | exact Hall]|].
      apply sublist_skip. exact Hsub.
    + exists (d1 ++ d2), saved.
      rewrite E2, E1, <- app_assoc. split; [reflexivity|].
      split; [rewrite Hr2; exact Hr1|].
      split; [rewrite Hf, Hf1; reflexivity|].
      rewrite view_app, V. cbn [app map].
      split; [exact Hall|]. apply sublist_cons. exact Hsub.
Qed.

(** X9. In a completed run of [train] the files saved and the test losses
    printed go together: each file saved holds parameters whose loss on the
    test data is the test loss printed with it, the files are named after
    epochs of the run in the order of the epochs, and no two of them have
    the same name, so that no checkpoint of the run is overwritten. *)
Theorem train_checkpoints_hold_test_losses (model : Model)
    (train_data val_data test_data : list (NDArray * NDArray))
    (epochs : Z) (lr : F) (w w' : World) :
  train model train_data val_data test_data epochs lr w = (Ok tt, w') ->
  exists d saved,
    w_log w' = w_log w ++ d /\
    w_files w' = rev saved ++ w_files w /\
    Forall2 (fun file v =>
               eval_result model (snd file) (w_recording w) (gpu 0)
                 (m_begin_state model batch_size mx_nd_zeros (gpu 0))
                 test_data = Ok v)
            saved (test_losses d) /\
    sublist (map fst saved) (map params_file (py_range1 epochs)) /\
    NoDup (map fst saved).
Proof.
  intros Hrun. apply train_ok_inv in Hrun.
  destruct Hrun as (st' & w1 & Hep & ->).
  apply train_epochs_checkpoints in Hep.
  destruct Hep as (d & saved & E & _ & Hf & Hall & Hsub).
  exists (d ++ [(w_recording w1, EPrint MsgTotal)]), saved.
  cbn [log_event w_log w_files]. rewrite E, <- app_assoc.
  split; [reflexivity|]. split; [exact Hf|].
  unfold test_losses in *. rewrite view_app. cbn. rewrite app_nil_r.
  split; [exact Hall|]. split; [exact Hsub|].
  apply (sublist_NoDup _ _) with (2 := Hsub).
  apply (NoDup_fmap_2_strong params_file).
  - intros a b _ _. apply params_file_inj.
  - rewrite py_range1_seq. apply (NoDup_fmap_2_strong Z.of_nat).
    + intros a b _ _. apply Nat2Z.inj.
    + apply NoDup_seq.
Qed.

(** X10. The name of the file of the parameters tells the epoch: two
    epochs never share a file. *)
Theorem params_file_tells_epoch (a b : Z) :
  params_file a = params_file b <-> a = b.
Proof.
  split; [apply params_file_inj | intros ->; reflexivity].
Qed.


(** ** Runs that complete *)


Section Completion.
Hypothesis split_and_load_length :
  forall (t : NDArray) (ctxs : list Context),
    length (split_and_load t ctxs) = length ctxs.
Hypothesis nd_size_pos : forall t : NDArray, 0 < nd_size t.


End Completion.

(** ** [evaluate_cache] on short inputs *)




(** ** The losses of the progress lines *)

Lemma progress_window (m : nat) :
  forall (acc : F) (k0 : Z) (xs : list F),
    (forall j, k0 <= j < k0 + Z.of_nat m -> logging j = false) ->
    logging (k0 + Z.of_nat m) = true ->
    (m < length xs)%nat ->
    progress acc k0 xs =
    (k0 + Z.of_nat m,
     f_div (window_sum acc (take (S m) xs)) (f_of_int log_interval))
    :: progress f_zero (k0 + Z.of_nat m + 1) (drop (S m) xs).
Proof.
  induction m as [|m IH]; intros acc k0 xs Hquiet Hlog Hlen.
  - destruct xs as [|x xs]; [cbn in Hlen; lia|].
    rewrite Z.add_0_r in *. cbn [progress]. rewrite Hlog. reflexivity.
  - destruct xs as [|x xs]; [cbn in Hlen; lia|].
    cbn [progress]. rewrite (Hquiet k0) by lia.
    rewrite (IH _ (k0 + 1) xs).
    + replace (k0 + 1 + Z.of_nat m) with (k0 + Z.of_nat (S m)) by lia.
      reflexivity.
    + intros j Hj. apply Hquiet. lia.
    + replace (k0 + 1 + Z.of_nat m) with (k0 + Z.of_nat (S m)) by lia.
      exact Hlog.
    + cbn [length] in Hlen. lia.
Qed.

Lemma logging_between (q j : Z) :
  0 <= q -> q * log_interval < j < (q + 1) * log_interval ->
  logging j = false.
Proof.
  intros Hq Hj. unfold logging, log_interval in *.
  destruct (Z.eqb_spec (j mod 200) 0) as [E|_]; [|reflexivity].
  assert (j = 200 * (j / 200)) by (pose proof (Z.div_mod j 200); lia).
  assert (q < j / 200 < q + 1) by lia. lia.
Qed.

Lemma logging_multiple (q : Z) : 0 < q -> logging (q * log_interval) = true.
Proof.
  intros Hq. unfold logging, log_interval.
  rewrite Z.mod_mul by lia.
  destruct (Z.ltb_spec 0 (q * 200)) as [_|]; [reflexivity | lia].
Qed.

Section ProgressLines.
Hypothesis split_and_load_length :
  forall (t : NDArray) (ctxs : list Context),
    length (split_and_load t ctxs) = length ctxs.

Lemma train_loop_progress (model : Model) (epoch n : Z)
    (ds : list (NDArray * NDArray)) :
  forall (k : Z) (total_L : F) (h0 : Hidden NDArray) (w : World),
  exists d,
    w_log (snd (for_each (enumerate_from k ds) (total_L, HList [h0])
                         (train_batch model epoch n) w)) = w_log w ++ d /\
    length (slice_losses None d) = length ds /\
    progress_values d = progress total_L k (slice_losses None d).
Proof.
  induction ds as [|[data target] ds IH]; intros k total_L h0 w.
  - exists []. cbn. rewrite app_nil_r. repeat split; reflexivity.
  - destruct (train_batch_run split_and_load_length model epoch n total_L h0
                k data target w) as (X & y & _ & _ & Hrun).
    cbv zeta in Hrun. cbn [enumerate_from for_each].
    rewrite bind_run, Hrun. clear Hrun.
    fold (logging k).
    match goal with
    | |- context [for_each _ ?s _ ?w1] =>
        destruct (IH (k + 1) (fst s) (snd (m_call model (w_params w) true X
                                                  (detach h0))) w1)
          as (d2 & E2 & L2 & V2)
    end.
    cbn [fst] in E2. cbn [w_log] in E2.
    eexists. split; [rewrite E2, <- app_assoc; reflexivity|].
    unfold progress_values, view in *.
    destruct (logging k) eqn:Hk;
      cbn [app slice_losses omap list_omap snd progress_value_of length
           progress];
      rewrite Hk, L2;
      (split; [reflexivity|]);
      rewrite V2; reflexivity.
Qed.

(** X13. The progress lines of an epoch show the running loss: every batch
    adds [sum([mx.nd.sum(batch_L / X.size).asscalar()])] to it, and a batch
    that logs shows it divided by [log_interval] and puts it back to zero.
    The batch with index 0 does not log, so the first line, at batch 200,
    shows the losses of the 201 batches 0 to 200 divided by 200, and the
    second line, at batch 400, the losses of the 200 batches 201 to 400
    divided by 200. *)
Theorem progress_lines_show_running_loss (model : Model) (epoch : Z)
    (train_data : list (NDArray * NDArray)) (w : World) :
  exists d,
    w_log (snd (train_batches model epoch train_data w)) = w_log w ++ d /\
    let xs := slice_losses None d in
    length xs = length train_data /\
    progress_values d = progress f_zero 0 xs /\
    (200 < len train_data ->
     progress_values d !! 0%nat =
     Some (200, f_div (window_sum f_zero (take 201 xs)) (f_of_int 200))) /\
    (400 < len train_data ->
     progress_values d !! 1%nat =
     Some (400, f_div (window_sum f_zero (take 200 (drop 201 xs)))
                      (f_of_int 200))).
Proof.
  unfold train_batches. rewrite bind_run.
  change (for_each context [] _ w) with
    (Ok [m_begin_state model (batch_size / len context) mx_nd_zeros (gpu 0)], w).
  destruct (train_loop_progress model epoch (len train_data) train_data 0
              f_zero (m_begin_state model (batch_size / len context)
                                    mx_nd_zeros (gpu 0)) w)
    as (d & E & Hlen & V).
  exists d. split; [exact E|]. cbv zeta.
  split; [exact Hlen|]. split; [exact V|].
  assert (H1 : forall xs : list F, (200 < length xs)%nat ->
            progress f_zero 0 xs =
            (200, f_div (window_sum f_zero (take 201 xs)) (f_of_int 200))
            :: progress f_zero 201 (drop 201 xs)).
  { intros xs Hxs.
    rewrite (progress_window 200 f_zero 0 xs); [reflexivity| | |exact Hxs].
    - intros j Hj. destruct (Z.eq_dec j 0) as [->|Hne]; [reflexivity|].
      apply (logging_between 0); unfold log_interval; lia.
    - apply (logging_multiple 1). lia. }
  assert (H2 : forall xs : list F, (199 < length xs)%nat ->
            progress f_zero 201 xs =
            (400, f_div (window_sum f_zero (take 200 xs)) (f_of_int 200))
            :: progress f_zero 401 (drop 200 xs)).
  { intros xs Hxs.
    rewrite (progress_window 199 f_zero 201 xs); [reflexivity| | |exact Hxs].
    - intros j Hj. apply (logging_between 1); unfold log_interval; lia.
    - apply (logging_multiple 2). lia. }
  unfold len in *. split.
  - intros Hlong. rewrite V, H1 by lia. reflexivity.
  - intros Hlong. rewrite V, H1 by lia. cbn [lookup list_lookup].
    rewrite H2 by (rewrite length_drop; lia). reflexivity.
Qed.
End ProgressLines.

End Properties.

(** ** The properties on the small instance *)

(** C1, as stated, fails: with [bptt = 2000] and a sequence of 2002 tokens,
    each of negative log-probability 1, [evaluate_cache] returns
    [2000 / 2000] after one call of the model, where the mean over the whole
    sequence is [2001 / 2002], after two. *)
Lemma evaluate_cache_not_whole_sequence :
  fst (evaluate_cache toy_cache_model 2000 toy_tokens 1 (gpu 0) toy_world)
  = Ok (Fin 1) /\
  fst (evaluate_cache_whole toy_cache_model 2000 toy_tokens 1 (gpu 0)
                            toy_world)
  = Ok (Fin (2001 # 2002)) /\
  length (calls_of (w_log (snd (evaluate_cache toy_cache_model 2000
                                  toy_tokens 1 (gpu 0) toy_world)))) = 1%nat /\
  length (calls_of (w_log (snd (evaluate_cache_whole toy_cache_model 2000
                                  toy_tokens 1 (gpu 0) toy_world)))) = 2%nat /\
  evaluate_cache toy_cache_model 2000 toy_tokens 1 (gpu 0) toy_world <>
  evaluate_cache_whole toy_cache_model 2000 toy_tokens 1 (gpu 0) toy_world.
Proof.
  repeat split; try (vm_compute; reflexivity).
  intros E. apply (f_equal fst) in E. vm_compute in E. discriminate E.
Qed.

(** On that sequence the result is the loss of the first segment over
    [bptt]. *)
Lemma evaluate_cache_scores_first_segment_witness :
  evaluate_cache toy_cache_model 2000 toy_tokens 1 (gpu 0) toy_world =
  (total_L ← first_segment toy_cache_model 2000 toy_tokens 1 (gpu 0);
   _ ← emit (EPrint (MsgCacheBatch 2000 (f_div total_L (f_of_int 2000))));
   mret (f_div total_L (f_of_int 2000))) toy_world.
Proof.
  apply (evaluate_cache_scores_first_segment toy_cache_model 2000 toy_tokens
           1 (gpu 0) toy_world); vm_compute; reflexivity.
Defined.

(** An empty sequence, and empty validation data. *)
Lemma empty_data_source_raises_witness :
  evaluate_cache toy_cache_model 2000 [] 1 (gpu 0) toy_world =
  (Raise ZeroDivisionError, toy_world) /\
  exists e w',
    train toy_model toy_batches [] toy_batches 3 (Fin 20) toy_world =
    (Raise e, w').
Proof.
  split.
  - apply (proj1 (proj2 empty_data_source_raises) toy_cache_model 2000 [] 1
                 (gpu 0) toy_world); vm_compute; reflexivity.
  - apply (proj2 (proj2 empty_data_source_raises) toy_model toy_batches
                 toy_batches 3 (Fin 20) toy_world). reflexivity.
Defined.

(** Two batches of three tokens, each of loss 1: the mean is 1. *)
Lemma evaluate_mean_loss_witness :
  fst (evaluate toy_model toy_batches 20 (gpu 0) toy_world) = Ok (Fin 1).
Proof.
  refine (proj1 (proj2
    (evaluate_mean_loss toy_model toy_batches 20 (gpu 0) toy_world _ _))).
  - discriminate.
  - intros t. simpl. lia.
Defined.



Lemma toy_split_and_load_length (t : list Z) (ctxs : list Context) :
  length (split_and_load t ctxs) = length ctxs.
Proof. simpl. apply length_map. Qed.

Lemma toy_ltb_irrefl (x : ToyFloat) : f_ltb x x = false.
Proof.
  destruct x as [q|]; simpl; [|reflexivity]. apply Z.ltb_irrefl.
Qed.

Lemma toy_ltb_trans (x y z : ToyFloat) :
  f_ltb x y = true -> f_ltb y z = true -> f_ltb x z = true.
Proof.
  destruct x as [a|], y as [b|], z as [c|]; simpl; intros Hxy Hyz;
    try discriminate; try reflexivity.
  apply Z.ltb_lt in Hxy, Hyz. apply Z.ltb_lt.
  exact (Qlt_trans a b c Hxy Hyz).
Qed.

(** A tuple that holds a tensor and a list of two tensors. *)
Lemma detach_structure_and_idempotence_witness :
  detach (detach (HTuple [HLeaf [1]; HList [HLeaf [2]; HLeaf [3]]])) =
  detach (HTuple [HLeaf [1]; HList [HLeaf [2]; HLeaf [3]]] : Hidden (list Z)).
Proof.
  apply (proj2 (proj2 (detach_structure_and_idempotence
                         (HTuple [HLeaf [1]; HList [HLeaf [2]; HLeaf [3]]])))).
  intros t. reflexivity.
Defined.

(** Two epochs over two batches. *)
Lemma train_steps_in_order_witness :
  exists d,
    w_log (snd (train toy_model toy_batches toy_batches toy_batches 2
                      (Fin 20) toy_world)) = w_log toy_world ++ d /\
    run_of d.
Proof.
  destruct (proj2 (train_steps_in_order toy_split_and_load_length toy_model
                     toy_batches toy_batches toy_batches)
                  2 (Fin 20) toy_world eq_refl) as [d [Hlog [Hrun _]]].
  exists d. split; assumption.
Defined.

(** Two epochs over two batches. *)
Lemma recording_covers_forward_and_loss_witness :
  exists d,
    w_log (snd (train toy_model toy_batches toy_batches toy_batches 2
                      (Fin 20) toy_world)) = w_log toy_world ++ d /\
    map fst d = record_scope false (map snd d).
Proof.
  destruct (proj2 (recording_covers_forward_and_loss
                     toy_split_and_load_length toy_model
                     toy_batches toy_batches toy_batches)
                  2 (Fin 20) toy_world eq_refl) as [d [Hlog [Hscope _]]].
  exists d. split; assumption.
Defined.

(** The calls of [evaluate_cache], one round of its loop, and the two calls
    of [evaluate] on two batches. *)
Lemma hidden_state_detached_between_batches_witness :
  (exists d,
     w_log (snd (evaluate_cache toy_cache_model 2000 toy_tokens 1 (gpu 0)
                                toy_world)) = w_log toy_world ++ d /\
     carried_detached (c_begin_state toy_cache_model 1 mx_nd_zeros (gpu 0))
                      (calls_of d)) /\
  (exists d h_out,
     w_log (snd (evaluate_cache_step toy_cache_model 2000 [1; 2; 3] (gpu 0)
                   (Fin 0, None, None, HList [HLeaf [0]; HLeaf [0]]) 0
                   toy_world)) = w_log toy_world ++ d /\
     calls_of d = [(HList [HLeaf [0]; HLeaf [0]], h_out)]) /\
  (let calls :=
     calls_of (w_log (snd (evaluate toy_model toy_batches 20 (gpu 0)
                                    toy_world))) in
   forall a b c e,
     calls !! 0%nat = Some (a, b) -> calls !! 1%nat = Some (c, e) ->
     c = detach b).
Proof.
  pose proof (@hidden_state_detached_between_batches _ _ _ _ toy_PyFloat
                toy_Framework toy_split_and_load_length)
    as [Heval [_ [Hcache Hnext]]].
  split; [|split].
  - apply (Hcache toy_cache_model 2000 toy_tokens 1 (gpu 0) toy_world).
    reflexivity.
  - destruct (proj2 (Hcache toy_cache_model 2000 [1; 2; 3] 1 (gpu 0)
                            toy_world eq_refl)
                (Fin 0, None, None, HList [HLeaf [0]; HLeaf [0]]) 0 toy_world
                (Fin 2, Some [2; 3], Some [1; 2], HList [HLeaf [0]; HLeaf [0]])
                (snd (evaluate_cache_step toy_cache_model 2000 [1; 2; 3]
                        (gpu 0)
                        (Fin 0, None, None, HList [HLeaf [0]; HLeaf [0]]) 0
                        toy_world)))
      as [d [h_out [Hlog [Hcalls _]]]].
    + vm_compute. reflexivity.
    + exists d, h_out. split; assumption.
  - intros calls a b c e Ha Hc.
    destruct (Heval toy_model toy_batches 20 (gpu 0) toy_world)
      as [d [Hlog [_ Hcarried]]].
    assert (Hd : calls = calls_of d).
    { unfold calls. rewrite Hlog. reflexivity. }
    rewrite Hd in Ha, Hc.
    exact (proj1 (Hnext (list Z) (fun t => t) (fun _ => false)
                        (fun t => eq_refl) (fun t => eq_refl)
                        (calls_of d) _ Hcarried 0%nat a b c e Ha Hc)).
Defined.

(** Two epochs from [best_val = inf], and the end of the first epoch. *)
Lemma best_val_is_running_minimum_witness :
  (exists d,
     w_log (snd (train_epochs toy_model toy_batches toy_batches toy_batches
                              [0; 1] (PosInf, Fin 20) toy_world)) =
     w_log toy_world ++ d /\
     length (valid_losses d) = 2%nat /\
     Forall (fun v => f_ltb v (Fin 1) = false) (valid_losses d)) /\
  (exists val_L,
     eval_result toy_model (w_params toy_world) false (gpu 0)
       (m_begin_state toy_model batch_size mx_nd_zeros (gpu 0)) toy_batches =
     Ok val_L /\
     f_ltb val_L PosInf = true).
Proof.
  pose proof (best_val_is_running_minimum toy_model toy_batches toy_batches
                toy_batches) as [_ [_ [Hend Hmin]]].
  split.
  - destruct (Hmin toy_ltb_irrefl toy_ltb_trans [0; 1] PosInf (Fin 20)
                toy_world (Fin 1) (Fin 5)
                (snd (train_epochs toy_model toy_batches toy_batches
                                   toy_batches [0; 1] (PosInf, Fin 20)
                                   toy_world)))
      as [d [Hlog [Hlen [_ [_ Hall]]]]].
    + vm_compute. reflexivity.
    + exists d. repeat split; assumption.
  - destruct (Hend PosInf (Fin 20) 0 toy_world (Fin 1) (Fin 20)
                (snd (train_epoch_end toy_model toy_batches toy_batches
                        (PosInf, Fin 20) 0 toy_world)))
      as [val_L [Hval [_ [[Hlt _]|[Hlt [Hbest _]]]]]].
    + vm_compute. reflexivity.
    + exists val_L. split; assumption.
    + discriminate Hbest.
Defined.

(** ** More properties on the small instance *)

Lemma get_batch_explicit_seq_len_witness :
  get_batch 5 [10; 20; 30; 40; 50] 1 (Some 2) = ([20; 30], [30; 40]).
Proof.
  assert (H1 : 0 < 2) by lia.
  assert (H2 : 0 <= 1 <= len [10; 20; 30; 40; 50] - 1)
    by (unfold len; simpl; lia).
  exact (proj1 (get_batch_explicit_seq_len 5 2 [10; 20; 30; 40; 50] 1 H1 H2)).
Defined.


Lemma get_batch_tiles_sequence_witness :
  exists idx,
    py_range 0 (len [10; 20; 30; 40; 50; 60] - 1) 2 = Ok idx /\
    concat (map (fun i => fst (get_batch 2 [10; 20; 30; 40; 50; 60] i None))
                idx) = [10; 20; 30; 40; 50] /\
    concat (map (fun i => snd (get_batch 2 [10; 20; 30; 40; 50; 60] i None))
                idx) = [20; 30; 40; 50; 60].
Proof.
  assert (H1 : 0 < 2) by lia.
  destruct (get_batch_tiles_sequence 2 [10; 20; 30; 40; 50; 60] H1)
    as (idx & Hidx & Hdata & Htarget & _).
  exists idx. repeat split; assumption.
Defined.

Lemma evaluate_only_reads_witness :
  fst (evaluate toy_model toy_batches 20 (gpu 0)
                (log_event toy_world EWaitAll)) =
  fst (evaluate toy_model toy_batches 20 (gpu 0) toy_world).
Proof.
  apply (proj1 (proj2 (proj2
    (evaluate_only_reads toy_model toy_batches 20 (gpu 0) toy_world))));
    reflexivity.
Defined.

Lemma train_steps_and_progress_lines_witness :
  exists d,
    w_log (snd (train toy_model toy_batches toy_batches toy_batches 2
                      (Fin 20) toy_world)) = w_log toy_world ++ d /\
    steps_of d = [1; 1; 1; 1] /\
    batch_lines d = [].
Proof.
  assert (Hrun :
    train toy_model toy_batches toy_batches toy_batches 2 (Fin 20) toy_world =
    (Ok tt, snd (train toy_model toy_batches toy_batches toy_batches 2
                       (Fin 20) toy_world)))
    by (vm_compute; reflexivity).
  destruct (train_steps_and_progress_lines toy_model toy_batches toy_batches
              toy_batches 2 (Fin 20) toy_world _ Hrun)
    as (d & Hlog & Hsteps & _ & Hlines).
  exists d. split; [exact Hlog|]. split; [exact Hsteps|].
  apply Hlines. vm_compute. discriminate.
Defined.

Lemma train_decays_or_saves_witness :
  exists (k : nat) d,
    w_log (snd (train toy_model toy_batches toy_batches toy_batches 2
                      (Fin 20) toy_world)) = w_log toy_world ++ d /\
    (k <= 2)%nat /\
    length (w_files (snd (train toy_model toy_batches toy_batches toy_batches
                                2 (Fin 20) toy_world))) = (2 - k)%nat /\
    length (test_losses d) = (2 - k)%nat.
Proof.
  assert (Hrun :
    train toy_model toy_batches toy_batches toy_batches 2 (Fin 20) toy_world =
    (Ok tt, snd (train toy_model toy_batches toy_batches toy_batches 2
                       (Fin 20) toy_world)))
    by (vm_compute; reflexivity).
  destruct (train_decays_or_saves toy_model toy_batches toy_batches
              toy_batches 2 (Fin 20) toy_world _ Hrun)
    as (k & d & Hlog & Hk & _ & Hfiles & Htest).
  exists k, d. repeat split; assumption.
Defined.

Lemma train_checkpoints_hold_test_losses_witness :
  exists d saved,
    w_log (snd (train toy_model toy_batches toy_batches toy_batches 2
                      (Fin 20) toy_world)) = w_log toy_world ++ d /\
    w_files (snd (train toy_model toy_batches toy_batches toy_batches 2
                        (Fin 20) toy_world)) = rev saved /\
    Forall2 (fun file v =>
               eval_result toy_model (snd file) false (gpu 0)
                 (m_begin_state toy_model batch_size mx_nd_zeros (gpu 0))
                 toy_batches = Ok v)
            saved (test_losses d) /\
    NoDup (map fst saved).
Proof.
  assert (Hrun :
    train toy_model toy_batches toy_batches toy_batches 2 (Fin 20) toy_world =
    (Ok tt, snd (train toy_model toy_batches toy_batches toy_batches 2
                       (Fin 20) toy_world)))
    by (vm_compute; reflexivity).
  destruct (train_checkpoints_hold_test_losses toy_model toy_batches
              toy_batches toy_batches 2 (Fin 20) toy_world _ Hrun)
    as (d & saved & Hlog & Hfiles & Hall & _ & Hnodup).
  exists d, saved. split; [exact Hlog|].
  split; [rewrite Hfiles; apply app_nil_r|]. split; assumption.
Defined.

Lemma params_file_tells_epoch_witness : params_file 3 <> params_file 4.
Proof.
  intros E. apply (proj1 (params_file_tells_epoch 3 4)) in E. discriminate E.
Defined.




Lemma progress_lines_show_running_loss_witness :
  exists d,
    w_log (snd (train_batches toy_model 0 (repeat ([1; 2], [2; 3]) 201)
                              toy_world)) = w_log toy_world ++ d /\
    progress_values d !! 0%nat =
    Some (200, f_div (window_sum f_zero (take 201 (slice_losses None d)))
                     (f_of_int 200)).
Proof.
  destruct (progress_lines_show_running_loss toy_split_and_load_length
              toy_model 0 (repeat ([1; 2], [2; 3]) 201) toy_world)
    as (d & Hlog & _ & _ & Hfirst & _).
  exists d. split; [exact Hlog|]. apply Hfirst. vm_compute. reflexivity.
Defined.
